(** * RipperFox backend ([yt_backend.py]): settings store, site matcher,
      job tracker, download dispatcher and yt-dlp update status.

    The Python module is embedded shallowly.  Python values that reach the
    code from JSON are values of [json]; a Python [dict] is an association
    list in insertion order with unique keys; module globals ([JOBS],
    [SETTINGS], [UPDATE_JOB], the settings file) are threaded explicitly;
    a Python exception is a value of [pyexn] carried by [result].
    Functions of Python's standard library that the module only calls
    ([urllib.parse.urlparse], [fnmatch.fnmatch], [os.makedirs]) are fields
    of the class [Host]; the [os.path] string functions are written out. *)

From Stdlib Require Import String Ascii List ZArith Lia Bool Arith.
From Stdlib Require Import DecimalString DecimalZ.
Import ListNotations.
Local Open Scope string_scope.
Local Open Scope list_scope.
Set Warnings "-register-all".

(* ===================================================================== *)
(** ** Python values                                                      *)
(* ===================================================================== *)

Module Py.

(** A raised exception: its class and [str(e)]. *)
Record pyexn := PyExn { exn_class : string; exn_msg : string }.

Inductive result (A : Type) : Type :=
| Ok (a : A)
| Raise (e : pyexn).
Arguments Ok {A} a.
Arguments Raise {A} e.

Definition rbind {A B} (r : result A) (k : A -> result B) : result B :=
  match r with
  | Ok a => k a
  | Raise e => Raise e
  end.

(** What [json.loads] produces (numbers restricted to integers). *)
Inductive json : Type :=
| JNull
| JBool (b : bool)
| JNum (n : Z)
| JStr (s : string)
| JList (l : list json)
| JDict (d : list (string * json)).

(** Python truthiness, as used by [if x:], [not x], [x or y]. *)
Definition truthy (v : json) : bool :=
  match v with
  | JNull => false
  | JBool b => b
  | JNum n => negb (n =? 0)%Z
  | JStr s => negb (s =? "")
  | JList l => match l with [] => false | _ => true end
  | JDict d => match d with [] => false | _ => true end
  end.

(** *** [str] methods *)

(** [c.isspace()] for code points below 256. *)
Definition isspace (c : ascii) : bool :=
  let n := nat_of_ascii c in
  (((9 <=? n) && (n <=? 13)) || ((28 <=? n) && (n <=? 32))
   || (n =? 133) || (n =? 160))%nat.

Definition is_star (c : ascii) : bool := Ascii.eqb c "*".

Fixpoint lstrip (f : ascii -> bool) (s : string) : string :=
  match s with
  | EmptyString => EmptyString
  | String c s' => if f c then lstrip f s' else s
  end.

Fixpoint rstrip (f : ascii -> bool) (s : string) : string :=
  match s with
  | EmptyString => EmptyString
  | String c s' =>
      match rstrip f s' with
      | EmptyString => if f c then EmptyString else String c EmptyString
      | r => String c r
      end
  end.

(** [s.strip()] is [strip isspace s]; [s.strip("*")] is [strip is_star s]. *)
Definition strip (f : ascii -> bool) (s : string) : string :=
  rstrip f (lstrip f s).

(** [s.split(sep)] for a one-character separator: never empty. *)
Fixpoint split (sep : ascii) (s : string) : list string :=
  match s with
  | EmptyString => [EmptyString]
  | String c s' =>
      if Ascii.eqb c sep then EmptyString :: split sep s'
      else match split sep s' with
           | h :: t => String c h :: t
           | [] => [String c EmptyString]
           end
  end.

(** [sub in s]. *)
Fixpoint contains (sub s : string) : bool :=
  String.prefix sub s
  || match s with
     | EmptyString => false
     | String _ s' => contains sub s'
     end.

Definition nonempty (s : string) : bool := negb (s =? "").

(** [str(n)] for an [int]. *)
Definition str_of_int (n : Z) : string := NilZero.string_of_int (Z.to_int n).

(** *** [dict]: insertion-ordered, unique keys *)

Section Dict.
Context {V : Type}.

Definition dict_keys (d : list (string * V)) : list string := map fst d.

Fixpoint dict_get (k : string) (d : list (string * V)) : option V :=
  match d with
  | [] => None
  | (k', v) :: d' => if k' =? k then Some v else dict_get k d'
  end.

Definition dict_has (k : string) (d : list (string * V)) : bool :=
  match dict_get k d with Some _ => true | None => false end.

(** [d[k] = v]: an existing key keeps its position. *)
Fixpoint dict_set (k : string) (v : V) (d : list (string * V))
  : list (string * V) :=
  match d with
  | [] => [(k, v)]
  | (k', v') :: d' =>
      if k' =? k then (k', v) :: d' else (k', v') :: dict_set k v d'
  end.

(** [del d[k]]: [None] stands for [KeyError]. *)
Fixpoint dict_del (k : string) (d : list (string * V))
  : option (list (string * V)) :=
  match d with
  | [] => None
  | (k', v') :: d' =>
      if k' =? k then Some d'
      else match dict_del k d' with
           | Some r => Some ((k', v') :: r)
           | None => None
           end
  end.

(** [d.update(e)]. *)
Definition dict_update (d e : list (string * V)) : list (string * V) :=
  fold_left (fun acc kv => dict_set (fst kv) (snd kv) acc) e d.

(** [dict(items)]. *)
Definition dict_of_items (items : list (string * V)) : list (string * V) :=
  dict_update [] items.

(** [l[start:]] and [l[:stop]] with Python's index clamping. *)
Definition slice_index (len : nat) (i : Z) : nat :=
  if (i <? 0)%Z then Z.to_nat (Z.max 0 (Z.of_nat len + i))
  else Nat.min (Z.to_nat i) len.

End Dict.

Definition slice_from {A} (i : Z) (l : list A) : list A :=
  skipn (slice_index (length l) i) l.

Definition slice_to {A} (i : Z) (l : list A) : list A :=
  firstn (slice_index (length l) i) l.

Definition KeyError (k : string) : pyexn :=
  PyExn "KeyError" ("'" ++ k ++ "'").

End Py.
Import Py.

(* ===================================================================== *)
(** ** The host: library and operating-system calls                       *)
(* ===================================================================== *)

(** [urlparse_hostname url] is [urllib.parse.urlparse(url).hostname]
    ([Raise] when [urlparse] raises, [Ok None] when the URL has no host);
    [fnmatch h p] is [fnmatch.fnmatch(h, p)]; [makedirs p] tells whether
    [os.makedirs(p, exist_ok=True)] returns (or raises [OSError]);
    [YTDLP_UPDATER_AVAILABLE] is the module constant set by the import of
    [ytdlp_updater]; [BASE_DIR], [getcwd], [home] and [tempdir] are the
    directories the module reads from the process. *)
Class Host := {
  urlparse_hostname : string -> result (option string);
  fnmatch : string -> string -> bool;
  makedirs : string -> bool;
  YTDLP_UPDATER_AVAILABLE : bool;
  BASE_DIR : string;
  getcwd : string;
  home : string;
  tempdir : string
}.

(* ===================================================================== *)
(** ** Site matcher                                                       *)
(* ===================================================================== *)

Section SiteMatcher.
Context `{Host}.

(** [[p.strip() for p in pattern_group.split(",") if p.strip()]] *)
Definition patterns_of (pattern_group : string) : list string :=
  map (strip isspace)
      (filter (fun p => nonempty (strip isspace p)) (split "," pattern_group)).

(** The test of line 274. *)
Definition pattern_matches (hostname pattern : string) : bool :=
  fnmatch hostname pattern || contains (strip is_star pattern) hostname.

(** The inner [for pattern in patterns] loop: the pattern it breaks on. *)
Fixpoint first_pattern (hostname : string) (patterns : list string)
  : option string :=
  match patterns with
  | [] => None
  | p :: ps =>
      if pattern_matches hostname p then Some p else first_pattern hostname ps
  end.

(** The outer loop over [download_dirs.items()], threading
    [(matched_pattern, matched_cfg)]; [JNull] is Python's [None]. *)
Fixpoint scan_groups (hostname : string) (groups : list (string * json))
         (matched_pattern : option string) (matched_cfg : json)
  : option string * json :=
  match groups with
  | [] => (matched_pattern, matched_cfg)
  | (pattern_group, cfg) :: rest =>
      let '(mp, mc) :=
        match first_pattern hostname (patterns_of pattern_group) with
        | Some p => (Some p, cfg)
        | None => (matched_pattern, matched_cfg)
        end in
      if truthy mc then (mp, mc) else scan_groups hostname rest mp mc
  end.

(** [parsed.hostname or ""] *)
Definition hostname_or (default : string) (h : option string) : string :=
  match h with
  | Some s => if nonempty s then s else default
  | None => default
  end.

(** [get_site_config(url, download_dirs)]; [Ok None] is [return None]. *)
Definition get_site_config (url : string) (download_dirs : list (string * json))
  : result (option json) :=
  rbind (urlparse_hostname url) (fun parsed_hostname =>
    let hostname := hostname_or "" parsed_hostname in
    let '(_, matched_cfg) := scan_groups hostname download_dirs None JNull in
    if truthy matched_cfg then Ok (Some matched_cfg) else Ok None).

End SiteMatcher.

(* ===================================================================== *)
(** ** [os.path] on POSIX                                                 *)
(* ===================================================================== *)

Module Path.

Definition startswith (p s : string) : bool := String.prefix p s.

Fixpoint endswith_char (c : ascii) (s : string) : bool :=
  match s with
  | EmptyString => false
  | String d EmptyString => Ascii.eqb d c
  | String _ s' => endswith_char c s'
  end.

(** [os.path.isabs(s)] *)
Definition isabs (s : string) : bool := startswith "/" s.

(** [os.path.join(a, b)] *)
Definition join (a b : string) : string :=
  if startswith "/" b then b
  else if (a =? "") || endswith_char "/" a then a ++ b
  else a ++ "/" ++ b.

(** One round of the loop of [normpath]; [new_comps] is kept reversed. *)
Definition normpath_step (initial_slashes : nat) (new_comps : list string)
           (comp : string) : list string :=
  if (comp =? "") || (comp =? ".") then new_comps
  else if negb (comp =? "..")
          || ((initial_slashes =? 0)%nat
              && match new_comps with [] => true | _ => false end)
          || match new_comps with c :: _ => c =? ".." | [] => false end
       then comp :: new_comps
       else match new_comps with _ :: t => t | [] => [] end.

Fixpoint repeat_string (s : string) (n : nat) : string :=
  match n with
  | O => ""
  | S n' => s ++ repeat_string s n'
  end.

(** [os.path.normpath(path)] *)
Definition normpath (path : string) : string :=
  if path =? "" then "."
  else
    let initial_slashes :=
      if startswith "/" path
      then if startswith "//" path && negb (startswith "///" path)
           then 2%nat else 1%nat
      else 0%nat in
    let comps :=
      rev (fold_left (normpath_step initial_slashes) (split "/" path) []) in
    let path' :=
      (repeat_string "/" initial_slashes ++ String.concat "/" comps)%string in
    if path' =? "" then "." else path'.

(** [os.path.abspath(path)], with the working directory [cwd]. *)
Definition abspath (cwd path : string) : string :=
  normpath (if isabs path then path else join cwd path).

(** [[c for c in s.split('/') if c and c != '.']] *)
Definition components (p : string) : list string :=
  filter (fun c => nonempty c && negb (c =? ".")) (split "/" p).

Fixpoint common_prefix (a b : list string) : list string :=
  match a, b with
  | x :: a', y :: b' => if x =? y then x :: common_prefix a' b' else []
  | _, _ => []
  end.

(** [os.path.commonpath([p, q])]: the longest common run of leading
    components ([None]: [ValueError], absolute mixed with relative). *)
Definition commonpath (p q : string) : option string :=
  if Bool.eqb (isabs p) (isabs q)
  then Some ((if isabs p then "/" else "")
             ++ String.concat "/" (common_prefix (components p) (components q)))%string
  else None.

(** [os.path.relpath(path, start)] *)
Definition relpath (cwd path start : string) : string :=
  let start_list := filter nonempty (split "/" (abspath cwd start)) in
  let path_list := filter nonempty (split "/" (abspath cwd path)) in
  let i := length (common_prefix start_list path_list) in
  let rel_list := repeat ".." (length start_list - i) ++ skipn i path_list in
  match rel_list with
  | [] => "."
  | c :: cs => fold_left join cs c
  end.

End Path.

(* ===================================================================== *)
(** ** Settings store                                                     *)
(* ===================================================================== *)

(** The settings file: absent, present but empty or not JSON, or holding
    the JSON text of [doc]. *)
Inductive file : Type :=
| Missing
| Unparseable
| Holds (doc : json).

Definition AttributeError (what : string) : pyexn :=
  PyExn "AttributeError" what.

Definition TypeError (what : string) : pyexn :=
  PyExn "TypeError" what.

Section Settings.
Context `{Host}.

(** [os.path.commonpath([abspath(p), abspath(BASE_DIR)]) == abspath(BASE_DIR)] *)
Definition under_base (p : string) : bool :=
  match Path.commonpath (Path.abspath getcwd p) (Path.abspath getcwd BASE_DIR) with
  | Some c => c =? Path.abspath getcwd BASE_DIR
  | None => false
  end.

(** The rewrite both [save_settings] and [load_settings] apply to a path
    value: [Some rel] when the value is an absolute string under
    [BASE_DIR], [None] when it is left alone. *)
Definition relativized (v : option json) : option string :=
  match v with
  | Some (JStr p) =>
      if Path.isabs p && under_base p
      then Some (Path.relpath getcwd p BASE_DIR) else None
  | _ => None
  end.

(** One round of [for k, cfg in list(download_dirs.items())]: the entry as
    the loop leaves it and whether it was rewritten; [Raise] when
    [cfg.get] does not exist. *)
Definition normalize_cfg (cfg : json) : result (json * bool) :=
  match cfg with
  | JDict d =>
      match relativized (dict_get "dir" d) with
      | Some rel => Ok (JDict (dict_set "dir" (JStr rel) d), true)
      | None => Ok (cfg, false)
      end
  | _ => Raise (AttributeError "object has no attribute 'get'")
  end.

(** The whole loop.  The configurations are mutated in place, so the
    entries visited before an exception stay rewritten. *)
Fixpoint normalize_dirs (items : list (string * json))
  : list (string * json) * bool * option pyexn :=
  match items with
  | [] => ([], false, None)
  | (k, cfg) :: rest =>
      match normalize_cfg cfg with
      | Raise e => (items, false, Some e)
      | Ok (cfg', c) =>
          let '(rest', c', err) := normalize_dirs rest in
          ((k, cfg') :: rest', c || c', err)
      end
  end.

(** [save_settings(data)]: the caller's [data] after the call (its
    [download_dirs] configurations are shared with [to_save]) and the
    settings file after the call.  Any exception leaves the file alone. *)
Definition save_settings (data : list (string * json)) (f : file)
  : list (string * json) * file :=
  let to_save := data in
  let to_save :=
    match relativized (dict_get "default_dir" to_save) with
    | Some rel => dict_set "default_dir" (JStr rel) to_save
    | None => to_save
    end in
  match dict_get "download_dirs" to_save with
  | None =>
      (data, Holds (JDict (dict_set "download_dirs" (JDict []) to_save)))
  | Some (JDict download_dirs) =>
      let '(download_dirs', _, err) := normalize_dirs download_dirs in
      let data' := dict_set "download_dirs" (JDict download_dirs') data in
      match err with
      | None =>
          (data', Holds (JDict (dict_set "download_dirs" (JDict download_dirs') to_save)))
      | Some _ => (data', f)
      end
  | Some _ => (data, f)
  end.

(** The defaults of [load_settings]. *)
Definition base_defaults : list (string * json) :=
  [ ("default_dir", JStr "downloads");
    ("default_args", JStr "--recode-video mp4 --embed-thumbnail --embed-metadata");
    ("download_dirs", JDict []);
    ("show_toasts", JBool true) ].

(** The [try] block of [load_settings] on the parsed file content:
    [base] after [base.update(data)] and whether a path was rewritten;
    [Raise] for every exception the [except] clause catches. *)
Definition load_parsed (content : json)
  : result (list (string * json) * bool) :=
  match content with
  | JDict data =>
      let data :=
        if dict_has "yt_dlp_path" data
        then match dict_del "yt_dlp_path" data with
             | Some d => d
             | None => data
             end
        else data in
      let '(data, changed) :=
        match relativized (dict_get "default_dir" data) with
        | Some rel => (dict_set "default_dir" (JStr rel) data, true)
        | None => (data, false)
        end in
      match dict_get "download_dirs" data with
      | None =>
          Ok (dict_update base_defaults (dict_set "download_dirs" (JDict []) data),
              changed)
      | Some (JDict ddirs) =>
          match normalize_dirs ddirs with
          | (_, _, Some e) => Raise e
          | (ddirs', c, None) =>
              Ok (dict_update base_defaults
                    (dict_set "download_dirs" (JDict ddirs') data),
                  changed || c)
          end
      | Some _ => Raise (AttributeError "object has no attribute 'items'")
      end
  | _ => Raise (TypeError "settings document is not an object")
  end.

(** [os.path.isabs(v)] on a value that need not be a string. *)
Definition isabs_value (v : json) : result bool :=
  match v with
  | JStr s => Ok (Path.isabs s)
  | _ => Raise (TypeError "expected str, bytes or os.PathLike object")
  end.

(** The loop that fills [resolved_download_dirs]. *)
Fixpoint resolve_dirs (items resolved_download_dirs : list (string * json))
  : result (list (string * json)) :=
  match items with
  | [] => Ok resolved_download_dirs
  | (key, cfg) :: rest =>
      match cfg with
      | JDict cfg_copy =>
          let dir_val :=
            match dict_get "dir" cfg_copy with Some v => v | None => JNull end in
          rbind (if truthy dir_val
                 then rbind (isabs_value dir_val) (fun a =>
                        match dir_val with
                        | JStr d =>
                            if a then Ok cfg_copy
                            else Ok (dict_set "dir"
                                       (JStr (Path.abspath getcwd (Path.join BASE_DIR d)))
                                       cfg_copy)
                        | _ => Ok cfg_copy
                        end)
                 else Ok cfg_copy)
            (fun cfg_copy' =>
               resolve_dirs rest
                 (dict_set key (JDict cfg_copy') resolved_download_dirs))
      | _ => Raise (TypeError "cannot convert to dict")
      end
  end.

(** The directory fallback chain: the value of [runtime["default_dir"]]
    it ends with. *)
Definition ensure_default_dir (preferred : string) : string :=
  if makedirs preferred then preferred
  else
    let fallback1 := Path.abspath getcwd (Path.join BASE_DIR "downloads") in
    if makedirs fallback1 then fallback1
    else
      let user_dl := Path.join home "Downloads" in
      if makedirs user_dl then user_dl else tempdir.

(** Lines 209 to 248: the runtime-resolved copy of [base]. *)
Definition runtime_of (base : list (string * json))
  : result (list (string * json)) :=
  let runtime := base in
  let dd := match dict_get "default_dir" runtime with
            | Some v => v
            | None => JStr ""
            end in
  rbind (isabs_value dd) (fun a =>
    let runtime :=
      if a then runtime
      else match dd with
           | JStr d =>
               dict_set "default_dir"
                 (JStr (Path.abspath getcwd (Path.join BASE_DIR d))) runtime
           | _ => runtime
           end in
    rbind (match dict_get "download_dirs" runtime with
           | None => Ok []
           | Some (JDict items) => resolve_dirs items []
           | Some _ => Raise (AttributeError "object has no attribute 'items'")
           end) (fun resolved_download_dirs =>
      let runtime := dict_set "download_dirs" (JDict resolved_download_dirs) runtime in
      match dict_get "default_dir" runtime with
      | Some (JStr preferred) =>
          Ok (dict_set "default_dir" (JStr (ensure_default_dir preferred)) runtime)
      | _ => Raise (TypeError "expected str, bytes or os.PathLike object")
      end)).

(** [load_settings()]: the value it returns and the settings file after
    the call. *)
Definition load_settings (f : file) : result (list (string * json) * file) :=
  let base := base_defaults in
  match f with
  | Missing =>
      let '(_, f') := save_settings base f in
      let runtime := base in
      let runtime :=
        dict_set "default_dir"
          (JStr (Path.abspath getcwd (Path.join BASE_DIR "downloads"))) runtime in
      let runtime := dict_set "download_dirs" (JDict []) runtime in
      Ok (runtime, f')
  | _ =>
      let '(base, f') :=
        match (match f with
               | Holds content => load_parsed content
               | _ => Raise (PyExn "ValueError" "Empty settings file.")
               end) with
        | Ok (base, changed) =>
            if changed then save_settings base f else (base, f)
        | Raise _ => save_settings base f
        end in
      rbind (runtime_of base) (fun runtime =>
        Ok (base, f'))
  end.

End Settings.

(* ===================================================================== *)
(** ** Job tracker and download dispatcher                                *)
(* ===================================================================== *)

(** An entry of [JOBS]. *)
Record job := mkJob {
  job_url : string;
  job_site : string;
  job_status : string;
  job_dir : string
}.

Abbreviation jobs := (list (string * job)).

Definition JOB_HISTORY_LIMIT : Z := 10.

(** What a route returns: [jsonify(body), code]. *)
Record response := Response { code : nat; body : json }.

(** What the closure [run_job] captures from [download]. *)
Record task := mkTask {
  t_job_id : string;
  t_url : string;
  t_download_dir : string;
  t_custom_args : json
}.

(** What the outside world answers to one run of [run_job]:
    [run_ytdlp_with_binary(...)] returns [(returncode, stdout, stderr)] or
    raises, and the [yt_dlp.YoutubeDL] block returns or raises. *)
Record outcome := mkOutcome {
  binary : result (Z * string * string);
  library : result unit
}.

(** What [run_job] does, in order. *)
Inductive event : Type :=
| EStatus (job_id status : string)
| EBinary (url download_dir : string) (custom_args : json)
| ELibrary (url : string) (embedthumbnail addmetadata recode : bool)
| ECleanup
| EDel (job_id : string).

(** A thread body: it reads and writes [JOBS], may raise, and leaves a
    trace of what it did. *)
Definition prog (A : Type) : Type :=
  jobs * list event -> result A * (jobs * list event).

Definition ret {A} (a : A) : prog A := fun s => (Ok a, s).

Definition bind {A B} (c : prog A) (k : A -> prog B) : prog B :=
  fun s =>
    match c s with
    | (Ok a, s') => k a s'
    | (Raise e, s') => (Raise e, s')
    end.

Definition lift {A} (r : result A) : prog A := fun s => (r, s).

(** [try: c except Exception as e: h e] *)
Definition try_except {A} (c : prog A) (h : pyexn -> prog A) : prog A :=
  fun s =>
    match c s with
    | (Ok a, s') => (Ok a, s')
    | (Raise e, s') => h e s'
    end.

Definition emit (e : event) : prog unit :=
  fun s => (Ok tt, (fst s, snd s ++ [e])).

Declare Scope prog_scope.
Delimit Scope prog_scope with prog.
Notation "x <- c ;; k" := (bind c (fun x => k))
  (at level 61, c at next level, right associativity) : prog_scope.
Notation "c ;; k" := (bind c (fun _ => k))
  (at level 61, right associativity) : prog_scope.

(** Whether the body of [run_job] left through [return] (line 392). *)
Inductive flow : Type :=
| Returned
| Fell.

Definition with_status (j : job) (s : string) : job :=
  mkJob (job_url j) (job_site j) s (job_dir j).

(** [JOBS[job_id]["status"] = s] *)
Definition set_status (job_id s : string) : prog unit :=
  fun st =>
    match dict_get job_id (fst st) with
    | Some j =>
        (Ok tt, (dict_set job_id (with_status j s) (fst st),
                 snd st ++ [EStatus job_id s]))
    | None => (Raise (KeyError job_id), st)
    end.

(** [del JOBS[old]] *)
Definition del_job (old : string) : prog unit :=
  fun st =>
    match dict_del old (fst st) with
    | Some J => (Ok tt, (J, snd st ++ [EDel old]))
    | None => (Raise (KeyError old), st)
    end.

Fixpoint del_each (olds : list string) : prog unit :=
  match olds with
  | [] => ret tt
  | old :: rest => (del_job old ;; del_each rest)%prog
  end.

(** Lines 411 to 414, "Clean up old jobs". *)
Definition cleanup : prog unit :=
  (emit ECleanup ;;
   fun st =>
     if (Z.of_nat (length (fst st)) >? JOB_HISTORY_LIMIT)%Z
     then del_each (slice_to (- JOB_HISTORY_LIMIT) (dict_keys (fst st))) st
     else (Ok tt, st))%prog.

(** [needle in custom_args] *)
Definition arg_in (needle : string) (custom_args : json) : result bool :=
  match custom_args with
  | JStr s => Ok (contains needle s)
  | JList l =>
      Ok (existsb (fun v => match v with JStr s => s =? needle | _ => false end) l)
  | JDict d => Ok (dict_has needle d)
  | _ => Raise (TypeError "argument is not iterable")
  end.

Section Dispatcher.
Context `{Host}.

(** Lines 387 to 398: the attempt with the external binary. *)
Definition binary_attempt (t : task) (o : outcome) : prog flow :=
  try_except
    (emit (EBinary (t_url t) (t_download_dir t) (t_custom_args t)) ;;
     r <- lift (binary o) ;;
     let '(returncode, stdout, stderr) := r in
     if (returncode =? 0)%Z
     then (set_status (t_job_id t) "completed" ;; ret Returned)
     else (set_status (t_job_id t) ("error: " ++ stderr) ;; ret Fell))%prog
    (fun be => ret Fell).

(** [run_job()], the body of the background thread of one download, run
    without any other thread or handler touching [JOBS] meanwhile;
    [run_job_among] below is the same body among the others. *)
Definition run_job (t : task) (o : outcome) : prog unit :=
  (set_status (t_job_id t) "running" ;;
   k <- try_except
          (embedthumbnail <- lift (arg_in "--embed-thumbnail" (t_custom_args t)) ;;
           addmetadata <- lift (arg_in "--embed-metadata" (t_custom_args t)) ;;
           recode <- lift (arg_in "--recode-video mp4" (t_custom_args t)) ;;
           k <- (if YTDLP_UPDATER_AVAILABLE then binary_attempt t o else ret Fell) ;;
           match k with
           | Returned => ret Returned
           | Fell =>
               emit (ELibrary (t_url t) embedthumbnail addmetadata recode) ;;
               lift (library o) ;;
               set_status (t_job_id t) "completed" ;;
               ret Fell
           end)
          (fun e => set_status (t_job_id t) ("error: " ++ exn_msg e) ;; ret Fell) ;;
   match k with
   | Returned => ret tt
   | Fell => cleanup
   end)%prog.

Definition value_or_null (v : option json) : json :=
  match v with Some x => x | None => JNull end.

(** [site_settings.get(k) if site_settings else SETTINGS[k']] *)
Definition site_or_default (site_settings : option json) (k k' : string)
           (SETTINGS : list (string * json)) : result json :=
  match site_settings with
  | Some (JDict cfg) => Ok (value_or_null (dict_get k cfg))
  | Some _ => Raise (AttributeError "object has no attribute 'get'")
  | None =>
      match dict_get k' SETTINGS with
      | Some v => Ok v
      | None => Raise (KeyError k')
      end
  end.

(** [download()], the handler of [POST /api/download], on the request
    body [data] with the clock reading [now_ms = int(time.time() * 1000)]:
    the response, [JOBS] afterwards and the thread it started.  [Raise] is
    an exception that leaves the handler (the server answers 500). *)
Definition download (SETTINGS : list (string * json)) (now_ms : Z)
           (data : json) (JOBS : jobs)
  : result (response * jobs * option task) :=
  match data with
  | JDict d =>
      let url := value_or_null (dict_get "url" d) in
      if negb (truthy url)
      then Ok (Response 400 (JDict [("error", JStr "No URL provided")]), JOBS, None)
      else
        match url with
        | JStr url =>
            rbind (urlparse_hostname url) (fun parsed_hostname =>
            let hostname := hostname_or "unknown" parsed_hostname in
            rbind (match dict_get "download_dirs" SETTINGS with
                   | None => Ok []
                   | Some (JDict dd) => Ok dd
                   | Some _ => Raise (AttributeError "object has no attribute 'items'")
                   end) (fun download_dirs =>
            rbind (get_site_config url download_dirs) (fun site_settings =>
            rbind (site_or_default site_settings "dir" "default_dir" SETTINGS)
                  (fun download_dir =>
            rbind (site_or_default site_settings "args" "default_args" SETTINGS)
                  (fun custom_args =>
            match download_dir with
            | JStr download_dir =>
                if makedirs download_dir
                then
                  let job_id := str_of_int now_ms in
                  Ok (Response 200 (JDict [("job_id", JStr job_id)]),
                      dict_set job_id (mkJob url hostname "starting" download_dir) JOBS,
                      Some (mkTask job_id url download_dir custom_args))
                else Raise (PyExn "OSError" download_dir)
            | _ => Raise (TypeError "expected str, bytes or os.PathLike object")
            end)))))
        | _ => Raise (AttributeError "object has no attribute 'decode'")
        end
  | _ => Raise (AttributeError "object has no attribute 'get'")
  end.

(** The dictionary [status()] hands to [jsonify]. *)
Definition status_jobs (JOBS : jobs) : jobs :=
  dict_of_items (slice_from (- JOB_HISTORY_LIMIT) JOBS).

Definition json_of_job (j : job) : json :=
  JDict [ ("url", JStr (job_url j)); ("site", JStr (job_site j));
          ("status", JStr (job_status j)); ("dir", JStr (job_dir j)) ].

(** [status()], the handler of [GET /api/status]. *)
Definition status (JOBS : jobs) : response :=
  Response 200 (JDict (map (fun kv => (fst kv, json_of_job (snd kv))) (status_jobs JOBS))).

(** [clear_status()], the handler of [DELETE /api/status]. *)
Definition clear_status (JOBS : jobs) : response * jobs :=
  (Response 200 (JDict [("cleared", JBool true)]), []).

(** The backend as a transition system: the store and the threads that
    were started and have not run yet.  A thread runs [run_job] in one
    step. *)
Record backend := mkBackend {
  JOBS : jobs;
  threads : list task
}.

Inductive request : Type :=
| Dispatch (now_ms : Z) (data : json)
| ThreadRuns (i : nat) (o : outcome)
| ClearStatus.

Fixpoint remove_nth {A} (i : nat) (l : list A) : list A :=
  match i, l with
  | _, [] => []
  | O, _ :: l' => l'
  | S i', x :: l' => x :: remove_nth i' l'
  end.

Definition backend_step (SETTINGS : list (string * json)) (r : request)
           (b : backend) : backend :=
  match r with
  | Dispatch now_ms data =>
      match download SETTINGS now_ms data (JOBS b) with
      | Ok (_, J, Some t) => mkBackend J (threads b ++ [t])
      | Ok (_, J, None) => mkBackend J (threads b)
      | Raise _ => b
      end
  | ThreadRuns i o =>
      match nth_error (threads b) i with
      | Some t =>
          mkBackend (fst (snd (run_job t o (JOBS b, [])))) (remove_nth i (threads b))
      | None => b
      end
  | ClearStatus => mkBackend (snd (clear_status (JOBS b))) (threads b)
  end.

Definition backend_run (SETTINGS : list (string * json)) (rs : list request)
           (b : backend) : backend :=
  fold_left (fun b r => backend_step SETTINGS r b) rs b.

End Dispatcher.

(* ===================================================================== *)
(** ** The background task among the other threads                        *)
(* ===================================================================== *)

(** [JOBS] is shared and has no lock: between two accesses of a thread,
    and for as long as the thread is blocked in the binary or in the
    library, the handlers and the other threads change it
    ([download] inserts, [clear_status] empties, other threads write
    their status and evict).  [yield change] is such a change. *)
Definition yield (change : jobs -> jobs) : prog unit :=
  fun st => (Ok tt, (change (fst st), snd st)).

Section Interleaving.
Context `{Host}.

(** [others n] is what the rest of the process does to [JOBS] before the
    access number [n] of a thread of [run_job]: 0 before the write of
    line 360, 1 while the binary runs and until the write of line 390 or
    395, 2 while the library runs and until the write of line 404, 3
    until the write of line 408, 4 until [len(JOBS)], 5 until
    [list(JOBS.keys())], and [6 + i] until the deletion number [i]. *)
Fixpoint del_each_among (others : nat -> jobs -> jobs) (n : nat)
         (olds : list string) : prog unit :=
  match olds with
  | [] => ret tt
  | old :: rest =>
      (yield (others n) ;; del_job old ;; del_each_among others (S n) rest)%prog
  end.

(** Lines 411 to 414. *)
Definition cleanup_among (others : nat -> jobs -> jobs) : prog unit :=
  (emit ECleanup ;;
   yield (others 4) ;;
   fun st =>
     if (Z.of_nat (length (fst st)) >? JOB_HISTORY_LIMIT)%Z
     then (yield (others 5) ;;
           fun st' =>
             del_each_among others 6
               (slice_to (- JOB_HISTORY_LIMIT) (dict_keys (fst st'))) st')%prog st
     else (Ok tt, st))%prog.

(** Lines 387 to 398. *)
Definition binary_attempt_among (others : nat -> jobs -> jobs)
           (t : task) (o : outcome) : prog flow :=
  try_except
    (emit (EBinary (t_url t) (t_download_dir t) (t_custom_args t)) ;;
     r <- lift (binary o) ;;
     let '(returncode, stdout, stderr) := r in
     yield (others 1) ;;
     if (returncode =? 0)%Z
     then (set_status (t_job_id t) "completed" ;; ret Returned)
     else (set_status (t_job_id t) ("error: " ++ stderr) ;; ret Fell))%prog
    (fun be => ret Fell).

(** [run_job()] as a thread among the others: the statements of
    [run_job], with the store changed by the others before each of its
    accesses. *)
Definition run_job_among (others : nat -> jobs -> jobs)
           (t : task) (o : outcome) : prog unit :=
  (yield (others 0) ;;
   set_status (t_job_id t) "running" ;;
   k <- try_except
          (embedthumbnail <- lift (arg_in "--embed-thumbnail" (t_custom_args t)) ;;
           addmetadata <- lift (arg_in "--embed-metadata" (t_custom_args t)) ;;
           recode <- lift (arg_in "--recode-video mp4" (t_custom_args t)) ;;
           k <- (if YTDLP_UPDATER_AVAILABLE
                 then binary_attempt_among others t o else ret Fell) ;;
           match k with
           | Returned => ret Returned
           | Fell =>
               emit (ELibrary (t_url t) embedthumbnail addmetadata recode) ;;
               lift (library o) ;;
               yield (others 2) ;;
               set_status (t_job_id t) "completed" ;;
               ret Fell
           end)
          (fun e =>
             yield (others 3) ;;
             set_status (t_job_id t) ("error: " ++ exn_msg e) ;;
             ret Fell) ;;
   match k with
   | Returned => ret tt
   | Fell => cleanup_among others
   end)%prog.

(** The others leave the entry of [job_id] in the store before the
    accesses 0 to 3, whatever else they do. *)
Definition keep_entry (others : nat -> jobs -> jobs) (job_id : string) : Prop :=
  forall n J,
    n <= 3 ->
    dict_get job_id J <> None -> dict_get job_id (others n J) <> None.

(** Nobody else touches the store. *)
Definition alone : nat -> jobs -> jobs := fun _ J => J.

End Interleaving.

(* ===================================================================== *)
(** ** yt-dlp update status                                               *)
(* ===================================================================== *)

(** The dictionary [UPDATE_JOB]; clock readings are abstract instants. *)
Record update_job := mkUpdateJob {
  u_status : string;
  u_message : string;
  u_started_at : option Z;
  u_finished_at : option Z;
  u_latest_version : option string
}.

(** Line 307. *)
Definition UPDATE_JOB_initial : update_job :=
  mkUpdateJob "idle" "Idle" None None None.

(** What the updater answers inside one run of [_do_update]:
    [download_latest_ytdlp()] and, when it is called,
    [ensure_ytdlp_binary()] (a pair [(path, version)], or an exception). *)
Record update_outcome := mkUpdateOutcome {
  download_latest_ytdlp : bool;
  ensure_ytdlp_binary : result (option string * option string)
}.

(** [f"{version}"] *)
Definition str_of_version (version : option string) : string :=
  match version with
  | Some v => v
  | None => "None"
  end.

(** Line 318, the first write of [_do_update]. *)
Definition do_update_begin (now : Z) (u : update_job) : update_job :=
  mkUpdateJob "running" "Starting update..." (Some now) None (u_latest_version u).

(** Lines 320 to 330, from the download to the last write. *)
Definition do_update_end (o : update_outcome) (now : Z) (u : update_job)
  : update_job :=
  if download_latest_ytdlp o
  then
    match ensure_ytdlp_binary o with
    | Ok (path, version) =>
        mkUpdateJob "succeeded" ("Updated to " ++ str_of_version version)
                    (u_started_at u) (Some now) version
    | Raise e =>
        mkUpdateJob "failed" (exn_msg e) (u_started_at u) (Some now)
                    (u_latest_version u)
    end
  else
    mkUpdateJob "failed" "Download failed" (u_started_at u) (Some now)
                (u_latest_version u).

(** Where a thread of [_do_update] stands: started and not yet at line
    318, or past it and waiting for the updater. *)
Inductive phase : Type :=
| Spawned
| Updating.

Record updater := mkUpdater {
  UPDATE_JOB : update_job;
  update_threads : list phase
}.

Definition updater_initial : updater := mkUpdater UPDATE_JOB_initial [].

Fixpoint set_nth {A} (i : nat) (x : A) (l : list A) : list A :=
  match i, l with
  | _, [] => []
  | O, _ :: l' => x :: l'
  | S i', y :: l' => y :: set_nth i' x l'
  end.

Section UpdateRoutes.
Context `{Host}.

(** [update_yt_dlp_api()], the handler of [POST /api/update-yt-dlp]: it
    answers and, unless the updater is missing, starts a thread. *)
Definition update_yt_dlp_api (s : updater) : response * updater :=
  if negb YTDLP_UPDATER_AVAILABLE
  then (Response 503 (JDict [("error", JStr "ytdlp_updater not available")]), s)
  else (Response 200 (JDict [("status", JStr "started")]),
        mkUpdater (UPDATE_JOB s) (update_threads s ++ [Spawned])).

(** [update_status()], the handler of [GET /api/update-status]. *)
Definition update_status (s : updater) : update_job := UPDATE_JOB s.

Inductive update_event : Type :=
| Trigger
| ThreadBegins (i : nat) (now : Z)
| ThreadEnds (i : nat) (o : update_outcome) (now : Z)
| Poll.

(** One step of the updater; an event that cannot happen (no such thread,
    or a thread in the other phase) leaves the state alone. *)
Definition update_step (e : update_event) (s : updater) : updater :=
  match e with
  | Trigger => snd (update_yt_dlp_api s)
  | ThreadBegins i now =>
      match nth_error (update_threads s) i with
      | Some Spawned =>
          mkUpdater (do_update_begin now (UPDATE_JOB s))
                    (set_nth i Updating (update_threads s))
      | _ => s
      end
  | ThreadEnds i o now =>
      match nth_error (update_threads s) i with
      | Some Updating =>
          mkUpdater (do_update_end o now (UPDATE_JOB s))
                    (remove_nth i (update_threads s))
      | _ => s
      end
  | Poll => s
  end.

Definition update_run (es : list update_event) (s : updater) : updater :=
  fold_left (fun s e => update_step e s) es s.

End UpdateRoutes.

(* ===================================================================== *)
(** ** A concrete host                                                    *)
(* ===================================================================== *)

(** Executable stand-ins for the library calls, used to run the model on
    concrete requests: [hostname_of] follows [urllib.parse.urlsplit] and
    the [hostname] property for URLs without brackets in the authority
    (it raises on the others), [glob] follows [fnmatch] for patterns made
    of literal characters, [*] and [?]. *)
Module Lib.

Definition is_alpha (c : ascii) : bool :=
  let n := nat_of_ascii c in
  (((65 <=? n) && (n <=? 90)) || ((97 <=? n) && (n <=? 122)))%nat.

Definition is_digit (c : ascii) : bool :=
  let n := nat_of_ascii c in ((48 <=? n) && (n <=? 57))%nat.

Definition scheme_char (c : ascii) : bool :=
  is_alpha c || is_digit c || Ascii.eqb c "+" || Ascii.eqb c "-" || Ascii.eqb c ".".

Definition lower_char (c : ascii) : ascii :=
  let n := nat_of_ascii c in
  if ((65 <=? n) && (n <=? 90))%nat then ascii_of_nat (n + 32) else c.

Fixpoint map_string (f : ascii -> ascii) (s : string) : string :=
  match s with
  | EmptyString => EmptyString
  | String c s' => String (f c) (map_string f s')
  end.

Fixpoint filter_string (f : ascii -> bool) (s : string) : string :=
  match s with
  | EmptyString => EmptyString
  | String c s' => if f c then String c (filter_string f s') else filter_string f s'
  end.

Fixpoint all_string (f : ascii -> bool) (s : string) : bool :=
  match s with
  | EmptyString => true
  | String c s' => f c && all_string f s'
  end.

(** [s.partition(c)]: the part before the first [c] and, when there is
    one, the part after it. *)
Fixpoint partition (f : ascii -> bool) (s : string) : string * option string :=
  match s with
  | EmptyString => (EmptyString, None)
  | String c s' =>
      if f c then (EmptyString, Some s')
      else let '(a, b) := partition f s' in (String c a, b)
  end.

(** [s.rpartition(c)[2]] *)
Fixpoint after_last (c : ascii) (s : string) : string :=
  match s with
  | EmptyString => EmptyString
  | String d s' =>
      if contains (String c EmptyString) s' then after_last c s'
      else if Ascii.eqb d c then s' else s
  end.

Definition drop_scheme (url : string) : string :=
  match partition (Ascii.eqb ":") url with
  | (String c0 rest as scheme, Some after) =>
      if is_alpha c0 && all_string scheme_char scheme then after else url
  | _ => url
  end.

Definition hostname_of (url : string) : result (option string) :=
  let url := lstrip (fun c => (nat_of_ascii c <=? 32)%nat) url in
  let url := filter_string
               (fun c => negb (Ascii.eqb c "009" || Ascii.eqb c "010" || Ascii.eqb c "013"))
               url in
  let url := drop_scheme url in
  let netloc :=
    match url with
    | String "/" (String "/" rest) =>
        fst (partition (fun c => Ascii.eqb c "/" || Ascii.eqb c "?" || Ascii.eqb c "#") rest)
    | _ => ""
    end in
  if contains "[" netloc || contains "]" netloc
  then Raise (PyExn "ValueError" "Invalid IPv6 URL")
  else
    let hostinfo := after_last "@" netloc in
    let hostname := fst (partition (Ascii.eqb ":") hostinfo) in
    if nonempty hostname
    then
      let '(h, zone) := partition (Ascii.eqb "%") hostname in
      Ok (Some (map_string lower_char h
                ++ match zone with Some z => "%" ++ z | None => "" end)%string)
    else Ok None.

Fixpoint glob (pat : string) (name : string) : bool :=
  match pat with
  | EmptyString => negb (nonempty name)
  | String "*" pat' =>
      (fix star (name : string) : bool :=
         glob pat' name
         || match name with
            | EmptyString => false
            | String _ name' => star name'
            end) name
  | String "?" pat' =>
      match name with
      | EmptyString => false
      | String _ name' => glob pat' name'
      end
  | String c pat' =>
      match name with
      | EmptyString => false
      | String d name' => Ascii.eqb c d && glob pat' name'
      end
  end.

(** A host whose file system accepts every directory, with the module
    installed under [/opt/ripperfox]. *)
Definition host (updater_available : bool) : Host := {|
  urlparse_hostname := hostname_of;
  fnmatch := fun name pat => glob pat name;
  makedirs := fun _ => true;
  YTDLP_UPDATER_AVAILABLE := updater_available;
  BASE_DIR := "/opt/ripperfox";
  getcwd := "/opt/ripperfox";
  home := "/home/user";
  tempdir := "/tmp"
|}.

End Lib.

(* ===================================================================== *)
(** ** The settings route                                                 *)
(* ===================================================================== *)

Inductive http_method : Type :=
| GET
| POST.

Section SettingsRoute.
Context `{Host}.

(** [d.get(k, default)] *)
Definition get_default (k : string) (d : list (string * json)) (default : json)
  : json :=
  match dict_get k d with
  | Some v => v
  | None => default
  end.

(** [settings()], the handler of [/api/settings], on the request body
    [new_data]: the response, [SETTINGS] afterwards and the settings file
    afterwards.  The defaults [SETTINGS["default_dir"]] and
    [SETTINGS["default_args"]] are evaluated whether or not the body has
    the key. *)
Definition settings (method : http_method) (new_data : json)
           (SETTINGS : list (string * json)) (f : file)
  : result (response * list (string * json) * file) :=
  match method with
  | GET => Ok (Response 200 (JDict SETTINGS), SETTINGS, f)
  | POST =>
      match new_data with
      | JDict nd =>
          match dict_get "default_dir" SETTINGS with
          | None => Raise (KeyError "default_dir")
          | Some dir0 =>
              match dict_get "default_args" SETTINGS with
              | None => Raise (KeyError "default_args")
              | Some args0 =>
                  let updated :=
                    dict_update SETTINGS
                      [ ("default_dir", get_default "default_dir" nd dir0);
                        ("default_args", get_default "default_args" nd args0);
                        ("download_dirs",
                         get_default "download_dirs" nd
                           (get_default "download_dirs" SETTINGS (JDict [])));
                        ("show_toasts",
                         get_default "show_toasts" nd
                           (get_default "show_toasts" SETTINGS (JBool true))) ] in
                  let '(SETTINGS', f') := save_settings updated f in
                  Ok (Response 200 (JDict SETTINGS'), SETTINGS', f')
              end
          end
      | _ => Raise (AttributeError "object has no attribute 'get'")
      end
  end.

End SettingsRoute.

(* ===================================================================== *)
(** ** [ytdlp_updater.py]                                                 *)
(* ===================================================================== *)

(** The machine the updater runs on.  [B] is what a file holds;
    [probe b] is what [get_ytdlp_version] gets from a file holding [b]
    ([None] when running it raises, else the stripped output);
    [chmod_755] is [os.chmod(path, 0o755)] with its failure swallowed;
    [frozen] is [sys.frozen], [bundled] the file [yt-dlp] of the bundle;
    [appdata_dir] is what [get_appdata_dir()] returns or raises;
    [version_newer a b] is [version.parse(a) > version.parse(b)];
    [shlex_split] is [shlex.split]. *)
Class Machine (B : Type) := {
  probe : B -> option string;
  chmod_755 : B -> B;
  frozen : bool;
  bundled : option B;
  appdata_dir : result string;
  version_newer : string -> string -> result bool;
  shlex_split : string -> result (list string)
}.

(** What the network and the disk answer to one call of
    [download_latest_ytdlp]: the body of the release download (or the
    exception of [requests]) and whether the file can be written. *)
Record fetch (B : Type) := mkFetch {
  fetched : result B;
  writable : bool
}.
Arguments mkFetch {B} fetched writable.
Arguments fetched {B} f.
Arguments writable {B} f.

(** What [requests.get] answers to the release query: an exception, or a
    status code and what [response.json()] gives. *)
Inductive reply : Type :=
| NoReply (e : pyexn)
| Reply (status_code : Z) (payload : result json).

Section Updater.
Context {B : Type} `{Machine B}.

(** [get_ytdlp_binary_path()] *)
Definition get_ytdlp_binary_path : result string :=
  rbind appdata_dir (fun data_dir => Ok (Path.join data_dir "yt-dlp")).

(** [get_ytdlp_version(ytdlp_path)], on what is installed at the path. *)
Definition get_ytdlp_version (installed : option B) : option string :=
  match installed with
  | Some b => probe b
  | None => None
  end.

(** [if version:] *)
Definition usable (version : option string) : bool :=
  match version with
  | Some v => nonempty v
  | None => false
  end.

(** [download_latest_ytdlp()]: its answer and the file afterwards. *)
Definition download_latest (dl : fetch B) (installed : option B)
  : bool * option B :=
  match get_ytdlp_binary_path with
  | Raise _ => (false, installed)
  | Ok _ =>
      match fetched dl with
      | Raise _ => (false, installed)
      | Ok content =>
          if writable dl then (true, Some (chmod_755 content))
          else (false, installed)
      end
  end.

(** [ensure_ytdlp_binary()]: the pair [(path, version)] and the file
    afterwards; [copy_ok] tells whether [shutil.copy2] returns. *)
Definition ensure_binary (copy_ok : bool) (dl : fetch B) (installed : option B)
  : result ((option string * option string) * option B) :=
  rbind get_ytdlp_binary_path (fun ytdlp_path =>
    let version := get_ytdlp_version installed in
    if match installed with Some _ => usable version | None => false end
    then Ok ((Some ytdlp_path, version), installed)
    else
      rbind (if frozen
             then match bundled with
                  | Some b =>
                      if copy_ok
                      then Ok (Some (chmod_755 b))
                      else Raise (PyExn "OSError" "copy2")
                  | None => Ok installed
                  end
             else Ok installed) (fun installed1 =>
        let version := get_ytdlp_version installed1 in
        if frozen
           && match bundled with Some _ => usable version | None => false end
        then Ok ((Some ytdlp_path, version), installed1)
        else
          let '(ok, installed2) := download_latest dl installed1 in
          let version := get_ytdlp_version installed2 in
          if ok && usable version
          then Ok ((Some ytdlp_path, version), installed2)
          else Ok ((None, None), installed2))).

(** [run_ytdlp_with_binary(url, download_dir, custom_args)]: what it
    returns or raises, and the file afterwards; [run cmd] is what
    [subprocess.run(cmd, ...)] gives. *)
Definition run_ytdlp_with_binary
           (copy_ok : bool) (dl : fetch B)
           (run : list string -> result (Z * string * string))
           (url download_dir : string) (custom_args : json)
           (installed : option B)
  : result (Z * string * string) * option B :=
  match ensure_binary copy_ok dl installed with
  | Raise e => (Raise e, installed)
  | Ok ((None, _), installed') =>
      (Raise (PyExn "Exception" "Failed to get yt-dlp binary"), installed')
  | Ok ((Some ytdlp_path, _), installed') =>
      let cmd := [ytdlp_path; "-o"; Path.join download_dir "%(title)s.%(ext)s"] in
      match (if truthy custom_args
             then match custom_args with
                  | JStr s => shlex_split s
                  | _ => Raise (AttributeError "object has no attribute 'read'")
                  end
             else Ok []) with
      | Raise e => (Raise e, installed')
      | Ok extra => (run (cmd ++ extra ++ [url]), installed')
      end
  end.

(** [check_for_ytdlp_update(current_version)]: the triple
    [(needs_update, latest_version, assets)]. *)
Definition check_for_ytdlp_update (r : reply) (current_version : option string)
  : bool * option string * json :=
  let skipped := (false, None, JList []) in
  match r with
  | NoReply _ => skipped
  | Reply status_code payload =>
      if negb (status_code =? 200)%Z then skipped
      else
        match payload with
        | Raise _ => skipped
        | Ok (JDict latest_release) =>
            match get_default "tag_name" latest_release (JStr "") with
            | JStr tag_name =>
                let latest_version := lstrip (Ascii.eqb "v") tag_name in
                let assets := get_default "assets" latest_release (JList []) in
                if usable current_version && nonempty latest_version
                then
                  match version_newer latest_version
                          (match current_version with Some c => c | None => "" end) with
                  | Ok true => (true, Some latest_version, assets)
                  | Ok false => (false, Some latest_version, assets)
                  | Raise _ => skipped
                  end
                else (false, Some latest_version, assets)
            | _ => skipped
            end
        | Ok _ => skipped
        end
  end.

End Updater.

(** The record is coherent: idle with no instant, running with a start
    and no end, or finished with both. *)
Definition update_job_consistent (u : update_job) : Prop :=
  (u_status u = "idle" /\ u_started_at u = None /\ u_finished_at u = None)
  \/ (u_status u = "running"
      /\ u_started_at u <> None /\ u_finished_at u = None)
  \/ ((u_status u = "succeeded" \/ u_status u = "failed")
      /\ u_started_at u <> None /\ u_finished_at u <> None).

Section UpdateThread.
Context {B : Type} `{Machine B}.

(** What the updater answers to one run of [_do_update] on a machine:
    [download_latest_ytdlp()] with the network answer [dl1] and, when it
    succeeded, [ensure_ytdlp_binary()] with the answer [dl2] for the
    download it may make; and the file afterwards.  The second field is
    not looked at when the first is [false]. *)
Definition update_outcome_of (copy_ok : bool) (dl1 dl2 : fetch B)
           (installed : option B) : update_outcome * option B :=
  let '(ok, installed1) := download_latest dl1 installed in
  if ok
  then match ensure_binary copy_ok dl2 installed1 with
       | Ok (pv, installed2) => (mkUpdateOutcome true (Ok pv), installed2)
       | Raise e => (mkUpdateOutcome true (Raise e), installed1)
       end
  else (mkUpdateOutcome false (Ok (None, None)), installed1).

End UpdateThread.

(** A machine for concrete runs: a file holds the version text its
    binary prints, nothing is bundled, versions compare as text. *)
Definition text_machine : Machine string := {|
  probe := fun b => Some b;
  chmod_755 := fun b => b;
  frozen := false;
  bundled := None;
  appdata_dir := Ok "/opt/ripperfox";
  version_newer := fun a b => Ok (negb (String.leb a b));
  shlex_split := fun s => Ok (filter nonempty (split " " s))
|}.

(* ===================================================================== *)
(** ** Statements of the specification, in its own words                  *)
(* ===================================================================== *)

Section SpecWords.
Context `{Host}.

(** A pattern group qualifies for a hostname when one of its patterns
    glob-matches the hostname or, stripped of its leading and trailing
    [*], occurs in it. *)
Definition group_qualifies (hostname pattern_group : string) : bool :=
  existsb (pattern_matches hostname) (patterns_of pattern_group).

(** The matcher as the specification words it: the configuration of the
    first group, in insertion order, that qualifies. *)
Definition spec_first_qualifying (hostname : string)
           (download_dirs : list (string * json)) : option json :=
  option_map snd
    (find (fun gc => group_qualifies hostname (fst gc)) download_dirs).

(** The matcher as the code behaves: the first group that qualifies and
    whose configuration is truthy. *)
Definition first_qualifying_nonempty (hostname : string)
           (download_dirs : list (string * json)) : option json :=
  option_map snd
    (find (fun gc => group_qualifies hostname (fst gc) && truthy (snd gc))
          download_dirs).

End SpecWords.

(** A pattern made of [*] only. *)
Fixpoint only_stars (s : string) : bool :=
  match s with
  | EmptyString => true
  | String c s' => is_star c && only_stars s'
  end.

(** The keys of a dictionary are pairwise distinct. *)
Definition dict_wf {V} (d : list (string * V)) : Prop := NoDup (dict_keys d).

(** A path that starts with a character other than [/]. *)
Definition rel_head (c : string) : Prop :=
  exists d r, c = String d r /\ d <> "/"%char.

(** A decidable form of [dict_wf]. *)
Fixpoint keys_distinct (ks : list string) : bool :=
  match ks with
  | [] => true
  | k :: ks' => negb (existsb (String.eqb k) ks') && keys_distinct ks'
  end.

(** What a thread of [prog] may do to the store, whatever happens. *)
Definition keeps_wf {A} (c : prog A) : Prop :=
  forall J tr, dict_wf J -> dict_wf (fst (snd (c (J, tr)))).

(* ===================================================================== *)
(** ** Concrete runs                                                      *)
(* ===================================================================== *)

(** The backend on the host [Lib.host], started without a settings file:
    the settings it runs with, and requests sent to it. *)
Module Scenario.

Definition SETTINGS : list (string * json) :=
  [ ("default_dir", JStr "/opt/ripperfox/downloads");
    ("default_args", JStr "--recode-video mp4 --embed-thumbnail --embed-metadata");
    ("download_dirs", JDict []);
    ("show_toasts", JBool true) ].

Definition started : backend := mkBackend [] [].

(** A dispatch of [video], [n] milliseconds after a fixed instant. *)
Definition dispatch (n : Z) (video : string) : request :=
  Dispatch (1700000000000 + n)
           (JDict [("url", JStr ("https://youtu.be/" ++ video))]).

(** Eleven dispatches, one per millisecond; no thread has run yet. *)
Definition eleven : list request :=
  map (fun n => dispatch (Z.of_nat n) "abc") (seq 0 11).

Definition after_eleven : backend :=
  @backend_run (Lib.host true) SETTINGS eleven started.

(** The thread of the last of the eleven dispatches. *)
Definition last_task : task :=
  mkTask "1700000000010" "https://youtu.be/abc" "/opt/ripperfox/downloads"
         (JStr "--recode-video mp4 --embed-thumbnail --embed-metadata").

Definition last_job : job :=
  mkJob "https://youtu.be/abc" "youtu.be" "starting" "/opt/ripperfox/downloads".

(** The binary fails and the library succeeds; the binary succeeds. *)
Definition binary_fails : outcome :=
  mkOutcome (Ok (1%Z, "", "ERROR: unable to download")) (Ok tt).

Definition binary_succeeds : outcome :=
  mkOutcome (Ok (0%Z, "done", "")) (Ok tt).

(** The mappings that tell C2 and C10 apart. *)
Definition yt : json := JDict [("dir", JStr "yt"); ("args", JStr "-x")].

Definition empty_first : list (string * json) :=
  [("*", JDict []); ("*youtube*", yt)].

Definition empty_only : list (string * json) := [("*", JDict [])].

End Scenario.

(** More concrete inputs, on the same host. *)
Module Sample.

(** Settings as a client may post them, with absolute paths under
    [BASE_DIR], and the document [save_settings] writes for them. *)
Definition posted : list (string * json) :=
  [ ("default_dir", JStr "/opt/ripperfox/media");
    ("default_args", JStr "-x");
    ("download_dirs",
     JDict [("*youtube*, *youtu.be*",
             JDict [("dir", JStr "/opt/ripperfox/yt"); ("args", JStr "-x")]);
            ("*vimeo*", JDict [("dir", JStr "/srv/vimeo")])]);
    ("show_toasts", JBool false) ].

Definition stored : list (string * json) :=
  [ ("default_dir", JStr "media");
    ("default_args", JStr "-x");
    ("download_dirs",
     JDict [("*youtube*, *youtu.be*",
             JDict [("dir", JStr "yt"); ("args", JStr "-x")]);
            ("*vimeo*", JDict [("dir", JStr "/srv/vimeo")])]);
    ("show_toasts", JBool false) ].

(** Settings whose only site has arguments and no directory. *)
Definition no_site_dir : list (string * json) :=
  [ ("default_dir", JStr "/opt/ripperfox/downloads");
    ("default_args", JStr "");
    ("download_dirs", JDict [("*youtu.be*", JDict [("args", JStr "-x")])]) ].

Definition request_body : list (string * json) :=
  [("url", JStr "https://youtu.be/abc")].


(** The binary cannot be run at all; the library fails. *)
Definition binary_raises : outcome :=
  mkOutcome (Raise (PyExn "Exception" "Failed to get yt-dlp binary"))
            (Raise (PyExn "DownloadError" "Video unavailable")).

(** A release answer, and a download of the release. *)
Definition release : reply :=
  Reply 200 (Ok (JDict [("tag_name", JStr "v2025.01.15"); ("assets", JList [])])).

Definition fetch_ok : fetch string := mkFetch (Ok "2025.01.15") true.

Definition fetch_fails : fetch string :=
  mkFetch (Raise (PyExn "ConnectionError" "no route")) true.

Definition never_run (cmd : list string) : result (Z * string * string) :=
  Ok (0%Z, "", "").

(** While the binary runs: the history is cleared
    ([DELETE /api/status]); or another download is dispatched. *)
Definition cleared_while_binary : nat -> jobs -> jobs :=
  fun n J => if (n =? 1)%nat then snd (clear_status J) else J.

Definition dispatched_while_binary : nat -> jobs -> jobs :=
  fun n J =>
    if (n =? 1)%nat
    then dict_set "1700000000011"
           (mkJob "https://youtu.be/xyz" "youtu.be" "starting"
                  "/opt/ripperfox/downloads") J
    else J.

End Sample.

(* ===================================================================== *)
(** ** Site matcher: proofs                                               *)
(* ===================================================================== *)

Section SiteMatcherFacts.
Context `{Host}.


Lemma contains_empty (s : string) : contains "" s = true.
Proof. destruct s; reflexivity. Qed.

Lemma lstrip_only_stars (p : string) :
  only_stars p = true -> lstrip is_star p = "".
Proof.
  induction p as [|c p IH]; simpl; intros Hp; [reflexivity|].
  apply andb_prop in Hp. destruct Hp as [Hc Hp].
  rewrite Hc. auto.
Qed.

Lemma strip_only_stars (p : string) :
  only_stars p = true -> strip is_star p = "".
Proof.
  intros Hp. unfold strip. rewrite (lstrip_only_stars p Hp). reflexivity.
Qed.

Lemma only_stars_matches (hostname p : string) :
  only_stars p = true -> pattern_matches hostname p = true.
Proof.
  intros Hp. unfold pattern_matches.
  rewrite (strip_only_stars p Hp), contains_empty. apply orb_true_r.
Qed.

Lemma first_pattern_existsb (hostname : string) (ps : list string) :
  match first_pattern hostname ps with Some _ => true | None => false end
  = existsb (pattern_matches hostname) ps.
Proof.
  induction ps as [|p ps IH]; simpl; [reflexivity|].
  destruct (pattern_matches hostname p); [reflexivity | exact IH].
Qed.

Lemma first_pattern_qualifies (hostname g : string) :
  match first_pattern hostname (patterns_of g) with
  | Some _ => true
  | None => false
  end = group_qualifies hostname g.
Proof. apply first_pattern_existsb. Qed.

Lemma group_qualifies_iff (hostname g : string) :
  group_qualifies hostname g = true <->
  exists p, In p (patterns_of g)
            /\ (fnmatch hostname p = true
                \/ contains (strip is_star p) hostname = true).
Proof.
  unfold group_qualifies. rewrite existsb_exists.
  split; intros [p [Hin Hm]]; exists p; split; trivial.
  - unfold pattern_matches in Hm. apply orb_prop in Hm. exact Hm.
  - unfold pattern_matches. destruct Hm as [-> | ->];
      [reflexivity | apply orb_true_r].
Qed.

(** The loop keeps no falsy candidate: what it returns is decided by the
    first group that qualifies with a truthy configuration. *)
Lemma scan_groups_find (hostname : string) (dd : list (string * json)) :
  forall mp mc,
    truthy mc = false ->
    (let r := snd (scan_groups hostname dd mp mc) in
     if truthy r then Some r else None)
    = first_qualifying_nonempty hostname dd.
Proof.
  unfold first_qualifying_nonempty.
  induction dd as [|[g cfg] rest IH]; intros mp mc Hmc; simpl.
  - rewrite Hmc. reflexivity.
  - rewrite <- first_pattern_qualifies.
    destruct (first_pattern hostname (patterns_of g)) as [p|]; simpl.
    + destruct (truthy cfg) eqn:Hcfg; simpl.
      * rewrite Hcfg. reflexivity.
      * apply IH. exact Hcfg.
    + rewrite Hmc. apply IH. exact Hmc.
Qed.

Lemma get_site_config_spec (url : string) (ph : option string)
      (dd : list (string * json)) :
  urlparse_hostname url = Ok ph ->
  get_site_config url dd = Ok (first_qualifying_nonempty (hostname_or "" ph) dd).
Proof.
  intros Hp. unfold get_site_config. rewrite Hp. simpl.
  pose proof (scan_groups_find (hostname_or "" ph) dd None JNull eq_refl) as Hs.
  simpl in Hs.
  destruct (scan_groups (hostname_or "" ph) dd None JNull) as [mp mc].
  simpl in Hs. rewrite <- Hs.
  destruct (truthy mc); reflexivity.
Qed.

(** C2 (as amended).  For a URL that [urlparse] accepts, with hostname
    [h] (the empty string when the URL has none), [get_site_config]
    returns the configuration of the first group, in insertion order of
    [download_dirs], that contains a pattern [p] (comma separated,
    trimmed, empties dropped) with [fnmatch h p] or [p.strip("*") in h]
    AND whose configuration is truthy; it returns [None] when no group is
    such.  A group that qualifies with an empty configuration is passed
    over. *)
Theorem get_site_config_first_nonempty_match
        (url : string) (ph : option string) (dd : list (string * json)) :
  urlparse_hostname url = Ok ph ->
  get_site_config url dd
  = Ok (option_map snd
          (find (fun gc => group_qualifies (hostname_or "" ph) (fst gc)
                           && truthy (snd gc)) dd))
  /\ (forall g,
         group_qualifies (hostname_or "" ph) g = true <->
         exists p, In p (patterns_of g)
                   /\ (fnmatch (hostname_or "" ph) p = true
                       \/ contains (strip is_star p) (hostname_or "" ph) = true)).
Proof.
  intros Hp. split.
  - apply (get_site_config_spec url ph dd Hp).
  - intros g. apply group_qualifies_iff.
Qed.

(** C10 (as amended).  When the first group of [download_dirs] contains a
    pattern made of [*] only and its configuration is truthy,
    [get_site_config] returns that configuration for every URL that
    [urlparse] accepts, whatever its hostname, also when it has none. *)
Theorem star_group_matches_every_url
        (url : string) (ph : option string) (g p : string) (cfg : json)
        (rest : list (string * json)) :
  urlparse_hostname url = Ok ph ->
  In p (patterns_of g) ->
  only_stars p = true ->
  truthy cfg = true ->
  get_site_config url ((g, cfg) :: rest) = Ok (Some cfg).
Proof.
  intros Hp Hin Hstars Hcfg.
  rewrite (get_site_config_spec url ph _ Hp).
  unfold first_qualifying_nonempty. simpl.
  assert (Hq : group_qualifies (hostname_or "" ph) g = true).
  { apply group_qualifies_iff. exists p. split; [exact Hin|].
    right. rewrite (strip_only_stars p Hstars). apply contains_empty. }
  rewrite Hq, Hcfg. reflexivity.
Qed.

End SiteMatcherFacts.

(** The scenario of the specification: [youtu.be] under
    ["*youtube*, *youtu.be*"]. *)
Example get_site_config_youtu_be :
  @get_site_config (Lib.host true) "https://youtu.be/abc"
    [("*youtube*, *youtu.be*", JDict [("dir", JStr "yt"); ("args", JStr "-x")])]
  = Ok (Some (JDict [("dir", JStr "yt"); ("args", JStr "-x")])).
Proof. reflexivity. Qed.

Lemma get_site_config_first_nonempty_match_witness :
  @urlparse_hostname (Lib.host true) "https://youtu.be/abc" = Ok (Some "youtu.be")
  /\ @get_site_config (Lib.host true) "https://youtu.be/abc"
       [("*", JDict []);
        ("*youtube*, *youtu.be*", JDict [("dir", JStr "yt"); ("args", JStr "-x")])]
     = Ok (Some (JDict [("dir", JStr "yt"); ("args", JStr "-x")])).
Proof.
  split; [reflexivity|].
  exact (proj1 (@get_site_config_first_nonempty_match (Lib.host true)
                  "https://youtu.be/abc" (Some "youtu.be")
                  [("*", JDict []);
                   ("*youtube*, *youtu.be*",
                    JDict [("dir", JStr "yt"); ("args", JStr "-x")])]
                  eq_refl)).
Defined.

(** C2 as stated fails: the first group that qualifies for [youtube.com]
    is ["*"], whose configuration is the empty object; [get_site_config]
    goes on and returns the configuration of the second group. *)
Lemma get_site_config_skips_empty_config :
  @urlparse_hostname (Lib.host true) "https://youtube.com/watch" = Ok (Some "youtube.com")
  /\ @spec_first_qualifying (Lib.host true) "youtube.com" Scenario.empty_first
     = Some (JDict [])
  /\ @get_site_config (Lib.host true) "https://youtube.com/watch" Scenario.empty_first
     = Ok (Some Scenario.yt)
  /\ @get_site_config (Lib.host true) "https://youtube.com/watch" Scenario.empty_first
     <> Ok (@spec_first_qualifying (Lib.host true) "youtube.com" Scenario.empty_first).
Proof.
  repeat split; try reflexivity. discriminate.
Qed.

Lemma star_group_matches_every_url_witness :
  @get_site_config (Lib.host true) "not a url"
    [("*", JDict [("dir", JStr "all"); ("args", JStr "")])]
  = Ok (Some (JDict [("dir", JStr "all"); ("args", JStr "")])).
Proof.
  apply (@star_group_matches_every_url (Lib.host true) "not a url" None "*" "*").
  - reflexivity.
  - simpl. left. reflexivity.
  - reflexivity.
  - reflexivity.
Defined.

(** C10 as stated fails: the only group is ["*"], and it qualifies for
    every hostname, yet with the empty object as its configuration
    [get_site_config] returns [None]. *)
Lemma star_group_with_empty_config_matches_nothing :
  In "*" (patterns_of "*")
  /\ only_stars "*" = true
  /\ @group_qualifies (Lib.host true) "example.com" "*" = true
  /\ @get_site_config (Lib.host true) "https://example.com/v" Scenario.empty_only
     = Ok None
  /\ @get_site_config (Lib.host true) "https://example.com/v" Scenario.empty_only
     <> Ok (Some (JDict [])).
Proof.
  repeat split; try reflexivity; [simpl; left; reflexivity | discriminate].
Qed.

(* ===================================================================== *)
(** ** Settings store: proofs                                             *)
(* ===================================================================== *)

Section SettingsFacts.
Context `{Host}.





Lemma relativized_relative (p : string) :
  Path.isabs p = false -> relativized (Some (JStr p)) = None.
Proof. intros Hp. unfold relativized. rewrite Hp. reflexivity. Qed.

Lemma save_settings_relative (dd args : string) (toasts : bool) (f0 : file) :
  Path.isabs dd = false ->
  save_settings [ ("default_dir", JStr dd); ("default_args", JStr args);
                  ("download_dirs", JDict []); ("show_toasts", JBool toasts) ] f0
  = ([ ("default_dir", JStr dd); ("default_args", JStr args);
       ("download_dirs", JDict []); ("show_toasts", JBool toasts) ],
     Holds (JDict [ ("default_dir", JStr dd); ("default_args", JStr args);
                    ("download_dirs", JDict []); ("show_toasts", JBool toasts) ])).
Proof.
  intros Hdd. unfold save_settings.
  change (dict_get "default_dir" _) with (Some (JStr dd)).
  rewrite (relativized_relative dd Hdd). reflexivity.
Qed.

(** C1, the behaviour of the code.  A settings document whose
    [default_dir] is a relative path is written unchanged by
    [save_settings], and [load_settings] then returns that same document:
    the [default_dir] it returns is the stored relative path, not the
    absolute path of the runtime-resolved copy, which [load_settings]
    builds and drops. *)
Theorem load_settings_returns_stored_default_dir
        (dd args : string) (toasts : bool) (f0 : file) :
  Path.isabs dd = false ->
  exists settings,
    load_settings
      (snd (save_settings
              [ ("default_dir", JStr dd); ("default_args", JStr args);
                ("download_dirs", JDict []); ("show_toasts", JBool toasts) ] f0))
    = Ok (settings,
          Holds (JDict [ ("default_dir", JStr dd); ("default_args", JStr args);
                         ("download_dirs", JDict []); ("show_toasts", JBool toasts) ]))
    /\ dict_get "default_dir" settings = Some (JStr dd)
    /\ Path.isabs dd = false.
Proof.
  intros Hdd.
  exists [ ("default_dir", JStr dd); ("default_args", JStr args);
           ("download_dirs", JDict []); ("show_toasts", JBool toasts) ].
  rewrite (save_settings_relative dd args toasts f0 Hdd).
  split; [|split; [reflexivity | exact Hdd]].
  unfold load_settings, snd, load_parsed.
  change (dict_has "yt_dlp_path" _) with false. cbv iota.
  change (dict_get "default_dir" _) with (Some (JStr dd)).
  rewrite (relativized_relative dd Hdd).
  change (dict_get "download_dirs" _) with (Some (JDict [])) at 1.
  cbn [normalize_dirs].
  cbv [dict_update base_defaults fold_left fst snd dict_set String.eqb Ascii.eqb Bool.eqb orb].
  unfold runtime_of.
  change (dict_get "default_dir" _) with (Some (JStr dd)) at 1.
  cbn [isabs_value rbind]. rewrite Hdd.
  reflexivity.
Qed.

End SettingsFacts.

Lemma load_settings_returns_stored_default_dir_witness :
  exists settings,
    @load_settings (Lib.host true)
      (snd (@save_settings (Lib.host true)
              [ ("default_dir", JStr "downloads");
                ("default_args", JStr "--recode-video mp4 --embed-thumbnail --embed-metadata");
                ("download_dirs", JDict []); ("show_toasts", JBool true) ] Missing))
    = Ok (settings,
          Holds (JDict [ ("default_dir", JStr "downloads");
                         ("default_args", JStr "--recode-video mp4 --embed-thumbnail --embed-metadata");
                         ("download_dirs", JDict []); ("show_toasts", JBool true) ]))
    /\ dict_get "default_dir" settings = Some (JStr "downloads")
    /\ Path.isabs "downloads" = false.
Proof.
  apply (@load_settings_returns_stored_default_dir (Lib.host true)
           "downloads" "--recode-video mp4 --embed-thumbnail --embed-metadata"
           true Missing).
  reflexivity.
Defined.

(* ===================================================================== *)
(** ** Dictionaries: proofs                                               *)
(* ===================================================================== *)

Section DictFacts.
Context {V : Type}.
Implicit Types (d : list (string * V)) (k : string) (v : V).

Lemma dict_get_none_not_in d k :
  dict_get k d = None <-> ~ In k (dict_keys d).
Proof.
  induction d as [|[k' v'] d IH]; simpl.
  - split; [intros _ [] | reflexivity].
  - destruct (String.eqb_spec k' k) as [->|Hne].
    + split; [discriminate | intros Hn; exfalso; apply Hn; left; reflexivity].
    + rewrite IH. split.
      * intros Hn [Heq|Hin]; [exact (Hne Heq) | exact (Hn Hin)].
      * intros Hn Hin. apply Hn. right. exact Hin.
Qed.

Lemma dict_set_fresh d k v :
  dict_get k d = None -> dict_set k v d = d ++ [(k, v)].
Proof.
  induction d as [|[k' v'] d IH]; simpl; intros Hg; [reflexivity|].
  destruct (k' =? k); [discriminate|].
  rewrite (IH Hg). reflexivity.
Qed.

Lemma dict_set_keys_present d k v v0 :
  dict_get k d = Some v0 -> dict_keys (dict_set k v d) = dict_keys d.
Proof.
  induction d as [|[k' v'] d IH]; simpl; intros Hg; [discriminate|].
  destruct (k' =? k); simpl; [reflexivity|].
  rewrite (IH Hg). reflexivity.
Qed.

Lemma dict_get_set_same d k v : dict_get k (dict_set k v d) = Some v.
Proof.
  induction d as [|[k' v'] d IH]; simpl.
  - rewrite String.eqb_refl. reflexivity.
  - destruct (k' =? k) eqn:He; simpl; rewrite He; [reflexivity | exact IH].
Qed.

Lemma dict_set_set d k v1 v2 :
  dict_set k v2 (dict_set k v1 d) = dict_set k v2 d.
Proof.
  induction d as [|[k' v'] d IH]; simpl.
  - rewrite String.eqb_refl. reflexivity.
  - destruct (k' =? k) eqn:He; simpl; rewrite He; [reflexivity|].
    rewrite IH. reflexivity.
Qed.

Lemma dict_set_length_present d k v v0 :
  dict_get k d = Some v0 -> length (dict_set k v d) = length d.
Proof.
  intros Hg.
  rewrite <- (length_map fst (dict_set k v d)), <- (length_map fst d).
  change (map fst (dict_set k v d)) with (dict_keys (dict_set k v d)).
  rewrite (dict_set_keys_present d k v v0 Hg). reflexivity.
Qed.

Lemma dict_set_wf d k v : dict_wf d -> dict_wf (dict_set k v d).
Proof.
  unfold dict_wf. intros Hwf.
  destruct (dict_get k d) as [v0|] eqn:Hg.
  - rewrite (dict_set_keys_present d k v v0 Hg). exact Hwf.
  - rewrite (dict_set_fresh d k v Hg). unfold dict_keys.
    rewrite map_app. simpl.
    apply NoDup_app; [exact Hwf | repeat constructor; intros [] | ].
    intros x Hin Hx.
    destruct Hx as [<-|[]].
    apply (proj1 (dict_get_none_not_in d k) Hg). exact Hin.
Qed.


Lemma dict_del_keys d k d' :
  dict_del k d = Some d' ->
  exists a b v, d = a ++ (k, v) :: b /\ d' = a ++ b.
Proof.
  revert d'. induction d as [|[k' v'] d IH]; simpl; intros d' Hd; [discriminate|].
  destruct (String.eqb_spec k' k) as [->|Hne].
  - injection Hd as <-. exists [], d, v'. split; reflexivity.
  - destruct (dict_del k d) as [r|]; [|discriminate].
    injection Hd as <-.
    destruct (IH r eq_refl) as [a [b [v [-> ->]]]].
    exists ((k', v') :: a), b, v. split; reflexivity.
Qed.

Lemma dict_del_wf d k d' : dict_wf d -> dict_del k d = Some d' -> dict_wf d'.
Proof.
  unfold dict_wf, dict_keys. intros Hwf Hd.
  destruct (dict_del_keys d k d' Hd) as [a [b [v [-> ->]]]].
  rewrite map_app in *. simpl in Hwf.
  apply NoDup_remove_1 in Hwf. exact Hwf.
Qed.

Lemma dict_get_in d k v : dict_get k d = Some v -> In (k, v) d.
Proof.
  induction d as [|[k' v'] d IH]; simpl; intros Hg; [discriminate|].
  destruct (String.eqb_spec k' k) as [->|Hne].
  - injection Hg as ->. left. reflexivity.
  - right. apply IH. exact Hg.
Qed.

Lemma dict_in_get d k v : dict_wf d -> In (k, v) d -> dict_get k d = Some v.
Proof.
  unfold dict_wf, dict_keys.
  induction d as [|[k' v'] d IH]; simpl; intros Hwf Hin; [contradiction|].
  inversion Hwf as [|x l Hnotin Hwf']; subst.
  destruct Hin as [Heq|Hin].
  - injection Heq as -> ->. rewrite String.eqb_refl. reflexivity.
  - destruct (String.eqb_spec k' k) as [->|Hne].
    + exfalso. apply Hnotin. apply (in_map fst _ _ Hin).
    + apply IH; assumption.
Qed.

(** [dict(items)] of pairwise distinct keys is the item list itself. *)
Lemma dict_update_fresh (acc items : list (string * V)) :
  dict_wf (acc ++ items) -> dict_update acc items = acc ++ items.
Proof.
  unfold dict_update. revert acc.
  induction items as [|[k v] items IH]; intros acc Hwf; simpl.
  - rewrite app_nil_r. reflexivity.
  - assert (Hfresh : dict_get k acc = None).
    { apply dict_get_none_not_in. unfold dict_wf, dict_keys in Hwf.
      rewrite map_app in Hwf. simpl in Hwf.
      apply NoDup_remove_2 in Hwf. intros Hin. apply Hwf.
      apply in_or_app. left. exact Hin. }
    rewrite (dict_set_fresh acc k v Hfresh).
    rewrite IH; rewrite <- app_assoc; simpl; [reflexivity | exact Hwf].
Qed.

Lemma dict_of_items_wf (items : list (string * V)) :
  dict_wf items -> dict_of_items items = items.
Proof. intros Hwf. apply (dict_update_fresh [] items). exact Hwf. Qed.

Lemma dict_wf_skipn (n : nat) d : dict_wf d -> dict_wf (skipn n d).
Proof.
  unfold dict_wf, dict_keys. intros Hwf.
  rewrite <- (firstn_skipn n d), map_app in Hwf.
  apply NoDup_app_remove_l in Hwf. exact Hwf.
Qed.

End DictFacts.

Lemma slice_index_limit (len : nat) :
  slice_index len (- JOB_HISTORY_LIMIT) = len - 10.
Proof. unfold slice_index, JOB_HISTORY_LIMIT. simpl. lia. Qed.

Lemma str_of_int_inj (a b : Z) : str_of_int a = str_of_int b -> a = b.
Proof.
  unfold str_of_int. intros Heq.
  assert (Hnn : forall z, Z.to_int z <> Decimal.Pos Decimal.Nil
                          /\ Z.to_int z <> Decimal.Neg Decimal.Nil).
  { intros z. destruct z as [|p|p]; simpl; split; try discriminate;
      intros Hp; injection Hp as Hp;
      exact (DecimalPos.Unsigned.to_uint_nonnil p Hp). }
  apply DecimalZ.to_int_inj.
  assert (Hs : Some (Z.to_int a) = Some (Z.to_int b)).
  { rewrite <- (NilZero.isi (Z.to_int a)) by apply Hnn.
    rewrite <- (NilZero.isi (Z.to_int b)) by apply Hnn.
    rewrite Heq. reflexivity. }
  injection Hs as Hs. exact Hs.
Qed.

(* ===================================================================== *)
(** ** Dispatcher and job tracker: proofs                                 *)
(* ===================================================================== *)

Section DispatcherFacts.
Context `{Host}.

(** [download] answers 400 and touches nothing as soon as the [url]
    entry of the request is falsy. *)
Lemma download_falsy_url (SETTINGS : list (string * json)) (now_ms : Z)
      (d : list (string * json)) (J : jobs) :
  truthy (value_or_null (dict_get "url" d)) = false ->
  download SETTINGS now_ms (JDict d) J
  = Ok (Response 400 (JDict [("error", JStr "No URL provided")]), J, None).
Proof. intros Hu. unfold download. rewrite Hu. reflexivity. Qed.

(** C3.  A dispatch request whose [url] entry is absent or the empty
    string gets the answer 400 with the payload
    [{"error": "No URL provided"}]; [JOBS] is the same afterwards and no
    thread is started, so the backend state does not change. *)
Theorem download_rejects_missing_url
        (SETTINGS : list (string * json)) (now_ms : Z)
        (d : list (string * json)) (b : backend) :
  dict_get "url" d = None \/ dict_get "url" d = Some (JStr "") ->
  download SETTINGS now_ms (JDict d) (JOBS b)
  = Ok (Response 400 (JDict [("error", JStr "No URL provided")]), JOBS b, None)
  /\ backend_step SETTINGS (Dispatch now_ms (JDict d)) b = b.
Proof.
  intros Hu.
  assert (Hd : download SETTINGS now_ms (JDict d) (JOBS b)
               = Ok (Response 400 (JDict [("error", JStr "No URL provided")]),
                     JOBS b, None)).
  { apply download_falsy_url. destruct Hu as [-> | ->]; reflexivity. }
  split; [exact Hd|].
  unfold backend_step. rewrite Hd. destruct b; reflexivity.
Qed.

(** What a dispatch that starts a thread did. *)
Lemma download_started (SETTINGS : list (string * json)) (now_ms : Z)
      (data : json) (J J' : jobs) (r : response) (t : task) :
  download SETTINGS now_ms data J = Ok (r, J', Some t) ->
  t_job_id t = str_of_int now_ms
  /\ r = Response 200 (JDict [("job_id", JStr (str_of_int now_ms))])
  /\ exists site,
       J' = dict_set (str_of_int now_ms)
                     (mkJob (t_url t) site "starting" (t_download_dir t)) J.
Proof.
  unfold download.
  destruct data as [| | | |l|d]; try discriminate.
  destruct (negb (truthy (value_or_null (dict_get "url" d)))); [discriminate|].
  destruct (value_or_null (dict_get "url" d)) as [| | |url| |]; try discriminate.
  destruct (urlparse_hostname url) as [ph|e]; [|discriminate]. simpl.
  destruct (match dict_get "download_dirs" SETTINGS with
            | Some (JDict dd) => Ok dd
            | Some _ => Raise (AttributeError "object has no attribute 'items'")
            | None => Ok []
            end) as [dds|e]; [|discriminate]. simpl.
  destruct (get_site_config url dds) as [ss|e]; [|discriminate]. simpl.
  destruct (site_or_default ss "dir" "default_dir" SETTINGS) as [dir|e];
    [|discriminate]. simpl.
  destruct (site_or_default ss "args" "default_args" SETTINGS) as [args|e];
    [|discriminate]. simpl.
  destruct dir as [| | |dir| |]; try discriminate.
  destruct (makedirs dir); [|discriminate].
  intros Heq. injection Heq as <- <- <-. simpl.
  split; [reflexivity|]. split; [reflexivity|].
  eexists. reflexivity.
Qed.

(** A dispatch adds at most one entry, removes none and keeps the keys
    distinct. *)
Lemma download_store (SETTINGS : list (string * json)) (now_ms : Z)
      (data : json) (J J' : jobs) (r : response) (ot : option task) :
  download SETTINGS now_ms data J = Ok (r, J', ot) ->
  J' = J \/ exists j, J' = dict_set (str_of_int now_ms) j J.
Proof.
  intros Hd. destruct ot as [t|].
  - right. destruct (download_started _ _ _ _ _ _ _ Hd) as [_ [_ [site ->]]].
    eexists. reflexivity.
  - left. revert Hd. unfold download.
    destruct data as [| | | |l|d]; try discriminate.
    destruct (negb (truthy (value_or_null (dict_get "url" d)))).
    + intros Heq. injection Heq as _ <-. reflexivity.
    + destruct (value_or_null (dict_get "url" d)) as [| | |url| |]; try discriminate.
      destruct (urlparse_hostname url) as [ph|e]; [|discriminate]. simpl.
      destruct (match dict_get "download_dirs" SETTINGS with
                | Some (JDict dd) => Ok dd
                | Some _ => Raise (AttributeError "object has no attribute 'items'")
                | None => Ok []
                end) as [dds|e]; [|discriminate]. simpl.
      destruct (get_site_config url dds) as [ss|e]; [|discriminate]. simpl.
      destruct (site_or_default ss "dir" "default_dir" SETTINGS) as [dir|e];
        [|discriminate]. simpl.
      destruct (site_or_default ss "args" "default_args" SETTINGS) as [args|e];
        [|discriminate]. simpl.
      destruct dir as [| | |dir| |]; try discriminate.
      destruct (makedirs dir); discriminate.
Qed.

(** C9 (as amended).  Two dispatches that read different clock values
    (in whole milliseconds) allocate different job IDs: the ID is the
    decimal text of the clock value. *)
Theorem job_ids_distinct_at_distinct_instants
        (S1 S2 : list (string * json)) (n1 n2 : Z) (d1 d2 : json)
        (J1 J1' J2 J2' : jobs) (r1 r2 : response) (t1 t2 : task) :
  download S1 n1 d1 J1 = Ok (r1, J1', Some t1) ->
  download S2 n2 d2 J2 = Ok (r2, J2', Some t2) ->
  n1 <> n2 ->
  t_job_id t1 = str_of_int n1
  /\ t_job_id t2 = str_of_int n2
  /\ t_job_id t1 <> t_job_id t2.
Proof.
  intros H1 H2 Hne.
  destruct (download_started _ _ _ _ _ _ _ H1) as [E1 _].
  destruct (download_started _ _ _ _ _ _ _ H2) as [E2 _].
  split; [exact E1|]. split; [exact E2|].
  rewrite E1, E2. intros Heq. apply Hne. apply str_of_int_inj. exact Heq.
Qed.

(** *** The cleanup block *)

Lemma del_each_prefix (old rest : jobs) (tr : list event) :
  del_each (dict_keys old) (old ++ rest, tr)
  = (Ok tt, (rest, tr ++ map EDel (dict_keys old))).
Proof.
  revert tr. induction old as [|[k j] old IH]; intros tr; simpl.
  - rewrite app_nil_r. reflexivity.
  - unfold bind, del_job. simpl. rewrite String.eqb_refl.
    rewrite IH. rewrite <- app_assoc. reflexivity.
Qed.

Lemma slice_to_limit_keys (J : jobs) :
  slice_to (- JOB_HISTORY_LIMIT) (dict_keys J)
  = dict_keys (firstn (length J - 10) J).
Proof.
  unfold slice_to, dict_keys.
  rewrite length_map, slice_index_limit. apply firstn_map.
Qed.

Lemma cleanup_spec (J : jobs) (tr : list event) :
  cleanup (J, tr)
  = (Ok tt, (skipn (length J - 10) J,
             tr ++ ECleanup :: map EDel (dict_keys (firstn (length J - 10) J)))).
Proof.
  unfold cleanup, bind, emit. simpl.
  destruct (Z.of_nat (length J) >? JOB_HISTORY_LIMIT)%Z eqn:Hover.
  - rewrite slice_to_limit_keys.
    pose proof (del_each_prefix (firstn (length J - 10) J)
                  (skipn (length J - 10) J) (tr ++ [ECleanup])) as Hd.
    rewrite firstn_skipn, <- app_assoc in Hd. exact Hd.
  - unfold JOB_HISTORY_LIMIT in Hover.
    assert (Hlen : length J - 10 = 0) by lia.
    rewrite Hlen. simpl. reflexivity.
Qed.


(** *** The status route *)

Lemma status_jobs_spec (J : jobs) :
  dict_wf J -> status_jobs J = skipn (length J - 10) J.
Proof.
  intros Hwf. unfold status_jobs, slice_from.
  rewrite slice_index_limit.
  apply dict_of_items_wf. apply dict_wf_skipn. exact Hwf.
Qed.

(** C5.  Whatever the store, [GET /api/status] answers with the last
    [min(count, 10)] entries of [JOBS], in insertion order: the store is
    some older entries followed by exactly the answer; with more than 10
    jobs tracked the answer has exactly 10 entries. *)
Theorem status_returns_most_recent (J : jobs) :
  dict_wf J ->
  exists older,
    J = older ++ status_jobs J
    /\ length (status_jobs J) = Nat.min (length J) 10
    /\ (10 < length J -> length (status_jobs J) = 10)
    /\ status J
       = Response 200
           (JDict (map (fun kv => (fst kv, json_of_job (snd kv)))
                       (skipn (length J - 10) J))).
Proof.
  intros Hwf. exists (firstn (length J - 10) J).
  unfold status. rewrite (status_jobs_spec J Hwf).
  split; [symmetry; apply firstn_skipn|].
  rewrite length_skipn.
  split; [lia|]. split; [lia | reflexivity].
Qed.

End DispatcherFacts.

(* ===================================================================== *)
(** ** The background task: proofs                                        *)
(* ===================================================================== *)

Section RunJobFacts.
Context `{Host}.

Lemma set_status_ok (job_id s : string) (J : jobs) (tr : list event) (j : job) :
  dict_get job_id J = Some j ->
  set_status job_id s (J, tr)
  = (Ok tt, (dict_set job_id (with_status j s) J, tr ++ [EStatus job_id s])).
Proof. intros Hj. unfold set_status. simpl. rewrite Hj. reflexivity. Qed.

Lemma set_status_again (job_id s1 s2 : string) (J : jobs) (tr : list event)
      (j : job) :
  set_status job_id s2 (dict_set job_id (with_status j s1) J, tr)
  = (Ok tt, (dict_set job_id (with_status j s2) J, tr ++ [EStatus job_id s2])).
Proof.
  rewrite (set_status_ok job_id s2
             (dict_set job_id (with_status j s1) J) tr (with_status j s1)
             (dict_get_set_same J job_id (with_status j s1))).
  rewrite dict_set_set. reflexivity.
Qed.

(** The binary exits with 0: the job is marked completed and [run_job]
    returns at once. *)
Lemma run_job_binary_success (t : task) (o : outcome) (J : jobs)
      (tr : list event) (j : job) (args out err : string) :
  YTDLP_UPDATER_AVAILABLE = true ->
  dict_get (t_job_id t) J = Some j ->
  t_custom_args t = JStr args ->
  binary o = Ok (0%Z, out, err) ->
  run_job t o (J, tr)
  = (Ok tt,
     (dict_set (t_job_id t) (with_status j "completed") J,
      tr ++ [ EStatus (t_job_id t) "running";
              EBinary (t_url t) (t_download_dir t) (JStr args);
              EStatus (t_job_id t) "completed" ])).
Proof.
  intros Hav Hj Hargs Hbin.
  unfold run_job, binary_attempt, bind, try_except, lift, emit, ret.
  rewrite (set_status_ok _ _ _ _ j Hj), Hargs, Hav, Hbin.
  cbn [arg_in fst snd Z.eqb].
  rewrite set_status_again.
  rewrite <- !app_assoc. reflexivity.
Qed.

(** The binary exits with a code other than 0: the error is recorded,
    the library is tried, its result is recorded, and the cleanup block
    runs. *)
Lemma run_job_binary_failure (t : task) (o : outcome) (J : jobs)
      (tr : list event) (j : job) (args out err : string) (rc : Z) :
  YTDLP_UPDATER_AVAILABLE = true ->
  dict_get (t_job_id t) J = Some j ->
  t_custom_args t = JStr args ->
  binary o = Ok (rc, out, err) ->
  rc <> 0%Z ->
  run_job t o (J, tr)
  = let final := match library o with
                 | Ok _ => "completed"
                 | Raise e => ("error: " ++ exn_msg e)%string
                 end in
    cleanup
      (dict_set (t_job_id t) (with_status j final) J,
       tr ++ [ EStatus (t_job_id t) "running";
               EBinary (t_url t) (t_download_dir t) (JStr args);
               EStatus (t_job_id t) ("error: " ++ err);
               ELibrary (t_url t)
                        (contains "--embed-thumbnail" args)
                        (contains "--embed-metadata" args)
                        (contains "--recode-video mp4" args);
               EStatus (t_job_id t) final ]).
Proof.
  intros Hav Hj Hargs Hbin Hrc.
  unfold run_job, binary_attempt, bind, try_except, lift, emit, ret.
  rewrite (set_status_ok _ _ _ _ j Hj), Hargs, Hav, Hbin.
  cbn [arg_in fst snd].
  destruct (Z.eqb_spec rc 0) as [Hz|_]; [contradiction|].
  rewrite set_status_again. cbn [fst snd].
  destruct (library o) as [[]|e]; cbn zeta;
    rewrite set_status_again; rewrite <- !app_assoc; reflexivity.
Qed.

(** The undisturbed run.  Take a job that is tracked when its thread runs, with the
    updater available and a string of arguments, and let the binary
    return [(rc, out, err)].  If [rc] is not 0, [run_job] first writes the
    status ["error: " ++ err], then calls the library, and when the
    library succeeds the last status it writes is ["completed"] (the
    cleanup block follows; if the job is still tracked after it, its
    status is ["completed"]).  If [rc] is 0, [run_job] writes
    ["completed"] and ends: the library is not called. *)
Lemma run_job_binary_then_library
        (t : task) (o : outcome) (J : jobs) (tr : list event) (j : job)
        (args out err : string) (rc : Z) :
  YTDLP_UPDATER_AVAILABLE = true ->
  dict_wf J ->
  dict_get (t_job_id t) J = Some j ->
  t_custom_args t = JStr args ->
  binary o = Ok (rc, out, err) ->
  (rc <> 0%Z -> library o = Ok tt ->
   run_job t o (J, tr)
   = cleanup
       (dict_set (t_job_id t) (with_status j "completed") J,
        tr ++ [ EStatus (t_job_id t) "running";
                EBinary (t_url t) (t_download_dir t) (JStr args);
                EStatus (t_job_id t) ("error: " ++ err);
                ELibrary (t_url t)
                         (contains "--embed-thumbnail" args)
                         (contains "--embed-metadata" args)
                         (contains "--recode-video mp4" args);
                EStatus (t_job_id t) "completed" ])
   /\ fst (run_job t o (J, tr)) = Ok tt
   /\ forall j', dict_get (t_job_id t) (fst (snd (run_job t o (J, tr)))) = Some j' ->
                 job_status j' = "completed")
  /\ (rc = 0%Z ->
      run_job t o (J, tr)
      = (Ok tt,
         (dict_set (t_job_id t) (with_status j "completed") J,
          tr ++ [ EStatus (t_job_id t) "running";
                  EBinary (t_url t) (t_download_dir t) (JStr args);
                  EStatus (t_job_id t) "completed" ]))).
Proof.
  intros Hav Hwf Hj Hargs Hbin. split.
  - intros Hrc Hlib.
    rewrite (run_job_binary_failure t o J tr j args out err rc Hav Hj Hargs Hbin Hrc).
    rewrite Hlib. cbn zeta.
    split; [reflexivity|].
    rewrite cleanup_spec. cbn [fst snd].
    split; [reflexivity|].
    intros j' Hj'.
    set (J2 := dict_set (t_job_id t) (with_status j "completed") J) in *.
    assert (Hwf2 : dict_wf J2) by (apply dict_set_wf; exact Hwf).
    apply dict_get_in in Hj'.
    assert (Hin : In (t_job_id t, j') J2).
    { rewrite <- (firstn_skipn (length J2 - 10) J2).
      apply in_or_app. right. exact Hj'. }
    apply (dict_in_get J2 _ _ Hwf2) in Hin.
    unfold J2 in Hin. rewrite dict_get_set_same in Hin.
    injection Hin as <-. reflexivity.
  - intros ->.
    apply (run_job_binary_success t o J tr j args out err Hav Hj Hargs Hbin).
Qed.

(** C8, the behaviour of the code.  When the binary exits with 0,
    [run_job] records ["completed"] and returns without reaching the
    cleanup block: no cleanup event is added to the trace and the store
    keeps all its entries, however many there are. *)
Theorem run_job_binary_success_skips_cleanup
        (t : task) (o : outcome) (J : jobs) (tr : list event) (j : job)
        (args out err : string) :
  YTDLP_UPDATER_AVAILABLE = true ->
  dict_get (t_job_id t) J = Some j ->
  t_custom_args t = JStr args ->
  binary o = Ok (0%Z, out, err) ->
  ~ In ECleanup tr ->
  fst (run_job t o (J, tr)) = Ok tt
  /\ dict_get (t_job_id t) (fst (snd (run_job t o (J, tr))))
     = Some (with_status j "completed")
  /\ ~ In ECleanup (snd (snd (run_job t o (J, tr))))
  /\ length (fst (snd (run_job t o (J, tr)))) = length J.
Proof.
  intros Hav Hj Hargs Hbin Hno.
  rewrite (run_job_binary_success t o J tr j args out err Hav Hj Hargs Hbin).
  cbn [fst snd].
  split; [reflexivity|].
  split; [apply dict_get_set_same|].
  split.
  - intros Hin. apply in_app_or in Hin. destruct Hin as [Hin|Hin].
    + exact (Hno Hin).
    + simpl in Hin. destruct Hin as [Hd|[Hd|[Hd|[]]]]; discriminate Hd.
  - apply (dict_set_length_present J _ _ j Hj).
Qed.

(** The other two ways [run_job] ends do run the cleanup block. *)
Lemma run_job_binary_failure_cleans_up
      (t : task) (o : outcome) (J : jobs) (tr : list event) (j : job)
      (args out err : string) (rc : Z) :
  YTDLP_UPDATER_AVAILABLE = true ->
  dict_get (t_job_id t) J = Some j ->
  t_custom_args t = JStr args ->
  binary o = Ok (rc, out, err) ->
  rc <> 0%Z ->
  fst (run_job t o (J, tr)) = Ok tt
  /\ In ECleanup (snd (snd (run_job t o (J, tr))))
  /\ length (fst (snd (run_job t o (J, tr)))) <= 10.
Proof.
  intros Hav Hj Hargs Hbin Hrc.
  rewrite (run_job_binary_failure t o J tr j args out err rc Hav Hj Hargs Hbin Hrc).
  cbn zeta. rewrite cleanup_spec. cbn [fst snd].
  split; [reflexivity|]. split.
  - apply in_or_app. right. left. reflexivity.
  - rewrite length_skipn. lia.
Qed.

End RunJobFacts.

(* ===================================================================== *)
(** ** The store stays a dictionary                                       *)
(* ===================================================================== *)

Section StoreInvariant.
Context `{Host}.

Lemma keys_distinct_sound (ks : list string) :
  keys_distinct ks = true -> NoDup ks.
Proof.
  induction ks as [|k ks IH]; simpl; intros Hd; [constructor|].
  apply andb_prop in Hd. destruct Hd as [Hk Hks].
  constructor; [|exact (IH Hks)].
  intros Hin. apply negb_true_iff in Hk.
  assert (Hex : existsb (String.eqb k) ks = true).
  { apply existsb_exists. exists k. split; [exact Hin | apply String.eqb_refl]. }
  congruence.
Qed.

Lemma keeps_wf_ret {A} (a : A) : keeps_wf (ret a).
Proof. intros J tr Hwf. exact Hwf. Qed.

Lemma keeps_wf_lift {A} (r : result A) : keeps_wf (lift r).
Proof. intros J tr Hwf. exact Hwf. Qed.

Lemma keeps_wf_emit (e : event) : keeps_wf (emit e).
Proof. intros J tr Hwf. exact Hwf. Qed.

Lemma keeps_wf_bind {A B} (c : prog A) (k : A -> prog B) :
  keeps_wf c -> (forall a, keeps_wf (k a)) -> keeps_wf (bind c k).
Proof.
  intros Hc Hk J tr Hwf. unfold bind.
  specialize (Hc J tr Hwf).
  destruct (c (J, tr)) as [[a|e] [J1 tr1]]; simpl in *.
  - apply Hk. exact Hc.
  - exact Hc.
Qed.

Lemma keeps_wf_try {A} (c : prog A) (h : pyexn -> prog A) :
  keeps_wf c -> (forall e, keeps_wf (h e)) -> keeps_wf (try_except c h).
Proof.
  intros Hc Hh J tr Hwf. unfold try_except.
  specialize (Hc J tr Hwf).
  destruct (c (J, tr)) as [[a|e] [J1 tr1]]; simpl in *.
  - exact Hc.
  - apply Hh. exact Hc.
Qed.

Lemma keeps_wf_set_status (job_id s : string) : keeps_wf (set_status job_id s).
Proof.
  intros J tr Hwf. unfold set_status. simpl.
  destruct (dict_get job_id J) as [j|]; simpl; [|exact Hwf].
  apply dict_set_wf. exact Hwf.
Qed.

Lemma keeps_wf_del_job (old : string) : keeps_wf (del_job old).
Proof.
  intros J tr Hwf. unfold del_job. simpl.
  destruct (dict_del old J) as [J'|] eqn:Hd; simpl; [|exact Hwf].
  exact (dict_del_wf J old J' Hwf Hd).
Qed.

Lemma keeps_wf_del_each (olds : list string) : keeps_wf (del_each olds).
Proof.
  induction olds as [|old rest IH]; simpl.
  - apply keeps_wf_ret.
  - apply keeps_wf_bind; [apply keeps_wf_del_job | intros _; exact IH].
Qed.

Lemma keeps_wf_cleanup : keeps_wf cleanup.
Proof.
  intros J tr Hwf. rewrite cleanup_spec. simpl.
  apply dict_wf_skipn. exact Hwf.
Qed.

Lemma keeps_wf_run_job (t : task) (o : outcome) : keeps_wf (run_job t o).
Proof.
  unfold run_job.
  apply keeps_wf_bind; [apply keeps_wf_set_status | intros _].
  apply keeps_wf_bind.
  - apply keeps_wf_try.
    + repeat (apply keeps_wf_bind; [apply keeps_wf_lift | intros ?]).
      apply keeps_wf_bind.
      * destruct YTDLP_UPDATER_AVAILABLE; [|apply keeps_wf_ret].
        unfold binary_attempt. apply keeps_wf_try; [|intros _; apply keeps_wf_ret].
        apply keeps_wf_bind; [apply keeps_wf_emit | intros _].
        apply keeps_wf_bind; [apply keeps_wf_lift | intros [[rc out] err]].
        destruct (rc =? 0)%Z;
          (apply keeps_wf_bind;
           [apply keeps_wf_set_status | intros _; apply keeps_wf_ret]).
      * intros [|]; [apply keeps_wf_ret|].
        apply keeps_wf_bind; [apply keeps_wf_emit | intros _].
        apply keeps_wf_bind; [apply keeps_wf_lift | intros _].
        apply keeps_wf_bind;
          [apply keeps_wf_set_status | intros _; apply keeps_wf_ret].
    + intros e. apply keeps_wf_bind;
        [apply keeps_wf_set_status | intros _; apply keeps_wf_ret].
  - intros [|]; [apply keeps_wf_ret | apply keeps_wf_cleanup].
Qed.

Lemma backend_step_wf (SETTINGS : list (string * json)) (r : request)
      (b : backend) :
  dict_wf (JOBS b) -> dict_wf (JOBS (backend_step SETTINGS r b)).
Proof.
  intros Hwf. destruct r as [now_ms data|i o|]; simpl.
  - destruct (download SETTINGS now_ms data (JOBS b)) as [[[r J'] ot]|e] eqn:Hd;
      [|exact Hwf].
    assert (HJ : dict_wf J').
    { destruct (download_store _ _ _ _ _ _ _ Hd) as [-> | [j ->]];
        [exact Hwf | apply dict_set_wf; exact Hwf]. }
    destruct ot; exact HJ.
  - destruct (nth_error (threads b) i) as [t|]; [|exact Hwf].
    simpl. apply keeps_wf_run_job. exact Hwf.
  - constructor.
Qed.

(** In every state the backend reaches, the keys of [JOBS] are pairwise
    distinct. *)
Lemma backend_run_wf (SETTINGS : list (string * json)) (rs : list request)
      (b : backend) :
  dict_wf (JOBS b) -> dict_wf (JOBS (backend_run SETTINGS rs b)).
Proof.
  unfold backend_run. revert b.
  induction rs as [|r rs IH]; intros b Hwf; simpl; [exact Hwf|].
  apply IH. apply backend_step_wf. exact Hwf.
Qed.

End StoreInvariant.

(* ===================================================================== *)
(** ** Update status: proofs                                              *)
(* ===================================================================== *)

Section UpdateFacts.
Context `{Host}.

Lemma do_update_end_terminal (o : update_outcome) (now : Z) (u : update_job) :
  (u_status (do_update_end o now u) = "succeeded"
   /\ download_latest_ytdlp o = true
   /\ exists path version, ensure_ytdlp_binary o = Ok (path, version))
  \/ (u_status (do_update_end o now u) = "failed"
      /\ (download_latest_ytdlp o = false
          \/ exists e, ensure_ytdlp_binary o = Raise e)).
Proof.
  unfold do_update_end.
  destruct (download_latest_ytdlp o).
  - destruct (ensure_ytdlp_binary o) as [[path version]|e].
    + left. split; [reflexivity|]. split; [reflexivity|].
      exists path, version. reflexivity.
    + right. split; [reflexivity|]. right. exists e. reflexivity.
  - right. split; [reflexivity|]. left. reflexivity.
Qed.

Lemma trigger_keeps_record (s : updater) :
  UPDATE_JOB (snd (update_yt_dlp_api s)) = UPDATE_JOB s.
Proof.
  unfold update_yt_dlp_api. destruct YTDLP_UPDATER_AVAILABLE; reflexivity.
Qed.

(** Every step leaves the status alone, or is the first write of a
    thread (to ["running"]), or is its last write (to ["succeeded"] or
    ["failed"]). *)
Lemma update_step_status (e : update_event) (s : updater) :
  u_status (UPDATE_JOB (update_step e s)) = u_status (UPDATE_JOB s)
  \/ (u_status (UPDATE_JOB (update_step e s)) = "running"
      /\ exists i now, e = ThreadBegins i now
                       /\ nth_error (update_threads s) i = Some Spawned)
  \/ ((u_status (UPDATE_JOB (update_step e s)) = "succeeded"
       \/ u_status (UPDATE_JOB (update_step e s)) = "failed")
      /\ exists i o now, e = ThreadEnds i o now
                         /\ nth_error (update_threads s) i = Some Updating).
Proof.
  destruct e as [|i now|i o now|]; simpl.
  - left. rewrite trigger_keeps_record. reflexivity.
  - destruct (nth_error (update_threads s) i) as [[|]|] eqn:Hn;
      [|left; reflexivity|left; reflexivity].
    right. left. split; [reflexivity|]. exists i, now. split; trivial.
  - destruct (nth_error (update_threads s) i) as [[|]|] eqn:Hn;
      [left; reflexivity| |left; reflexivity].
    right. right. simpl. split.
    + destruct (do_update_end_terminal o now (UPDATE_JOB s)) as [[Hs _]|[Hf _]];
        [left; exact Hs | right; exact Hf].
    + exists i, o, now. split; trivial.
  - left. reflexivity.
Qed.

Lemma update_step_not_idle (e : update_event) (s : updater) :
  u_status (UPDATE_JOB s) <> "idle" ->
  u_status (UPDATE_JOB (update_step e s)) <> "idle".
Proof.
  intros Hs.
  destruct (update_step_status e s) as [-> | [[-> _] | [[-> | ->] _]]];
    [exact Hs | discriminate | discriminate | discriminate].
Qed.

Lemma update_run_not_idle (es : list update_event) (s : updater) :
  u_status (UPDATE_JOB s) <> "idle" ->
  u_status (UPDATE_JOB (update_run es s)) <> "idle".
Proof.
  unfold update_run. revert s.
  induction es as [|e es IH]; intros s Hs; simpl; [exact Hs|].
  apply IH. apply update_step_not_idle. exact Hs.
Qed.

(** C6 (as amended).  [UPDATE_JOB] starts as ["idle"].  The trigger
    request does not write it: when the updater is available it starts
    a thread, and the first write of that thread sets ["running"]; when
    the updater is missing it starts nothing.  The last write of the
    thread sets exactly one of ["succeeded"] and ["failed"].  Every step
    leaves the status alone, sets ["running"] or sets a terminal status,
    so a status other than ["idle"] never becomes ["idle"] again.  For
    one run from the start the statuses read after the trigger, after the
    first write and at the end are ["idle"], ["running"] and a terminal
    status. *)
Theorem update_status_lifecycle :
  u_status (update_status updater_initial) = "idle"
  /\ (forall s, UPDATE_JOB (snd (update_yt_dlp_api s)) = UPDATE_JOB s)
  /\ (forall s,
         update_threads (snd (update_yt_dlp_api s))
         = if YTDLP_UPDATER_AVAILABLE
           then update_threads s ++ [Spawned] else update_threads s)
  /\ (forall now u, u_status (do_update_begin now u) = "running")
  /\ (forall o now u,
         (u_status (do_update_end o now u) = "succeeded"
          /\ u_status (do_update_end o now u) <> "failed")
         \/ (u_status (do_update_end o now u) = "failed"
             /\ u_status (do_update_end o now u) <> "succeeded"))
  /\ (forall es s,
         u_status (UPDATE_JOB s) <> "idle" ->
         u_status (UPDATE_JOB (update_run es s)) <> "idle")
  /\ (YTDLP_UPDATER_AVAILABLE = true ->
      forall o t0 t1,
        u_status (UPDATE_JOB (update_run [Trigger] updater_initial)) = "idle"
        /\ u_status (UPDATE_JOB (update_run [Trigger; ThreadBegins 0 t0]
                                            updater_initial)) = "running"
        /\ (u_status (UPDATE_JOB (update_run
                                    [Trigger; ThreadBegins 0 t0; ThreadEnds 0 o t1]
                                    updater_initial)) = "succeeded"
            \/ u_status (UPDATE_JOB (update_run
                                       [Trigger; ThreadBegins 0 t0; ThreadEnds 0 o t1]
                                       updater_initial)) = "failed")).
Proof.
  split; [reflexivity|].
  split; [exact trigger_keeps_record|].
  split; [intros s; unfold update_yt_dlp_api;
          destruct YTDLP_UPDATER_AVAILABLE; reflexivity|].
  split; [reflexivity|].
  split.
  { intros o now u.
    destruct (do_update_end_terminal o now u) as [[Hs _]|[Hf _]].
    - left. rewrite Hs. split; [reflexivity | discriminate].
    - right. rewrite Hf. split; [reflexivity | discriminate]. }
  split; [exact update_run_not_idle|].
  intros Hav o t0 t1.
  unfold update_run, update_step, update_yt_dlp_api. simpl.
  rewrite Hav. simpl.
  split; [reflexivity|]. split; [reflexivity|].
  destruct (do_update_end_terminal o t1 (do_update_begin t0 UPDATE_JOB_initial))
    as [[Hs _]|[Hf _]]; [left; exact Hs | right; exact Hf].
Qed.

End UpdateFacts.

(* ===================================================================== *)
(** ** Concrete runs: proofs                                              *)
(* ===================================================================== *)

(** After the eleven dispatches the store holds eleven jobs, in dispatch
    order, and the last thread started is [Scenario.last_task]. *)
Lemma after_eleven_store :
  dict_keys (JOBS Scenario.after_eleven)
  = [ "1700000000000"; "1700000000001"; "1700000000002"; "1700000000003";
      "1700000000004"; "1700000000005"; "1700000000006"; "1700000000007";
      "1700000000008"; "1700000000009"; "1700000000010" ]
  /\ nth_error (threads Scenario.after_eleven) 10 = Some Scenario.last_task
  /\ dict_get "1700000000010" (JOBS Scenario.after_eleven) = Some Scenario.last_job.
Proof. vm_compute. repeat split. Qed.

Lemma after_eleven_wf : dict_wf (JOBS Scenario.after_eleven).
Proof. apply keys_distinct_sound. vm_compute. reflexivity. Qed.

Lemma download_rejects_missing_url_witness :
  @download (Lib.host true) Scenario.SETTINGS 1700000000011
            (JDict [("url", JStr "")]) (JOBS Scenario.after_eleven)
  = Ok (Response 400 (JDict [("error", JStr "No URL provided")]),
        JOBS Scenario.after_eleven, None)
  /\ @backend_step (Lib.host true) Scenario.SETTINGS
       (Dispatch 1700000000011 (JDict [("url", JStr "")])) Scenario.after_eleven
     = Scenario.after_eleven.
Proof.
  apply (@download_rejects_missing_url (Lib.host true) Scenario.SETTINGS
           1700000000011 [("url", JStr "")] Scenario.after_eleven).
  right. reflexivity.
Defined.



(** On the store of eleven jobs the cleanup block deletes the oldest job
    and keeps the ten that follow it. *)
Example cleanup_after_eleven :
  cleanup (JOBS Scenario.after_eleven, [])
  = (Ok tt, (skipn 1 (JOBS Scenario.after_eleven),
             [ECleanup; EDel "1700000000000"])).
Proof. vm_compute. reflexivity. Qed.

Lemma status_returns_most_recent_witness :
  exists older,
    JOBS Scenario.after_eleven = older ++ status_jobs (JOBS Scenario.after_eleven)
    /\ length (status_jobs (JOBS Scenario.after_eleven))
       = Nat.min (length (JOBS Scenario.after_eleven)) 10
    /\ (10 < length (JOBS Scenario.after_eleven) ->
        length (status_jobs (JOBS Scenario.after_eleven)) = 10)
    /\ status (JOBS Scenario.after_eleven)
       = Response 200
           (JDict (map (fun kv => (fst kv, json_of_job (snd kv)))
                       (skipn (length (JOBS Scenario.after_eleven) - 10)
                              (JOBS Scenario.after_eleven)))).
Proof.
  apply (status_returns_most_recent (JOBS Scenario.after_eleven)).
  apply keys_distinct_sound. vm_compute. reflexivity.
Defined.

(** The scenario of the specification: eleven jobs dispatched, the
    status route answers with the ten most recent. *)
Example status_after_eleven :
  dict_keys (status_jobs (JOBS Scenario.after_eleven))
  = [ "1700000000001"; "1700000000002"; "1700000000003"; "1700000000004";
      "1700000000005"; "1700000000006"; "1700000000007"; "1700000000008";
      "1700000000009"; "1700000000010" ].
Proof. vm_compute. reflexivity. Qed.

Lemma run_job_binary_then_library_witness :
  fst (@run_job (Lib.host true) Scenario.last_task Scenario.binary_fails
                (JOBS Scenario.after_eleven, [])) = Ok tt
  /\ forall j',
       dict_get "1700000000010"
                (fst (snd (@run_job (Lib.host true) Scenario.last_task
                                    Scenario.binary_fails
                                    (JOBS Scenario.after_eleven, []))))
       = Some j' ->
       job_status j' = "completed".
Proof.
  refine (proj2 (proj1 (@run_job_binary_then_library (Lib.host true)
                          Scenario.last_task Scenario.binary_fails
                          (JOBS Scenario.after_eleven) [] Scenario.last_job
                          "--recode-video mp4 --embed-thumbnail --embed-metadata"
                          "" "ERROR: unable to download" 1%Z
                          _ _ _ _ _) _ _)).
  - reflexivity.
  - apply keys_distinct_sound. vm_compute. reflexivity.
  - vm_compute. reflexivity.
  - reflexivity.
  - reflexivity.
  - discriminate.
  - reflexivity.
Defined.

(** The scenario of the specification: the binary fails, the library
    succeeds, the job ends ["completed"], and the cleanup block runs. *)
Example run_job_after_eleven_binary_fails :
  let r := @run_job (Lib.host true) Scenario.last_task Scenario.binary_fails
                    (JOBS Scenario.after_eleven, []) in
  snd (snd r)
  = [ EStatus "1700000000010" "running";
      EBinary "https://youtu.be/abc" "/opt/ripperfox/downloads"
              (JStr "--recode-video mp4 --embed-thumbnail --embed-metadata");
      EStatus "1700000000010" "error: ERROR: unable to download";
      ELibrary "https://youtu.be/abc" true true true;
      EStatus "1700000000010" "completed";
      ECleanup; EDel "1700000000000" ]
  /\ length (fst (snd r)) = 10
  /\ option_map job_status (dict_get "1700000000010" (fst (snd r)))
     = Some "completed".
Proof. vm_compute. repeat split. Qed.

Lemma run_job_binary_success_skips_cleanup_witness :
  fst (@run_job (Lib.host true) Scenario.last_task Scenario.binary_succeeds
                (JOBS Scenario.after_eleven, [])) = Ok tt
  /\ dict_get "1700000000010"
              (fst (snd (@run_job (Lib.host true) Scenario.last_task
                                  Scenario.binary_succeeds
                                  (JOBS Scenario.after_eleven, []))))
     = Some (with_status Scenario.last_job "completed")
  /\ ~ In ECleanup
          (snd (snd (@run_job (Lib.host true) Scenario.last_task
                              Scenario.binary_succeeds
                              (JOBS Scenario.after_eleven, []))))
  /\ length (fst (snd (@run_job (Lib.host true) Scenario.last_task
                                Scenario.binary_succeeds
                                (JOBS Scenario.after_eleven, []))))
     = length (JOBS Scenario.after_eleven).
Proof.
  apply (@run_job_binary_success_skips_cleanup (Lib.host true)
           Scenario.last_task Scenario.binary_succeeds
           (JOBS Scenario.after_eleven) [] Scenario.last_job
           "--recode-video mp4 --embed-thumbnail --embed-metadata" "done" "").
  - reflexivity.
  - vm_compute. reflexivity.
  - reflexivity.
  - reflexivity.
  - intros [].
Defined.

(** C8 at the failing input: eleven jobs tracked, the binary of the last
    one exits with 0.  [run_job] ends with eleven jobs still tracked and
    no cleanup; had the binary failed, ten would be left. *)
Example run_job_after_eleven_binary_succeeds :
  let r := @run_job (Lib.host true) Scenario.last_task Scenario.binary_succeeds
                    (JOBS Scenario.after_eleven, []) in
  fst r = Ok tt
  /\ snd (snd r)
     = [ EStatus "1700000000010" "running";
         EBinary "https://youtu.be/abc" "/opt/ripperfox/downloads"
                 (JStr "--recode-video mp4 --embed-thumbnail --embed-metadata");
         EStatus "1700000000010" "completed" ]
  /\ length (fst (snd r)) = 11.
Proof. vm_compute. repeat split. Qed.

Lemma job_ids_distinct_at_distinct_instants_witness :
  t_job_id (mkTask "1700000000000" "https://youtu.be/abc" "/opt/ripperfox/downloads"
                   (JStr "--recode-video mp4 --embed-thumbnail --embed-metadata"))
  = str_of_int 1700000000000
  /\ t_job_id Scenario.last_task = str_of_int 1700000000010
  /\ t_job_id (mkTask "1700000000000" "https://youtu.be/abc"
                      "/opt/ripperfox/downloads"
                      (JStr "--recode-video mp4 --embed-thumbnail --embed-metadata"))
     <> t_job_id Scenario.last_task.
Proof.
  eapply (@job_ids_distinct_at_distinct_instants (Lib.host true)
            Scenario.SETTINGS Scenario.SETTINGS 1700000000000 1700000000010
            (JDict [("url", JStr "https://youtu.be/abc")])
            (JDict [("url", JStr "https://youtu.be/abc")])
            [] _ [] _).
  - reflexivity.
  - reflexivity.
  - discriminate.
Defined.

(** C9 as stated fails: two dispatches of different videos that read the
    same clock value get the same job ID, and the second overwrites the
    entry of the first. *)
Lemma same_millisecond_same_job_id :
  exists r1 J1 t1 r2 J2 t2,
    @download (Lib.host true) Scenario.SETTINGS 1700000000000
              (JDict [("url", JStr "https://youtu.be/first")]) []
    = Ok (r1, J1, Some t1)
    /\ @download (Lib.host true) Scenario.SETTINGS 1700000000000
                 (JDict [("url", JStr "https://youtu.be/second")]) J1
       = Ok (r2, J2, Some t2)
    /\ t_url t1 <> t_url t2
    /\ t_job_id t1 = t_job_id t2
    /\ length J2 = 1
    /\ option_map job_url (dict_get (t_job_id t1) J2) = Some "https://youtu.be/second".
Proof.
  do 6 eexists.
  split; [vm_compute; reflexivity|].
  split; [vm_compute; reflexivity|].
  split; [discriminate|].
  repeat split.
Qed.

Lemma update_status_lifecycle_witness :
  u_status (UPDATE_JOB
              (@update_run (Lib.host true)
                 [Trigger; ThreadBegins 0 100] updater_initial)) = "running"
  /\ u_status (UPDATE_JOB
                 (@update_run (Lib.host true)
                    [Poll; Trigger]
                    (@update_run (Lib.host true)
                       [Trigger; ThreadBegins 0 100] updater_initial))) <> "idle".
Proof.
  destruct (@update_status_lifecycle (Lib.host true))
    as [_ [_ [_ [_ [_ [Hnever Hrun]]]]]].
  split.
  - exact (proj1 (proj2 (Hrun eq_refl
                           (mkUpdateOutcome true (Ok (Some "/opt/ripperfox/yt-dlp",
                                                      Some "2025.01.15")))
                           100%Z 200%Z))).
  - apply Hnever. vm_compute. discriminate.
Defined.

(** C6 as stated fails: right after the trigger, answered with
    ["started"], the status is still ["idle"], not ["running"]; and where
    the updater is missing the trigger is refused and the status stays
    ["idle"]. *)
Lemma trigger_leaves_status_idle :
  fst (@update_yt_dlp_api (Lib.host true) updater_initial)
  = Response 200 (JDict [("status", JStr "started")])
  /\ u_status (update_status
                 (snd (@update_yt_dlp_api (Lib.host true) updater_initial)))
     = "idle"
  /\ u_status (update_status
                 (snd (@update_yt_dlp_api (Lib.host true) updater_initial)))
     <> "running"
  /\ fst (@update_yt_dlp_api (Lib.host false) updater_initial)
     = Response 503 (JDict [("error", JStr "ytdlp_updater not available")])
  /\ u_status (update_status
                 (snd (@update_yt_dlp_api (Lib.host false) updater_initial)))
     = "idle".
Proof.
  repeat split. vm_compute. discriminate.
Qed.

(* ===================================================================== *)
(** ** More on dictionaries and paths                                     *)
(* ===================================================================== *)

Section DictLookup.
Context {V : Type}.
Implicit Types (d e : list (string * V)) (k : string) (v : V).

Lemma dict_get_set_other d k k' v :
  k <> k' -> dict_get k (dict_set k' v d) = dict_get k d.
Proof.
  intros Hne. induction d as [|[k0 v0] d IH]; simpl.
  - destruct (String.eqb_spec k' k) as [Heq|_]; [congruence | reflexivity].
  - destruct (String.eqb_spec k0 k') as [->|Hk0]; simpl.
    + destruct (String.eqb_spec k' k) as [Heq|_]; [congruence | reflexivity].
    + destruct (k0 =? k); [reflexivity | exact IH].
Qed.

Lemma dict_set_same d k v : dict_get k d = Some v -> dict_set k v d = d.
Proof.
  induction d as [|[k0 v0] d IH]; simpl; intros Hg; [discriminate|].
  destruct (k0 =? k).
  - injection Hg as ->. reflexivity.
  - rewrite (IH Hg). reflexivity.
Qed.

Lemma dict_get_del_other d d' k k' :
  k <> k' -> dict_del k' d = Some d' -> dict_get k d' = dict_get k d.
Proof.
  intros Hne. revert d'.
  induction d as [|[k0 v0] d IH]; simpl; intros d' Hd; [discriminate|].
  destruct (String.eqb_spec k0 k') as [->|Hk0].
  - injection Hd as <-.
    destruct (String.eqb_spec k' k) as [Heq|_]; [congruence | reflexivity].
  - destruct (dict_del k' d) as [r|]; [|discriminate].
    injection Hd as <-. simpl.
    destruct (k0 =? k); [reflexivity | apply IH; reflexivity].
Qed.

Lemma dict_get_update_absent d e k :
  dict_get k e = None -> dict_get k (dict_update d e) = dict_get k d.
Proof.
  unfold dict_update. revert d.
  induction e as [|[k0 v0] e IH]; intros d He; simpl; [reflexivity|].
  simpl in He. destruct (String.eqb_spec k0 k) as [->|Hne]; [discriminate|].
  rewrite (IH _ He). apply dict_get_set_other. congruence.
Qed.

Lemma dict_get_update_present d e k v :
  dict_wf e -> dict_get k e = Some v -> dict_get k (dict_update d e) = Some v.
Proof.
  unfold dict_update, dict_wf, dict_keys. revert d.
  induction e as [|[k0 v0] e IH]; intros d Hwf He; simpl; [discriminate|].
  simpl in He, Hwf. inversion Hwf as [|x l Hnotin Hwf']; subst.
  destruct (String.eqb_spec k0 k) as [->|Hne].
  - injection He as ->.
    assert (Habs : dict_get k e = None)
      by (apply dict_get_none_not_in; exact Hnotin).
    pose proof (dict_get_update_absent (dict_set k v d) e k Habs) as Hu.
    unfold dict_update in Hu. rewrite Hu. apply dict_get_set_same.
  - apply IH; assumption.
Qed.

End DictLookup.

Section PathFacts.

Lemma rel_head_not_abs (c : string) : rel_head c -> Path.isabs c = false.
Proof.
  intros [d [r [-> Hd]]]. unfold Path.isabs, Path.startswith.
  cbn [String.prefix]. destruct (ascii_dec "/" d) as [Heq|_]; [|reflexivity].
  exfalso. apply Hd. symmetry. exact Heq.
Qed.

Lemma not_abs_app (c x : string) : rel_head c -> rel_head (c ++ x).
Proof.
  intros [d [r [-> Hd]]]. exists d, (r ++ x)%string. split; [reflexivity | exact Hd].
Qed.

Lemma join_rel (c x : string) :
  rel_head c -> Path.isabs x = false -> rel_head (Path.join c x).
Proof.
  intros Hc Hx. unfold Path.join. unfold Path.isabs in Hx. rewrite Hx.
  destruct ((c =? "") || Path.endswith_char "/" c); apply not_abs_app; exact Hc.
Qed.

Lemma fold_join_rel (cs : list string) :
  forall c,
    rel_head c ->
    (forall x, In x cs -> Path.isabs x = false) ->
    rel_head (fold_left Path.join cs c).
Proof.
  induction cs as [|x cs IH]; intros c Hc Hcs; simpl; [exact Hc|].
  apply IH.
  - apply join_rel; [exact Hc | apply Hcs; left; reflexivity].
  - intros y Hy. apply Hcs. right. exact Hy.
Qed.

Lemma split_slash_heads (s c : string) :
  In c (split "/" s) -> c = "" \/ rel_head c.
Proof.
  revert c. induction s as [|ch s IH]; intros c Hin; simpl in Hin.
  - destruct Hin as [<-|[]]. left. reflexivity.
  - destruct (Ascii.eqb_spec ch "/") as [->|Hne].
    + destruct Hin as [<-|Hin]; [left; reflexivity | apply IH; exact Hin].
    + destruct (split "/" s) as [|h t] eqn:Hs.
      * destruct Hin as [<-|[]]. right. exists ch, "". split; trivial.
      * destruct Hin as [<-|Hin].
        -- right. exists ch, h. split; trivial.
        -- apply IH. right. exact Hin.
Qed.

Lemma components_rel (s c : string) :
  In c (filter nonempty (split "/" s)) -> rel_head c.
Proof.
  intros Hin. apply filter_In in Hin. destruct Hin as [Hin Hne].
  destruct (split_slash_heads s c Hin) as [->|Hr]; [discriminate Hne | exact Hr].
Qed.

(** [os.path.relpath] never gives an absolute path. *)
Lemma relpath_not_abs (cwd p start : string) :
  Path.isabs (Path.relpath cwd p start) = false.
Proof.
  unfold Path.relpath.
  set (start_list := filter nonempty (split "/" (Path.abspath cwd start))).
  set (path_list := filter nonempty (split "/" (Path.abspath cwd p))).
  set (i := length (Path.common_prefix start_list path_list)).
  assert (Hall : forall x,
             In x (repeat ".." (length start_list - i) ++ skipn i path_list) ->
             rel_head x).
  { intros x Hx. apply in_app_or in Hx. destruct Hx as [Hx|Hx].
    - apply repeat_spec in Hx. subst x. exists "."%char, ".".
      split; [reflexivity | discriminate].
    - apply (components_rel (Path.abspath cwd p)).
      change (In x path_list).
      rewrite <- (firstn_skipn i path_list). apply in_or_app. right. exact Hx. }
  destruct (repeat ".." (length start_list - i) ++ skipn i path_list)
    as [|c cs]; [reflexivity|].
  apply rel_head_not_abs. apply fold_join_rel.
  - apply Hall. left. reflexivity.
  - intros x Hx. apply rel_head_not_abs. apply Hall. right. exact Hx.
Qed.

End PathFacts.

(* ===================================================================== *)
(** ** Settings store: what is written and what is read back              *)
(* ===================================================================== *)

Section SettingsStore.
Context `{Host}.

Lemma relativized_some (v : option json) (rel : string) :
  relativized v = Some rel -> Path.isabs rel = false.
Proof.
  unfold relativized.
  destruct v as [[| | |p| |]|]; try discriminate.
  destruct (Path.isabs p && under_base p); [|discriminate].
  intros Heq. injection Heq as <-. apply relpath_not_abs.
Qed.

Lemma relativized_rewritten (v : option json) (rel : string) :
  relativized v = Some rel -> relativized (Some (JStr rel)) = None.
Proof.
  intros Hv. apply relativized_relative. exact (relativized_some v rel Hv).
Qed.

Lemma relativized_none_str (p : string) :
  relativized (Some (JStr p)) = None -> Path.isabs p && under_base p = false.
Proof.
  unfold relativized. destruct (Path.isabs p && under_base p);
    [discriminate | reflexivity].
Qed.

(** The loop over [download_dirs] changes nothing the second time. *)
Lemma normalize_dirs_again (items : list (string * json)) :
  forall items' c,
    normalize_dirs items = (items', c, None) ->
    normalize_dirs items' = (items', false, None).
Proof.
  induction items as [|[k cfg] rest IH]; intros items' c Hn; simpl in Hn.
  - injection Hn as <- _. reflexivity.
  - destruct cfg as [| | | | |d]; simpl in Hn; try discriminate.
    destruct (relativized (dict_get "dir" d)) as [rel|] eqn:Hr.
    + destruct (normalize_dirs rest) as [[rest' c'] err] eqn:Hrest.
      injection Hn as <- _ ->. simpl.
      rewrite dict_get_set_same, (relativized_rewritten _ rel Hr).
      rewrite (IH rest' c' eq_refl). reflexivity.
    + destruct (normalize_dirs rest) as [[rest' c'] err] eqn:Hrest.
      injection Hn as <- _ ->. simpl.
      rewrite Hr. rewrite (IH rest' c' eq_refl). reflexivity.
Qed.

Lemma normalize_dirs_clean (items : list (string * json)) :
  normalize_dirs items = (items, false, None) ->
  forall k cfg,
    In (k, cfg) items ->
    exists d, cfg = JDict d /\ relativized (dict_get "dir" d) = None.
Proof.
  induction items as [|[k0 cfg0] rest IH]; intros Hn k cfg Hin; [contradiction|].
  simpl in Hn.
  destruct cfg0 as [| | | | |d]; simpl in Hn; try discriminate.
  destruct (relativized (dict_get "dir" d)) as [rel|] eqn:Hr.
  - destruct (normalize_dirs rest) as [[rest' c'] err]. simpl in Hn. discriminate.
  - destruct (normalize_dirs rest) as [[rest' c'] err] eqn:Hrest.
    simpl in Hn. injection Hn as Hrest' -> ->. subst rest'.
    destruct Hin as [Heq|Hin].
    + injection Heq as <- <-. exists d. split; [reflexivity | exact Hr].
    + apply (IH eq_refl k cfg Hin).
Qed.

(** What a successful [save_settings] leaves in the file. *)
Lemma save_settings_written (data data' saved : list (string * json)) :
  save_settings data Missing = (data', Holds (JDict saved)) ->
  exists to_save dirs,
    saved = dict_set "download_dirs" (JDict dirs) to_save
    /\ relativized (dict_get "default_dir" to_save) = None
    /\ normalize_dirs dirs = (dirs, false, None).
Proof.
  unfold save_settings.
  set (to_save := match relativized (dict_get "default_dir" data) with
                  | Some rel => dict_set "default_dir" (JStr rel) data
                  | None => data
                  end).
  assert (Hdd : relativized (dict_get "default_dir" to_save) = None).
  { unfold to_save.
    destruct (relativized (dict_get "default_dir" data)) as [rel|] eqn:Hr;
      [|exact Hr].
    rewrite dict_get_set_same. exact (relativized_rewritten _ rel Hr). }
  destruct (dict_get "download_dirs" to_save) as [[| | | | |dds]|];
    try discriminate.
  - destruct (normalize_dirs dds) as [[dds' c] [e|]] eqn:Hn; [discriminate|].
    intros Heq. injection Heq as _ <-.
    exists to_save, dds'. split; [reflexivity|]. split; [exact Hdd|].
    exact (normalize_dirs_again dds dds' c Hn).
  - intros Heq. injection Heq as _ <-.
    exists to_save, []. split; [reflexivity|]. split; [exact Hdd | reflexivity].
Qed.



(** X5.  No path that [save_settings] writes is an absolute path under
    [BASE_DIR]: neither [default_dir] nor the [dir] of a site. *)
Theorem save_settings_stores_portable_paths
        (data data' saved : list (string * json)) :
  save_settings data Missing = (data', Holds (JDict saved)) ->
  (forall p, dict_get "default_dir" saved = Some (JStr p) ->
             Path.isabs p && under_base p = false)
  /\ exists dirs,
       dict_get "download_dirs" saved = Some (JDict dirs)
       /\ forall k cfg,
            In (k, cfg) dirs ->
            exists d, cfg = JDict d
                      /\ forall p, dict_get "dir" d = Some (JStr p) ->
                                   Path.isabs p && under_base p = false.
Proof.
  intros Hs.
  destruct (save_settings_written data data' saved Hs)
    as [to_save [dirs [-> [Hdd Hn]]]].
  split.
  - intros p Hp.
    rewrite (dict_get_set_other to_save "default_dir" "download_dirs") in Hp
      by discriminate.
    rewrite Hp in Hdd. exact (relativized_none_str p Hdd).
  - exists dirs. split; [apply dict_get_set_same|].
    intros k cfg Hin.
    destruct (normalize_dirs_clean dirs Hn k cfg Hin) as [d [-> Hd]].
    exists d. split; [reflexivity|].
    intros p Hp. rewrite Hp in Hd. exact (relativized_none_str p Hd).
Qed.

(** X6.  [load_settings] does not rewrite a file that [save_settings] wrote:
    when it returns, the file is as it was. *)
Theorem load_settings_keeps_saved_file
        (data data' saved : list (string * json)) :
  save_settings data Missing = (data', Holds (JDict saved)) ->
  match load_settings (Holds (JDict saved)) with
  | Ok (_, f') => f' = Holds (JDict saved)
  | Raise _ => True
  end.
Proof.
  intros Hs.
  destruct (save_settings_written data data' saved Hs)
    as [to_save [dirs [-> [Hdd Hn]]]].
  set (saved := dict_set "download_dirs" (JDict dirs) to_save).
  unfold load_settings, load_parsed.
  set (data0 := if dict_has "yt_dlp_path" saved
                then match dict_del "yt_dlp_path" saved with
                     | Some d => d
                     | None => saved
                     end
                else saved).
  assert (Hsame : forall k, k <> "yt_dlp_path" -> dict_get k data0 = dict_get k saved).
  { intros k Hk. unfold data0.
    destruct (dict_has "yt_dlp_path" saved); [|reflexivity].
    destruct (dict_del "yt_dlp_path" saved) as [d|] eqn:Hd; [|reflexivity].
    exact (dict_get_del_other saved d k "yt_dlp_path" Hk Hd). }
  rewrite (Hsame "default_dir") by discriminate.
  unfold saved at 1.
  rewrite (dict_get_set_other to_save "default_dir" "download_dirs")
    by discriminate.
  rewrite Hdd.
  rewrite (Hsame "download_dirs") by discriminate.
  unfold saved at 1. rewrite dict_get_set_same, Hn.
  cbn [orb].
  destruct (runtime_of _) as [runtime|e]; simpl; [reflexivity | exact I].
Qed.





End SettingsStore.

Section SettingsEdges.
Context `{Host}.

(** X3.  A stored [default_dir] that is not a string is fatal: the exception
    is raised by [os.path.isabs] after the [try] block, so
    [load_settings] raises instead of falling back to the defaults. *)
Theorem load_settings_raises_on_non_string_default_dir
        (d : list (string * json)) (v : json) :
  dict_wf d ->
  dict_get "default_dir" d = Some v ->
  (forall s, v <> JStr s) ->
  dict_get "download_dirs" d = None ->
  exists e, load_settings (Holds (JDict d)) = Raise e.
Proof.
  intros Hwf Hv Hnot Hdirs.
  unfold load_settings, load_parsed.
  set (data0 := if dict_has "yt_dlp_path" d
                then match dict_del "yt_dlp_path" d with
                     | Some d0 => d0
                     | None => d
                     end
                else d).
  assert (Hsame : forall k, k <> "yt_dlp_path" -> dict_get k data0 = dict_get k d).
  { intros k Hk. unfold data0.
    destruct (dict_has "yt_dlp_path" d); [|reflexivity].
    destruct (dict_del "yt_dlp_path" d) as [d0|] eqn:Hd; [|reflexivity].
    exact (dict_get_del_other d d0 k "yt_dlp_path" Hk Hd). }
  assert (Hwf0 : dict_wf data0).
  { unfold data0.
    destruct (dict_has "yt_dlp_path" d); [|exact Hwf].
    destruct (dict_del "yt_dlp_path" d) as [d0|] eqn:Hd; [|exact Hwf].
    exact (dict_del_wf d "yt_dlp_path" d0 Hwf Hd). }
  rewrite (Hsame "default_dir") by discriminate. rewrite Hv.
  assert (Hrel : relativized (Some v) = None).
  { destruct v as [| | |s| |]; try reflexivity.
    exfalso. apply (Hnot s). reflexivity. }
  rewrite Hrel. rewrite (Hsame "download_dirs") by discriminate.
  rewrite Hdirs. cbv iota.
  set (base := dict_update base_defaults
                 (dict_set "download_dirs" (JDict []) data0)).
  assert (Hbase : dict_get "default_dir" base = Some v).
  { unfold base. apply dict_get_update_present.
    - apply dict_set_wf. exact Hwf0.
    - rewrite (dict_get_set_other data0 "default_dir" "download_dirs")
        by discriminate.
      rewrite (Hsame "default_dir") by discriminate. exact Hv. }
  unfold runtime_of. rewrite Hbase.
  destruct v as [| | |s| |]; try (eexists; reflexivity).
  exfalso. apply (Hnot s). reflexivity.
Qed.

Lemma save_settings_keeps_other_keys (data : list (string * json)) (f : file)
      (k : string) :
  k <> "download_dirs" ->
  dict_get k (fst (save_settings data f)) = dict_get k data.
Proof.
  intros Hk. unfold save_settings.
  destruct (dict_get "download_dirs" _) as [[| | | | |dds]|]; try reflexivity.
  destruct (normalize_dirs dds) as [[dds' c] [e|]]; simpl;
    apply dict_get_set_other; exact Hk.
Qed.

(** X7.  [POST /api/settings] writes the four known keys and nothing else:
    [default_dir], [default_args] and [show_toasts] take the value of the
    request body when it has the key and keep their value otherwise, and
    every other key of [SETTINGS] keeps its value whatever the body
    holds.  The answer is the settings as they are afterwards. *)
Theorem settings_post_writes_known_keys
        (nd SETTINGS SETTINGS' : list (string * json)) (f f' : file)
        (r : response) :
  settings POST (JDict nd) SETTINGS f = Ok (r, SETTINGS', f') ->
  r = Response 200 (JDict SETTINGS')
  /\ dict_get "default_dir" SETTINGS'
     = match dict_get "default_dir" nd with
       | Some v => Some v
       | None => dict_get "default_dir" SETTINGS
       end
  /\ dict_get "default_args" SETTINGS'
     = match dict_get "default_args" nd with
       | Some v => Some v
       | None => dict_get "default_args" SETTINGS
       end
  /\ dict_get "show_toasts" SETTINGS'
     = Some (get_default "show_toasts" nd
               (get_default "show_toasts" SETTINGS (JBool true)))
  /\ forall k,
       k <> "default_dir" -> k <> "default_args" ->
       k <> "download_dirs" -> k <> "show_toasts" ->
       dict_get k SETTINGS' = dict_get k SETTINGS.
Proof.
  unfold settings.
  destruct (dict_get "default_dir" SETTINGS) as [dir0|] eqn:Hdir; [|discriminate].
  destruct (dict_get "default_args" SETTINGS) as [args0|] eqn:Hargs; [|discriminate].
  set (updated := dict_update SETTINGS _).
  destruct (save_settings updated f) as [S2 f2] eqn:Hsave.
  intros Heq. injection Heq as <- <- <-.
  assert (HS2 : forall k, k <> "download_dirs" ->
                          dict_get k S2 = dict_get k updated).
  { intros k Hk.
    pose proof (save_settings_keeps_other_keys updated f k Hk) as Hkeep.
    rewrite Hsave in Hkeep. exact Hkeep. }
  split; [reflexivity|].
  unfold updated, dict_update in HS2. cbn [fold_left fst snd] in HS2.
  split; [|split; [|split]].
  - rewrite HS2 by discriminate.
    rewrite !dict_get_set_other by discriminate.
    rewrite dict_get_set_same. unfold get_default.
    destruct (dict_get "default_dir" nd); reflexivity.
  - rewrite HS2 by discriminate.
    rewrite !dict_get_set_other by discriminate.
    rewrite dict_get_set_same. unfold get_default.
    destruct (dict_get "default_args" nd); reflexivity.
  - rewrite HS2 by discriminate. apply dict_get_set_same.
  - intros k H1 H2 H3 H4. rewrite HS2 by exact H3.
    rewrite !dict_get_set_other by congruence. reflexivity.
Qed.

End SettingsEdges.

(* ===================================================================== *)
(** ** Site matcher: more                                                 *)
(* ===================================================================== *)

Section SiteMatcherMore.
Context `{Host}.

Lemma lstrip_head (f : ascii -> bool) (s : string) :
  lstrip f s = "" \/ exists c r, lstrip f s = String c r /\ f c = false.
Proof.
  induction s as [|c s IH]; simpl; [left; reflexivity|].
  destruct (f c) eqn:Hc; [exact IH|].
  right. exists c, s. split; trivial.
Qed.

Lemma rstrip_head (f : ascii -> bool) (c : ascii) (r : string) :
  f c = false -> exists r', rstrip f (String c r) = String c r'.
Proof.
  intros Hc. simpl. destruct (rstrip f r) as [|c' r'].
  - rewrite Hc. exists "". reflexivity.
  - exists (String c' r'). reflexivity.
Qed.

Lemma rstrip_rstrip (f : ascii -> bool) (s : string) :
  rstrip f (rstrip f s) = rstrip f s.
Proof.
  induction s as [|c s IH]; simpl; [reflexivity|].
  destruct (rstrip f s) as [|c' r'] eqn:Hr.
  - destruct (f c) eqn:Hc; simpl; [reflexivity|]. rewrite Hc. reflexivity.
  - cbn [rstrip]. cbn [rstrip] in IH. rewrite IH. reflexivity.
Qed.

Lemma lstrip_strip (f : ascii -> bool) (s : string) :
  lstrip f (strip f s) = strip f s.
Proof.
  unfold strip.
  destruct (lstrip_head f s) as [->|[c [r [-> Hc]]]]; [reflexivity|].
  destruct (rstrip_head f c r Hc) as [r' ->]. simpl. rewrite Hc. reflexivity.
Qed.

(** X8.  The patterns of a group are never empty and carry no blank at
    either end, whatever blanks and empty fields the key has between its
    commas. *)
Theorem patterns_of_trimmed (pattern_group p : string) :
  In p (patterns_of pattern_group) ->
  p <> ""
  /\ lstrip isspace p = p
  /\ rstrip isspace p = p.
Proof.
  unfold patterns_of. intros Hin.
  apply in_map_iff in Hin. destruct Hin as [q [<- Hq]].
  apply filter_In in Hq. destruct Hq as [_ Hne].
  split; [|split].
  - intros Heq. rewrite Heq in Hne. discriminate Hne.
  - apply lstrip_strip.
  - unfold strip. apply rstrip_rstrip.
Qed.

Lemma first_qualifying_app (hostname : string) (dd more : list (string * json)) :
  first_qualifying_nonempty hostname (dd ++ more)
  = match first_qualifying_nonempty hostname dd with
    | Some cfg => Some cfg
    | None => first_qualifying_nonempty hostname more
    end.
Proof.
  unfold first_qualifying_nonempty.
  induction dd as [|[g cfg] dd IH]; simpl; [reflexivity|].
  destruct (group_qualifies hostname g && truthy cfg); [reflexivity | exact IH].
Qed.

(** X9.  What [get_site_config] returns is never invented and never empty:
    it is the truthy configuration of a group of [download_dirs] that
    qualifies for the hostname. *)
Theorem get_site_config_returns_listed_config
        (url : string) (ph : option string) (dd : list (string * json))
        (cfg : json) :
  urlparse_hostname url = Ok ph ->
  get_site_config url dd = Ok (Some cfg) ->
  truthy cfg = true
  /\ exists g, In (g, cfg) dd
               /\ group_qualifies (hostname_or "" ph) g = true.
Proof.
  intros Hp Hg. rewrite (get_site_config_spec url ph dd Hp) in Hg.
  injection Hg as Hg. unfold first_qualifying_nonempty in Hg.
  destruct (find _ dd) as [[g c]|] eqn:Hf; [|discriminate].
  simpl in Hg. injection Hg as ->.
  apply find_some in Hf. destruct Hf as [Hin Hq]. simpl in Hq.
  apply andb_prop in Hq. destruct Hq as [Hq Ht].
  split; [exact Ht|]. exists g. split; assumption.
Qed.

(** X10.  Rules keep their priority: groups added after the existing ones
    never change the configuration a URL already gets, and are the only
    ones consulted for a URL that got none. *)
Theorem get_site_config_appended_rules
        (url : string) (ph : option string) (dd more : list (string * json)) :
  urlparse_hostname url = Ok ph ->
  (forall cfg, get_site_config url dd = Ok (Some cfg) ->
               get_site_config url (dd ++ more) = Ok (Some cfg))
  /\ (get_site_config url dd = Ok None ->
      get_site_config url (dd ++ more) = get_site_config url more).
Proof.
  intros Hp.
  rewrite !(get_site_config_spec url ph _ Hp), first_qualifying_app.
  split.
  - intros cfg Hg. injection Hg as ->. reflexivity.
  - intros Hg. injection Hg as ->. reflexivity.
Qed.

End SiteMatcherMore.

(* ===================================================================== *)
(** ** Dispatcher: more                                                   *)
(* ===================================================================== *)

Section DispatcherMore.
Context `{Host}.



(** X12.  A site configuration without a [dir] string makes the dispatch fail:
    [os.makedirs] raises on the missing value, the exception leaves the
    handler and no job is recorded. *)
Theorem download_raises_without_site_dir
        (SETTINGS : list (string * json)) (now_ms : Z)
        (d dds cfg : list (string * json)) (J : jobs)
        (url : string) (ph : option string) :
  dict_get "url" d = Some (JStr url) ->
  url <> "" ->
  urlparse_hostname url = Ok ph ->
  dict_get "download_dirs" SETTINGS = Some (JDict dds) ->
  get_site_config url dds = Ok (Some (JDict cfg)) ->
  (forall s, dict_get "dir" cfg <> Some (JStr s)) ->
  exists e, download SETTINGS now_ms (JDict d) J = Raise e.
Proof.
  intros Hu Hne Hp Hdds Hg Hdir.
  unfold download. rewrite Hu. simpl.
  destruct url as [|c url]; [congruence|]. simpl.
  rewrite Hp, Hdds. simpl. rewrite Hg. simpl.
  destruct (dict_get "dir" cfg) as [v|] eqn:Hv; simpl.
  - destruct v as [| | |s| |]; try (eexists; reflexivity).
    exfalso. apply (Hdir s). reflexivity.
  - eexists. reflexivity.
Qed.

Lemma skipn_app_le {A} (n : nat) (l1 l2 : list A) :
  n <= length l1 -> skipn n (l1 ++ l2) = skipn n l1 ++ l2.
Proof.
  intros Hle. rewrite skipn_app.
  replace (n - length l1) with 0 by lia. reflexivity.
Qed.

(** X13.  A dispatch whose job ID is new puts the job at the end of the store
    with status ["starting"], and the status route lists it last. *)
Theorem download_appends_fresh_job
        (SETTINGS : list (string * json)) (now_ms : Z) (data : json)
        (J J' : jobs) (r : response) (t : task) :
  dict_wf J ->
  dict_get (str_of_int now_ms) J = None ->
  download SETTINGS now_ms data J = Ok (r, J', Some t) ->
  exists site shown,
    J' = J ++ [(t_job_id t, mkJob (t_url t) site "starting" (t_download_dir t))]
    /\ status_jobs J'
       = shown ++ [(t_job_id t, mkJob (t_url t) site "starting" (t_download_dir t))]
    /\ length shown = Nat.min (length J) 9.
Proof.
  intros Hwf Hfresh Hd.
  destruct (download_started _ _ _ _ _ _ _ Hd) as [Hid [_ [site HJ]]].
  rewrite (dict_set_fresh J _ _ Hfresh) in HJ. rewrite <- Hid in HJ.
  exists site, (skipn (length J' - 10) J).
  split; [exact HJ|].
  assert (Hwf' : dict_wf J').
  { destruct (download_store _ _ _ _ _ _ _ Hd) as [-> | [j ->]];
      [exact Hwf | apply dict_set_wf; exact Hwf]. }
  rewrite (status_jobs_spec J' Hwf').
  assert (Hlen : length J' = S (length J)).
  { rewrite HJ, length_app. simpl. lia. }
  split.
  - rewrite HJ at 2. apply skipn_app_le. lia.
  - rewrite length_skipn, Hlen. lia.
Qed.

End DispatcherMore.

(* ===================================================================== *)
(** ** The background task: more                                          *)
(* ===================================================================== *)

Section RunJobMore.
Context `{Host}.

Lemma dict_get_skipn {V} (n : nat) (d : list (string * V)) (k : string) (v : V) :
  dict_wf d -> dict_get k (skipn n d) = Some v -> dict_get k d = Some v.
Proof.
  intros Hwf Hg. apply (dict_in_get d k v Hwf).
  rewrite <- (firstn_skipn n d). apply in_or_app. right.
  apply dict_get_in. exact Hg.
Qed.

(** However [run_job] goes for a tracked job, it ends normally, the last
    status it writes is terminal, and it leaves either through the
    [return] of the binary path or through the cleanup block. *)
Lemma run_job_ends (t : task) (o : outcome) (J : jobs) (tr : list event)
      (j : job) :
  dict_get (t_job_id t) J = Some j ->
  exists s tr0,
    (run_job t o (J, tr)
     = (Ok tt, (dict_set (t_job_id t) (with_status j s) J,
                tr0 ++ [EStatus (t_job_id t) s]))
     \/ run_job t o (J, tr)
        = cleanup (dict_set (t_job_id t) (with_status j s) J,
                   tr0 ++ [EStatus (t_job_id t) s]))
    /\ (s = "completed" \/ exists m, s = ("error: " ++ m)%string).
Proof.
  intros Hj.
  unfold run_job, binary_attempt, bind, try_except, lift, emit, ret.
  rewrite (set_status_ok _ _ _ _ j Hj). cbn [fst snd].
  destruct (t_custom_args t) as [| | |args|l|d]; cbn [arg_in fst snd];
    try (rewrite set_status_again; do 2 eexists;
         split; [right; reflexivity | right; eexists; reflexivity]);
    (destruct YTDLP_UPDATER_AVAILABLE; cbn [fst snd];
     [ destruct (binary o) as [[[rc out] err]|be]; cbn [fst snd];
       [ destruct (rc =? 0)%Z; rewrite set_status_again; cbn [fst snd];
         [ do 2 eexists; split; [left; reflexivity | left; reflexivity] | ]
       | ]
     | ]);
    (destruct (library o) as [[]|le]; cbn [fst snd];
     rewrite set_status_again; do 2 eexists;
     (split; [right; reflexivity|]);
     first [left; reflexivity | right; eexists; reflexivity]).
Qed.

(** The undisturbed run.  A thread whose job is tracked when it runs never raises and never
    leaves the job ["starting"] or ["running"]: the last status it writes
    is ["completed"] or starts with ["error: "], and if the job is still
    tracked afterwards it carries that status and its other fields
    unchanged. *)
Lemma run_job_ends_in_terminal_status
        (t : task) (o : outcome) (J : jobs) (tr : list event) (j : job) :
  dict_wf J ->
  dict_get (t_job_id t) J = Some j ->
  fst (run_job t o (J, tr)) = Ok tt
  /\ exists s,
       (s = "completed" \/ exists m, s = ("error: " ++ m)%string)
       /\ In (EStatus (t_job_id t) s) (snd (snd (run_job t o (J, tr))))
       /\ forall j',
            dict_get (t_job_id t) (fst (snd (run_job t o (J, tr)))) = Some j' ->
            j' = with_status j s.
Proof.
  intros Hwf Hj.
  destruct (run_job_ends t o J tr j Hj) as [s [tr0 [[-> | ->] Hs]]].
  - cbn [fst snd]. split; [reflexivity|]. exists s. split; [exact Hs|]. split.
    + apply in_or_app. right. left. reflexivity.
    + intros j' Hj'. rewrite dict_get_set_same in Hj'. congruence.
  - rewrite cleanup_spec. cbn [fst snd].
    split; [reflexivity|]. exists s. split; [exact Hs|]. split.
    + apply in_or_app. left. apply in_or_app. right. left. reflexivity.
    + intros j' Hj'.
      apply dict_get_skipn in Hj'; [|apply dict_set_wf; exact Hwf].
      rewrite dict_get_set_same in Hj'. congruence.
Qed.

(** X15.  [run_job] never adds an entry, never reorders the store and never
    changes the entry of another job: what is left is a suffix of the
    store (only oldest entries go), and every other job still tracked is
    exactly as it was. *)
Theorem run_job_preserves_other_jobs
        (t : task) (o : outcome) (J : jobs) (tr : list event) (j : job) :
  dict_wf J ->
  dict_get (t_job_id t) J = Some j ->
  (exists old, dict_keys J = old ++ dict_keys (fst (snd (run_job t o (J, tr)))))
  /\ forall k v,
       k <> t_job_id t ->
       dict_get k (fst (snd (run_job t o (J, tr)))) = Some v ->
       dict_get k J = Some v.
Proof.
  intros Hwf Hj.
  destruct (run_job_ends t o J tr j Hj) as [s [tr0 [[-> | ->] _]]].
  - cbn [fst snd]. split.
    + exists []. rewrite (dict_set_keys_present J _ _ j Hj). reflexivity.
    + intros k v Hk Hg. rewrite dict_get_set_other in Hg by exact Hk. exact Hg.
  - rewrite cleanup_spec. cbn [fst snd].
    set (J2 := dict_set (t_job_id t) (with_status j s) J).
    split.
    + exists (dict_keys (firstn (length J2 - 10) J2)).
      rewrite <- (dict_set_keys_present J (t_job_id t) (with_status j s) j Hj).
      fold J2. unfold dict_keys. rewrite <- map_app, firstn_skipn. reflexivity.
    + intros k v Hk Hg.
      apply dict_get_skipn in Hg; [|apply dict_set_wf; exact Hwf].
      unfold J2 in Hg. rewrite dict_get_set_other in Hg by exact Hk. exact Hg.
Qed.

(** X16.  A thread whose job is no longer tracked (the history was cleared, or
    the job was evicted, before the thread ran) stops at its first
    statement with [KeyError]: nothing is downloaded and the store is not
    touched. *)
Theorem run_job_untracked_raises
        (t : task) (o : outcome) (J : jobs) (tr : list event) :
  (dict_get (t_job_id t) J = None ->
   run_job t o (J, tr) = (Raise (KeyError (t_job_id t)), (J, tr)))
  /\ run_job t o (snd (clear_status J), tr)
     = (Raise (KeyError (t_job_id t)), ([], tr)).
Proof.
  split.
  - intros Hj. unfold run_job, bind, set_status. cbn [fst snd].
    rewrite Hj. reflexivity.
  - reflexivity.
Qed.

(** The undisturbed run.  When the binary is not attempted (no updater) or the attempt raises
    instead of returning an exit code, no error is recorded for it: the
    library runs next and alone decides the final status, ["completed"]
    or ["error: "] with its message; the cleanup block follows. *)
Lemma run_job_falls_back_to_library
        (t : task) (o : outcome) (J : jobs) (tr : list event) (j : job)
        (args : string) :
  dict_get (t_job_id t) J = Some j ->
  t_custom_args t = JStr args ->
  let final := match library o with
               | Ok _ => "completed"
               | Raise e => ("error: " ++ exn_msg e)%string
               end in
  let lib := ELibrary (t_url t)
                      (contains "--embed-thumbnail" args)
                      (contains "--embed-metadata" args)
                      (contains "--recode-video mp4" args) in
  (YTDLP_UPDATER_AVAILABLE = false ->
   run_job t o (J, tr)
   = cleanup (dict_set (t_job_id t) (with_status j final) J,
              tr ++ [ EStatus (t_job_id t) "running"; lib;
                      EStatus (t_job_id t) final ]))
  /\ (YTDLP_UPDATER_AVAILABLE = true ->
      forall be, binary o = Raise be ->
      run_job t o (J, tr)
      = cleanup (dict_set (t_job_id t) (with_status j final) J,
                 tr ++ [ EStatus (t_job_id t) "running";
                         EBinary (t_url t) (t_download_dir t) (JStr args);
                         lib; EStatus (t_job_id t) final ])).
Proof.
  intros Hj Hargs final lib. subst final lib. split.
  - intros Hav.
    unfold run_job, binary_attempt, bind, try_except, lift, emit, ret.
    rewrite (set_status_ok _ _ _ _ j Hj), Hargs, Hav.
    cbn [arg_in fst snd].
    destruct (library o) as [[]|e]; cbn [fst snd];
      rewrite set_status_again; rewrite <- !app_assoc; reflexivity.
  - intros Hav be Hbin.
    unfold run_job, binary_attempt, bind, try_except, lift, emit, ret.
    rewrite (set_status_ok _ _ _ _ j Hj), Hargs, Hav, Hbin.
    cbn [arg_in fst snd].
    destruct (library o) as [[]|e]; cbn [fst snd];
      rewrite set_status_again; rewrite <- !app_assoc; reflexivity.
Qed.


End RunJobMore.

(* ===================================================================== *)
(** ** Update status: more                                                *)
(* ===================================================================== *)

Section UpdateMore.
Context `{Host}.

Lemma nth_error_set_nth_in {A} (l : list A) (i : nat) (x y : A) :
  In y (set_nth i x l) -> y = x \/ In y l.
Proof.
  revert i. induction l as [|a l IH]; intros i Hin; destruct i; simpl in Hin;
    try contradiction.
  - destruct Hin as [<-|Hin]; [left; reflexivity | right; right; exact Hin].
  - destruct Hin as [<-|Hin]; [right; left; reflexivity|].
    destruct (IH i Hin) as [->|Hl]; [left; reflexivity | right; right; exact Hl].
Qed.

Lemma remove_nth_in {A} (l : list A) (i : nat) (y : A) :
  In y (remove_nth i l) -> In y l.
Proof.
  revert i. induction l as [|a l IH]; intros i Hin; destruct i; simpl in Hin;
    try contradiction.
  - right. exact Hin.
  - destruct Hin as [<-|Hin]; [left; reflexivity | right; exact (IH i Hin)].
Qed.

(** The invariant of the updater: the record is coherent, and a thread
    past its first write means the status is no longer ["idle"]. *)
Lemma update_step_invariant (e : update_event) (s : updater) :
  update_job_consistent (UPDATE_JOB s)
  /\ (In Updating (update_threads s) -> u_status (UPDATE_JOB s) <> "idle") ->
  update_job_consistent (UPDATE_JOB (update_step e s))
  /\ (In Updating (update_threads (update_step e s)) ->
      u_status (UPDATE_JOB (update_step e s)) <> "idle").
Proof.
  intros [Hc Hth]. destruct e as [|i now|i o now|]; simpl.
  - rewrite trigger_keeps_record. split; [exact Hc|].
    unfold update_yt_dlp_api. destruct YTDLP_UPDATER_AVAILABLE; simpl;
      [|exact Hth].
    intros Hin. apply in_app_or in Hin. destruct Hin as [Hin|[Hin|[]]];
      [exact (Hth Hin) | discriminate Hin].
  - destruct (nth_error (update_threads s) i) as [[|]|] eqn:Hn;
      [|split; assumption|split; assumption].
    simpl. split.
    + right. left. simpl. split; [reflexivity|]. split; [discriminate | reflexivity].
    + intros _. discriminate.
  - destruct (nth_error (update_threads s) i) as [[|]|] eqn:Hn;
      [split; assumption| |split; assumption].
    simpl.
    assert (Hnot : u_status (UPDATE_JOB s) <> "idle").
    { apply Hth. exact (nth_error_In _ _ Hn). }
    assert (Hst : u_started_at (UPDATE_JOB s) <> None).
    { destruct Hc as [[Hi _] | [[_ [Hs _]] | [_ [Hs _]]]];
        [contradiction | exact Hs | exact Hs]. }
    split.
    + right. right.
      unfold do_update_end.
      destruct (download_latest_ytdlp o);
        [destruct (ensure_ytdlp_binary o) as [[path version]|err]|]; simpl;
        (split; [first [left; reflexivity | right; reflexivity]|]);
        (split; [exact Hst | discriminate]).
    + intros _.
      destruct (do_update_end_terminal o now (UPDATE_JOB s)) as [[-> _]|[-> _]];
        discriminate.
  - split; assumption.
Qed.

(** X19.  Whatever triggers, thread steps and polls happen, in whatever order
    and however the threads overlap, the record read by
    [GET /api/update-status] is coherent: ["idle"] with neither instant
    set, ["running"] with [started_at] set and [finished_at] empty, or
    ["succeeded"]/["failed"] with both set. *)
Theorem update_status_always_consistent (es : list update_event) :
  update_job_consistent (update_status (update_run es updater_initial)).
Proof.
  unfold update_status.
  assert (Hinv : forall s,
             update_job_consistent (UPDATE_JOB s)
             /\ (In Updating (update_threads s) ->
                 u_status (UPDATE_JOB s) <> "idle") ->
             update_job_consistent (UPDATE_JOB (update_run es s))
             /\ (In Updating (update_threads (update_run es s)) ->
                 u_status (UPDATE_JOB (update_run es s)) <> "idle")).
  { unfold update_run. induction es as [|e es IH]; intros s Hs; simpl;
      [exact Hs|].
    apply IH. apply update_step_invariant. exact Hs. }
  apply Hinv. split.
  - left. repeat split.
  - intros [].
Qed.

(** X20.  [latest_version] is written by a successful end of a thread only:
    triggers, first writes, polls and failed ends keep it. *)
Theorem latest_version_changes_on_success_only
        (e : update_event) (s : updater) :
  u_latest_version (UPDATE_JOB (update_step e s))
  = u_latest_version (UPDATE_JOB s)
  \/ exists i o now path version,
       e = ThreadEnds i o now
       /\ nth_error (update_threads s) i = Some Updating
       /\ download_latest_ytdlp o = true
       /\ ensure_ytdlp_binary o = Ok (path, version)
       /\ u_status (UPDATE_JOB (update_step e s)) = "succeeded"
       /\ u_latest_version (UPDATE_JOB (update_step e s)) = version.
Proof.
  destruct e as [|i now|i o now|]; simpl.
  - left. rewrite trigger_keeps_record. reflexivity.
  - left. destruct (nth_error (update_threads s) i) as [[|]|]; reflexivity.
  - destruct (nth_error (update_threads s) i) as [[|]|] eqn:Hn;
      [left; reflexivity| |left; reflexivity].
    simpl. unfold do_update_end.
    destruct (download_latest_ytdlp o) eqn:Hd; [|left; reflexivity].
    destruct (ensure_ytdlp_binary o) as [[path version]|err] eqn:He;
      [|left; reflexivity].
    right. exists i, o, now, path, version. repeat split; assumption.
  - left. reflexivity.
Qed.

End UpdateMore.

(* ===================================================================== *)
(** ** [ytdlp_updater.py]: proofs                                         *)
(* ===================================================================== *)

Section UpdaterFacts.
Context {B : Type} `{Machine B}.

Lemma usable_some (version : option string) :
  usable version = true -> exists v, version = Some v /\ v <> "".
Proof.
  destruct version as [v|]; simpl; [|discriminate].
  intros Hv. exists v. split; [reflexivity|].
  intros ->. discriminate Hv.
Qed.

(** X21.  [ensure_ytdlp_binary] answers [(None, None)] or a path with a
    version: the path is the one of [get_ytdlp_binary_path], the version
    is not empty, and it is the version the file left at that path
    reports. *)
Theorem ensure_binary_result
        (copy_ok : bool) (dl : fetch B) (installed installed' : option B)
        (path version : option string) :
  ensure_binary copy_ok dl installed = Ok ((path, version), installed') ->
  (path = None /\ version = None)
  \/ exists p v,
       path = Some p /\ version = Some v
       /\ get_ytdlp_binary_path = Ok p
       /\ v <> ""
       /\ get_ytdlp_version installed' = Some v.
Proof.
  unfold ensure_binary.
  destruct get_ytdlp_binary_path as [p|e]; [|discriminate]. simpl.
  destruct (match installed with
            | Some _ => usable (get_ytdlp_version installed)
            | None => false
            end) eqn:Hlocal.
  - intros Heq. injection Heq as <- <- <-. right.
    assert (Hu : usable (get_ytdlp_version installed) = true)
      by (destruct installed; [exact Hlocal | discriminate]).
    destruct (usable_some _ Hu) as [v [Hv Hne]].
    exists p, v. repeat split; assumption.
  - destruct (if frozen
              then match bundled with
                   | Some b => if copy_ok then Ok (Some (chmod_755 b))
                               else Raise (PyExn "OSError" "copy2")
                   | None => Ok installed
                   end
              else Ok installed) as [installed1|e]; [|discriminate]. simpl.
    destruct (frozen && match bundled with
                        | Some _ => usable (get_ytdlp_version installed1)
                        | None => false
                        end) eqn:Hb.
    + intros Heq. injection Heq as <- <- <-. right.
      apply andb_prop in Hb. destruct Hb as [_ Hb].
      assert (Hu : usable (get_ytdlp_version installed1) = true)
        by (destruct bundled; [exact Hb | discriminate]).
      destruct (usable_some _ Hu) as [v [Hv Hne]].
      exists p, v. repeat split; assumption.
    + destruct (download_latest dl installed1) as [ok installed2].
      destruct (ok && usable (get_ytdlp_version installed2)) eqn:Hd.
      * intros Heq. injection Heq as <- <- <-. right.
        apply andb_prop in Hd. destruct Hd as [_ Hu].
        destruct (usable_some _ Hu) as [v [Hv Hne]].
        exists p, v. repeat split; assumption.
      * intros Heq. injection Heq as <- <- _. left. split; reflexivity.
Qed.

(** X22.  When the file already at the path reports a version, it is used as
    it is: nothing is copied or downloaded, whatever the bundle and the
    network hold, and the file is not touched. *)
Theorem ensure_binary_keeps_working_binary
        (copy_ok : bool) (dl : fetch B) (b : B) (p v : string) :
  get_ytdlp_binary_path = Ok p ->
  probe b = Some v ->
  v <> "" ->
  ensure_binary copy_ok dl (Some b) = Ok ((Some p, Some v), Some b).
Proof.
  intros Hp Hv Hne. unfold ensure_binary. rewrite Hp. simpl. rewrite Hv. simpl.
  destruct v as [|c v]; [congruence | reflexivity].
Qed.

(** [download_latest_ytdlp] replaces the file only when it answers
    [True]; a failed request or a failed write leaves what was there. *)
Lemma download_latest_changes_file_on_success_only
        (dl : fetch B) (installed : option B) :
  (fst (download_latest dl installed) = false ->
   snd (download_latest dl installed) = installed)
  /\ (fst (download_latest dl installed) = true ->
      exists content,
        fetched dl = Ok content
        /\ snd (download_latest dl installed) = Some (chmod_755 content)).
Proof.
  unfold download_latest.
  destruct get_ytdlp_binary_path as [p|e]; [|split; [reflexivity | discriminate]].
  destruct (fetched dl) as [content|e]; [|split; [reflexivity | discriminate]].
  destruct (writable dl); simpl; split; try reflexivity; try discriminate.
  intros _. exists content. split; reflexivity.
Qed.

Lemma lstrip_v_head (tag : string) :
  forall r, lstrip (Ascii.eqb "v") tag <> String "v" r.
Proof.
  intros r Heq.
  destruct (lstrip_head (Ascii.eqb "v") tag) as [He|[c [r' [Hl Hc]]]].
  - rewrite He in Heq. discriminate.
  - rewrite Hl in Heq. injection Heq as -> _. discriminate Hc.
Qed.

(** X23.  [check_for_ytdlp_update] reports an update only when the release
    query answered 200 with a JSON object, a current version is known,
    and the tag of the release, without its leading [v]s, is a newer
    version than the current one. *)
Theorem check_reports_update_only_when_newer
        (r : reply) (current_version latest_version : option string)
        (assets : json) :
  check_for_ytdlp_update r current_version = (true, latest_version, assets) ->
  exists release tag current,
    r = Reply 200 (Ok (JDict release))
    /\ get_default "tag_name" release (JStr "") = JStr tag
    /\ current_version = Some current
    /\ current <> ""
    /\ latest_version = Some (lstrip (Ascii.eqb "v") tag)
    /\ (forall rest, lstrip (Ascii.eqb "v") tag <> String "v" rest)
    /\ version_newer (lstrip (Ascii.eqb "v") tag) current = Ok true
    /\ assets = get_default "assets" release (JList []).
Proof.
  unfold check_for_ytdlp_update.
  destruct r as [e|code payload]; [discriminate|].
  destruct (Z.eqb_spec code 200) as [->|Hne]; simpl; [|discriminate].
  destruct payload as [[| | | | |release]|e]; try discriminate.
  destruct (get_default "tag_name" release (JStr "")) as [| | |tag| |] eqn:Htag;
    try discriminate.
  destruct (usable current_version) eqn:Hcur; simpl; [|discriminate].
  destruct (nonempty (lstrip (Ascii.eqb "v") tag)); simpl; [|discriminate].
  destruct (usable_some _ Hcur) as [current [-> Hc]].
  destruct (version_newer (lstrip (Ascii.eqb "v") tag) current) as [[|]|e] eqn:Hv;
    try discriminate.
  intros Heq. injection Heq as <- <-.
  exists release, tag, current. repeat split; try assumption.
  apply lstrip_v_head.
Qed.

(** X24.  Every failure of the release query is soft: no answer, a status
    other than 200, a body that is not JSON or not an object give
    [(False, None, [])], never an exception and never an update. *)
Theorem check_skips_on_bad_reply (r : reply) (current_version : option string) :
  (exists e, r = NoReply e)
  \/ (exists code payload, r = Reply code payload /\ code <> 200%Z)
  \/ (exists e, r = Reply 200 (Raise e))
  \/ (exists j, r = Reply 200 (Ok j) /\ forall d, j <> JDict d) ->
  check_for_ytdlp_update r current_version = (false, None, JList []).
Proof.
  intros [[e ->] | [[code [payload [-> Hne]]] | [[e ->] | [j [-> Hj]]]]];
    unfold check_for_ytdlp_update; try reflexivity.
  - destruct (Z.eqb_spec code 200) as [Heq|_]; [contradiction | reflexivity].
  - simpl. destruct j as [| | | | |d]; try reflexivity.
    exfalso. apply (Hj d). reflexivity.
Qed.

(** Without a binary ([ensure_ytdlp_binary] answers [(None, None)])
    [run_ytdlp_with_binary] raises ["Failed to get yt-dlp binary"]
    whatever the command would have answered: nothing is run. *)
Lemma run_ytdlp_with_binary_needs_binary
        (copy_ok : bool) (dl : fetch B)
        (run : list string -> result (Z * string * string))
        (url download_dir : string) (custom_args : json)
        (installed installed' : option B) (version : option string) :
  ensure_binary copy_ok dl installed = Ok ((None, version), installed') ->
  run_ytdlp_with_binary copy_ok dl run url download_dir custom_args installed
  = (Raise (PyExn "Exception" "Failed to get yt-dlp binary"), installed').
Proof.
  intros He. unfold run_ytdlp_with_binary. rewrite He. reflexivity.
Qed.

(** With a binary and a string of arguments, the command that is run is
    the binary, [-o] with the output template under the download
    directory, the arguments as [shlex.split] cuts them, and the URL as
    the last word; with no arguments nothing stands between the template
    and the URL. *)
Lemma run_ytdlp_with_binary_command
        (copy_ok : bool) (dl : fetch B)
        (run : list string -> result (Z * string * string))
        (url download_dir args : string)
        (installed installed' : option B) (p : string) (version : option string)
        (words : list string) :
  ensure_binary copy_ok dl installed = Ok ((Some p, version), installed') ->
  (args <> "" -> shlex_split args = Ok words) ->
  fst (run_ytdlp_with_binary copy_ok dl run url download_dir (JStr args) installed)
  = run ([p; "-o"; Path.join download_dir "%(title)s.%(ext)s"]
         ++ (if nonempty args then words else []) ++ [url]).
Proof.
  intros He Hw. unfold run_ytdlp_with_binary. rewrite He.
  destruct args as [|c args]; [reflexivity|].
  simpl. rewrite Hw by discriminate. reflexivity.
Qed.

(** X25.  One run of [_do_update] on a machine.  It ends ["failed"] exactly
    when the first download fails or [ensure_ytdlp_binary] raises.  When
    it ends ["succeeded"] with a version recorded, that version is not
    empty and is the one the installed file reports.  When the download
    succeeds but no file reports a version, it still ends ["succeeded"],
    with the message ["Updated to None"] and no version recorded. *)
Theorem update_thread_on_machine
        (copy_ok : bool) (dl1 dl2 : fetch B) (installed : option B)
        (now : Z) (u : update_job) :
  let o := fst (update_outcome_of copy_ok dl1 dl2 installed) in
  let installed' := snd (update_outcome_of copy_ok dl1 dl2 installed) in
  let u' := do_update_end o now u in
  (u_status u' = "failed" <->
   fst (download_latest dl1 installed) = false
   \/ exists e, ensure_binary copy_ok dl2 (snd (download_latest dl1 installed))
                = Raise e)
  /\ (u_status u' = "succeeded" ->
      forall v, u_latest_version u' = Some v ->
                v <> "" /\ get_ytdlp_version installed' = Some v)
  /\ (u_status u' = "succeeded" ->
      u_latest_version u' = None ->
      u_message u' = "Updated to None").
Proof.
  unfold update_outcome_of, do_update_end.
  destruct (download_latest dl1 installed) as [ok installed1]. cbn [fst snd].
  destruct ok; cbn [fst snd download_latest_ytdlp ensure_ytdlp_binary].
  - destruct (ensure_binary copy_ok dl2 installed1)
      as [[[path version] installed2]|e] eqn:He;
      cbn [fst snd download_latest_ytdlp ensure_ytdlp_binary
           u_status u_latest_version u_message].
    + split; [|split].
      * split; [discriminate|].
        intros [Hf|[e He']]; discriminate.
      * intros _ v Hv. subst version.
        destruct (ensure_binary_result _ _ _ _ _ _ He)
          as [[_ Hn] | [p [v' [_ [Hv' [_ [Hne Hg]]]]]]]; [discriminate|].
        injection Hv' as <-. split; assumption.
      * intros _ ->. reflexivity.
    + split; [|split].
      * split; [intros _; right; exists e; reflexivity | reflexivity].
      * discriminate.
      * discriminate.
  - cbn [u_status u_latest_version u_message].
    split; [|split]; try discriminate.
    split; [intros _; left; reflexivity | reflexivity].
Qed.

End UpdaterFacts.

Section DownloadWithoutBinary.
Context `{Host} {B : Type} `{Machine B}.

(** The undisturbed run.  When no yt-dlp binary can be obtained, the job is still downloaded:
    the exception of [run_ytdlp_with_binary] is swallowed without an
    error status, the library runs, and its result is the final status. *)
Lemma run_job_without_binary_uses_library
        (copy_ok : bool) (dl : fetch B)
        (run : list string -> result (Z * string * string))
        (installed installed' : option B) (version : option string)
        (t : task) (lib : result unit) (J : jobs) (tr : list event)
        (j : job) (args : string) :
  YTDLP_UPDATER_AVAILABLE = true ->
  ensure_binary copy_ok dl installed = Ok ((None, version), installed') ->
  dict_get (t_job_id t) J = Some j ->
  t_custom_args t = JStr args ->
  run_job t
    (mkOutcome
       (fst (run_ytdlp_with_binary copy_ok dl run (t_url t) (t_download_dir t)
                                   (t_custom_args t) installed))
       lib)
    (J, tr)
  = cleanup
      (dict_set (t_job_id t)
                (with_status j match lib with
                               | Ok _ => "completed"
                               | Raise e => ("error: " ++ exn_msg e)%string
                               end) J,
       tr ++ [ EStatus (t_job_id t) "running";
               EBinary (t_url t) (t_download_dir t) (JStr args);
               ELibrary (t_url t)
                        (contains "--embed-thumbnail" args)
                        (contains "--embed-metadata" args)
                        (contains "--recode-video mp4" args);
               EStatus (t_job_id t)
                       match lib with
                       | Ok _ => "completed"
                       | Raise e => ("error: " ++ exn_msg e)%string
                       end ]).
Proof.
  intros Hav He Hj Hargs.
  unfold run_ytdlp_with_binary. rewrite He. cbn [fst].
  unfold run_job, binary_attempt, bind, try_except, lift, emit, ret.
  rewrite (set_status_ok _ _ _ _ j Hj), Hargs, Hav.
  cbn [arg_in fst snd binary library].
  destruct lib as [[]|e]; cbn [fst snd];
    rewrite set_status_again; rewrite <- !app_assoc; reflexivity.
Qed.

End DownloadWithoutBinary.

(* ===================================================================== *)
(** ** Concrete runs: more proofs                                         *)
(* ===================================================================== *)

Lemma sample_posted_saved :
  @save_settings (Lib.host true) Sample.posted Missing
  = ([ ("default_dir", JStr "/opt/ripperfox/media");
       ("default_args", JStr "-x");
       ("download_dirs",
        JDict [("*youtube*, *youtu.be*",
                JDict [("dir", JStr "yt"); ("args", JStr "-x")]);
               ("*vimeo*", JDict [("dir", JStr "/srv/vimeo")])]);
       ("show_toasts", JBool false) ],
     Holds (JDict Sample.stored)).
Proof. vm_compute. reflexivity. Qed.



Lemma load_settings_raises_on_non_string_default_dir_witness :
  exists e,
    @load_settings (Lib.host true)
      (Holds (JDict [("default_dir", JNum 5); ("show_toasts", JBool true)]))
    = Raise e.
Proof.
  apply (@load_settings_raises_on_non_string_default_dir (Lib.host true)
           [("default_dir", JNum 5); ("show_toasts", JBool true)] (JNum 5)).
  - apply keys_distinct_sound. reflexivity.
  - reflexivity.
  - discriminate.
  - reflexivity.
Defined.


Lemma save_settings_stores_portable_paths_witness :
  Path.isabs "media" && @under_base (Lib.host true) "media" = false.
Proof.
  apply (proj1 (@save_settings_stores_portable_paths (Lib.host true)
                  Sample.posted _ Sample.stored sample_posted_saved)).
  reflexivity.
Defined.

Lemma load_settings_keeps_saved_file_witness :
  match @load_settings (Lib.host true) (Holds (JDict Sample.stored)) with
  | Ok (_, f') => f' = Holds (JDict Sample.stored)
  | Raise _ => True
  end.
Proof.
  exact (@load_settings_keeps_saved_file (Lib.host true)
           Sample.posted _ Sample.stored sample_posted_saved).
Defined.

Lemma settings_post_writes_known_keys_witness :
  dict_get "default_dir"
    [ ("default_dir", JStr "/srv/media");
      ("default_args", JStr "--recode-video mp4 --embed-thumbnail --embed-metadata");
      ("download_dirs", JDict []); ("show_toasts", JBool true) ]
  = Some (JStr "/srv/media")
  /\ forall k,
       k <> "default_dir" -> k <> "default_args" ->
       k <> "download_dirs" -> k <> "show_toasts" ->
       dict_get k
         [ ("default_dir", JStr "/srv/media");
           ("default_args", JStr "--recode-video mp4 --embed-thumbnail --embed-metadata");
           ("download_dirs", JDict []); ("show_toasts", JBool true) ]
       = dict_get k Scenario.SETTINGS.
Proof.
  destruct (@settings_post_writes_known_keys (Lib.host true)
              [("default_dir", JStr "/srv/media"); ("bogus", JNum 1)]
              Scenario.SETTINGS
              [ ("default_dir", JStr "/srv/media");
                ("default_args",
                 JStr "--recode-video mp4 --embed-thumbnail --embed-metadata");
                ("download_dirs", JDict []); ("show_toasts", JBool true) ]
              Missing
              (Holds (JDict
                 [ ("default_dir", JStr "/srv/media");
                   ("default_args",
                    JStr "--recode-video mp4 --embed-thumbnail --embed-metadata");
                   ("download_dirs", JDict []); ("show_toasts", JBool true) ]))
              (Response 200 (JDict
                 [ ("default_dir", JStr "/srv/media");
                   ("default_args",
                    JStr "--recode-video mp4 --embed-thumbnail --embed-metadata");
                   ("download_dirs", JDict []); ("show_toasts", JBool true) ]))
              eq_refl)
    as [_ [Hdir [_ [_ Hother]]]].
  split; [exact Hdir | exact Hother].
Defined.

Lemma patterns_of_trimmed_witness :
  "*youtu.be*" <> ""
  /\ lstrip isspace "*youtu.be*" = "*youtu.be*"
  /\ rstrip isspace "*youtu.be*" = "*youtu.be*".
Proof.
  apply (patterns_of_trimmed " *youtube* ,, *youtu.be* , " "*youtu.be*").
  vm_compute. right. left. reflexivity.
Defined.

Lemma get_site_config_returns_listed_config_witness :
  truthy Scenario.yt = true
  /\ exists g, In (g, Scenario.yt) Scenario.empty_first
               /\ @group_qualifies (Lib.host true)
                    (hostname_or "" (Some "youtube.com")) g = true.
Proof.
  apply (@get_site_config_returns_listed_config (Lib.host true)
           "https://youtube.com/watch" (Some "youtube.com")
           Scenario.empty_first Scenario.yt); reflexivity.
Defined.

Lemma get_site_config_appended_rules_witness :
  @get_site_config (Lib.host true) "https://youtube.com/watch"
    (Scenario.empty_first ++ [("*", JDict [("dir", JStr "all")])])
  = Ok (Some Scenario.yt).
Proof.
  apply (proj1 (@get_site_config_appended_rules (Lib.host true)
                  "https://youtube.com/watch" (Some "youtube.com")
                  Scenario.empty_first [("*", JDict [("dir", JStr "all")])]
                  eq_refl)).
  reflexivity.
Defined.

Lemma sample_twelfth_dispatch :
  exists J',
    @download (Lib.host true) Scenario.SETTINGS 1700000000011
      (JDict Sample.request_body) (JOBS Scenario.after_eleven)
    = Ok (Response 200 (JDict [("job_id", JStr "1700000000011")]), J',
          Some (mkTask "1700000000011" "https://youtu.be/abc"
                       "/opt/ripperfox/downloads"
                       (JStr "--recode-video mp4 --embed-thumbnail --embed-metadata"))).
Proof. eexists. vm_compute. reflexivity. Qed.


Lemma download_raises_without_site_dir_witness :
  exists e,
    @download (Lib.host true) Sample.no_site_dir 1700000000000
      (JDict Sample.request_body) []
    = Raise e.
Proof.
  apply (@download_raises_without_site_dir (Lib.host true) Sample.no_site_dir
           1700000000000 Sample.request_body
           [("*youtu.be*", JDict [("args", JStr "-x")])]
           [("args", JStr "-x")] [] "https://youtu.be/abc" (Some "youtu.be")).
  - reflexivity.
  - discriminate.
  - reflexivity.
  - reflexivity.
  - reflexivity.
  - discriminate.
Defined.

Lemma download_appends_fresh_job_witness :
  exists J' site shown,
    J' = JOBS Scenario.after_eleven
         ++ [("1700000000011",
              mkJob "https://youtu.be/abc" site "starting" "/opt/ripperfox/downloads")]
    /\ status_jobs J'
       = shown ++ [("1700000000011",
                    mkJob "https://youtu.be/abc" site "starting"
                          "/opt/ripperfox/downloads")]
    /\ length shown = Nat.min (length (JOBS Scenario.after_eleven)) 9.
Proof.
  destruct sample_twelfth_dispatch as [J' HJ]. exists J'.
  apply (@download_appends_fresh_job (Lib.host true) Scenario.SETTINGS
           1700000000011 (JDict Sample.request_body)
           (JOBS Scenario.after_eleven) J'
           (Response 200 (JDict [("job_id", JStr "1700000000011")]))
           (mkTask "1700000000011" "https://youtu.be/abc"
                   "/opt/ripperfox/downloads"
                   (JStr "--recode-video mp4 --embed-thumbnail --embed-metadata"))
           after_eleven_wf).
  - vm_compute. reflexivity.
  - exact HJ.
Defined.

Lemma after_eleven_last_job :
  dict_get "1700000000010" (JOBS Scenario.after_eleven) = Some Scenario.last_job.
Proof. vm_compute. reflexivity. Qed.

Lemma run_job_ends_in_terminal_status_witness :
  fst (@run_job (Lib.host true) Scenario.last_task Sample.binary_raises
                (JOBS Scenario.after_eleven, [])) = Ok tt
  /\ exists s,
       (s = "completed" \/ exists m, s = ("error: " ++ m)%string)
       /\ In (EStatus "1700000000010" s)
             (snd (snd (@run_job (Lib.host true) Scenario.last_task
                                 Sample.binary_raises
                                 (JOBS Scenario.after_eleven, []))))
       /\ forall j',
            dict_get "1700000000010"
                     (fst (snd (@run_job (Lib.host true) Scenario.last_task
                                         Sample.binary_raises
                                         (JOBS Scenario.after_eleven, []))))
            = Some j' ->
            j' = with_status Scenario.last_job s.
Proof.
  exact (@run_job_ends_in_terminal_status (Lib.host true) Scenario.last_task
           Sample.binary_raises (JOBS Scenario.after_eleven) []
           Scenario.last_job after_eleven_wf after_eleven_last_job).
Defined.

Lemma run_job_preserves_other_jobs_witness :
  (exists old,
      dict_keys (JOBS Scenario.after_eleven)
      = old ++ dict_keys (fst (snd (@run_job (Lib.host true) Scenario.last_task
                                             Scenario.binary_fails
                                             (JOBS Scenario.after_eleven, [])))))
  /\ forall k v,
       k <> "1700000000010" ->
       dict_get k (fst (snd (@run_job (Lib.host true) Scenario.last_task
                                      Scenario.binary_fails
                                      (JOBS Scenario.after_eleven, []))))
       = Some v ->
       dict_get k (JOBS Scenario.after_eleven) = Some v.
Proof.
  exact (@run_job_preserves_other_jobs (Lib.host true) Scenario.last_task
           Scenario.binary_fails (JOBS Scenario.after_eleven) []
           Scenario.last_job after_eleven_wf after_eleven_last_job).
Defined.

Lemma run_job_untracked_raises_witness :
  @run_job (Lib.host true) Scenario.last_task Scenario.binary_succeeds ([], [])
  = (Raise (KeyError "1700000000010"), ([], [])).
Proof.
  apply (proj1 (@run_job_untracked_raises (Lib.host true) Scenario.last_task
                  Scenario.binary_succeeds [] [])).
  reflexivity.
Defined.

Lemma run_job_falls_back_to_library_witness :
  @run_job (Lib.host true) Scenario.last_task Sample.binary_raises
           (JOBS Scenario.after_eleven, [])
  = cleanup
      (dict_set "1700000000010"
                (with_status Scenario.last_job "error: Video unavailable")
                (JOBS Scenario.after_eleven),
       [] ++ [ EStatus "1700000000010" "running";
               EBinary "https://youtu.be/abc" "/opt/ripperfox/downloads"
                       (JStr "--recode-video mp4 --embed-thumbnail --embed-metadata");
               ELibrary "https://youtu.be/abc" true true true;
               EStatus "1700000000010" "error: Video unavailable" ]).
Proof.
  exact (proj2 (@run_job_falls_back_to_library (Lib.host true)
                  Scenario.last_task Sample.binary_raises
                  (JOBS Scenario.after_eleven) [] Scenario.last_job
                  "--recode-video mp4 --embed-thumbnail --embed-metadata"
                  after_eleven_last_job eq_refl)
               eq_refl
               (PyExn "Exception" "Failed to get yt-dlp binary") eq_refl).
Defined.


Lemma ensure_binary_result_witness :
  (Some "/opt/ripperfox/yt-dlp" = None /\ Some "2025.01.15" = None)
  \/ exists p v,
       Some "/opt/ripperfox/yt-dlp" = Some p /\ Some "2025.01.15" = Some v
       /\ @get_ytdlp_binary_path string text_machine = Ok p
       /\ v <> ""
       /\ @get_ytdlp_version string text_machine (Some "2025.01.15") = Some v.
Proof.
  apply (@ensure_binary_result string text_machine true Sample.fetch_ok None
           (Some "2025.01.15") (Some "/opt/ripperfox/yt-dlp") (Some "2025.01.15")).
  reflexivity.
Defined.

Lemma ensure_binary_keeps_working_binary_witness :
  @ensure_binary string text_machine false Sample.fetch_ok (Some "2024.12.01")
  = Ok ((Some "/opt/ripperfox/yt-dlp", Some "2024.12.01"), Some "2024.12.01").
Proof.
  apply (@ensure_binary_keeps_working_binary string text_machine false
           Sample.fetch_ok "2024.12.01" "/opt/ripperfox/yt-dlp" "2024.12.01").
  - reflexivity.
  - reflexivity.
  - discriminate.
Defined.

Lemma check_reports_update_only_when_newer_witness :
  exists release tag current,
    Sample.release = Reply 200 (Ok (JDict release))
    /\ get_default "tag_name" release (JStr "") = JStr tag
    /\ Some "2024.12.01" = Some current
    /\ current <> ""
    /\ Some "2025.01.15" = Some (lstrip (Ascii.eqb "v") tag)
    /\ (forall rest, lstrip (Ascii.eqb "v") tag <> String "v" rest)
    /\ @version_newer string text_machine (lstrip (Ascii.eqb "v") tag) current
       = Ok true
    /\ JList [] = get_default "assets" release (JList []).
Proof.
  apply (@check_reports_update_only_when_newer string text_machine
           Sample.release (Some "2024.12.01") (Some "2025.01.15") (JList [])).
  vm_compute. reflexivity.
Defined.

Lemma check_skips_on_bad_reply_witness :
  @check_for_ytdlp_update string text_machine
    (Reply 403 (Ok (JDict [("message", JStr "rate limit exceeded")])))
    (Some "2024.12.01")
  = (false, None, JList []).
Proof.
  apply (@check_skips_on_bad_reply string text_machine).
  right. left. eexists. eexists. split; [reflexivity | discriminate].
Defined.

Lemma update_thread_on_machine_witness :
  u_status
    (do_update_end
       (fst (@update_outcome_of string text_machine true Sample.fetch_fails
                                Sample.fetch_ok (Some "2024.12.01")))
       200 (do_update_begin 100 UPDATE_JOB_initial))
  = "failed".
Proof.
  apply (proj1 (@update_thread_on_machine string text_machine true
                  Sample.fetch_fails Sample.fetch_ok (Some "2024.12.01")
                  200%Z (do_update_begin 100 UPDATE_JOB_initial))).
  left. reflexivity.
Defined.

Lemma run_job_without_binary_uses_library_witness :
  @run_job (Lib.host true) Scenario.last_task
    (mkOutcome
       (fst (@run_ytdlp_with_binary string text_machine true Sample.fetch_fails
               Sample.never_run
               (t_url Scenario.last_task) (t_download_dir Scenario.last_task)
               (t_custom_args Scenario.last_task) None))
       (Ok tt))
    (JOBS Scenario.after_eleven, [])
  = cleanup
      (dict_set "1700000000010" (with_status Scenario.last_job "completed")
                (JOBS Scenario.after_eleven),
       [] ++ [ EStatus "1700000000010" "running";
               EBinary "https://youtu.be/abc" "/opt/ripperfox/downloads"
                       (JStr "--recode-video mp4 --embed-thumbnail --embed-metadata");
               ELibrary "https://youtu.be/abc" true true true;
               EStatus "1700000000010" "completed" ]).
Proof.
  exact (@run_job_without_binary_uses_library (Lib.host true) string text_machine
           true Sample.fetch_fails Sample.never_run None None None
           Scenario.last_task (Ok tt) (JOBS Scenario.after_eleven) []
           Scenario.last_job
           "--recode-video mp4 --embed-thumbnail --embed-metadata"
           eq_refl eq_refl after_eleven_last_job eq_refl).
Defined.

(* ===================================================================== *)
(** ** The background task among the other threads: proofs                *)
(* ===================================================================== *)

Section RunJobAmong.
Context `{Host}.

Lemma yield_alone {A} (n : nat) (k : unit -> prog A) (st : jobs * list event) :
  bind (yield (alone n)) k st = k tt st.
Proof. destruct st as [J tr]. reflexivity. Qed.

Lemma bind_pointwise {A B} (c1 c2 : prog A) (k1 k2 : A -> prog B) :
  (forall st, c1 st = c2 st) ->
  (forall a st, k1 a st = k2 a st) ->
  forall st, bind c1 k1 st = bind c2 k2 st.
Proof.
  intros Hc Hk st. unfold bind. rewrite Hc.
  destruct (c2 st) as [[a|e] st']; [apply Hk | reflexivity].
Qed.

Lemma try_pointwise {A} (c1 c2 : prog A) (h1 h2 : pyexn -> prog A) :
  (forall st, c1 st = c2 st) ->
  (forall e st, h1 e st = h2 e st) ->
  forall st, try_except c1 h1 st = try_except c2 h2 st.
Proof.
  intros Hc Hh st. unfold try_except. rewrite Hc.
  destruct (c2 st) as [[a|e] st']; [reflexivity | apply Hh].
Qed.

Lemma del_each_among_alone (olds : list string) :
  forall n st, del_each_among alone n olds st = del_each olds st.
Proof.
  induction olds as [|old rest IH]; intros n st; simpl; [reflexivity|].
  rewrite yield_alone. apply bind_pointwise; [reflexivity|].
  intros _ st'. apply IH.
Qed.

Lemma cleanup_among_alone (st : jobs * list event) :
  cleanup_among alone st = cleanup st.
Proof.
  unfold cleanup_among, cleanup.
  apply bind_pointwise; [reflexivity|]. intros _ st1.
  rewrite yield_alone.
  destruct (Z.of_nat (length (fst st1)) >? JOB_HISTORY_LIMIT)%Z; [|reflexivity].
  rewrite yield_alone. apply del_each_among_alone.
Qed.

(** With nobody else touching the store, the thread among the others is
    [run_job]. *)
Lemma run_job_among_alone (t : task) (o : outcome) (st : jobs * list event) :
  run_job_among alone t o st = run_job t o st.
Proof.
  unfold run_job_among, run_job.
  rewrite yield_alone.
  apply bind_pointwise; [reflexivity|]. intros _ st1.
  apply bind_pointwise.
  - apply try_pointwise.
    + repeat (apply bind_pointwise; [reflexivity|]; intros ?).
      apply bind_pointwise.
      * destruct YTDLP_UPDATER_AVAILABLE; [|reflexivity].
        unfold binary_attempt_among, binary_attempt.
        apply try_pointwise; [|reflexivity].
        apply bind_pointwise; [reflexivity|]. intros _.
        apply bind_pointwise; [reflexivity|]. intros [[rc out] err] st2.
        rewrite yield_alone. reflexivity.
      * intros [|] st2; [reflexivity|].
        apply bind_pointwise; [reflexivity|]. intros _.
        apply bind_pointwise; [reflexivity|]. intros _ st3.
        rewrite yield_alone. reflexivity.
    + intros e st2. rewrite yield_alone. reflexivity.
  - intros [|] st2; [reflexivity | apply cleanup_among_alone].
Qed.

Lemma tracked_after_write {V} (d : list (string * V)) (k : string) (v : V) :
  dict_get k (dict_set k v d) <> None.
Proof. rewrite dict_get_set_same. discriminate. Qed.

(** A status write of the thread, after the others had the store: the
    entry is there, by [keep_entry]. *)
Ltac status_write Hkeep :=
  match goal with
  | |- context [set_status ?id ?s (?c ?J, ?tr)] =>
      let j := fresh "j" in
      let Hj := fresh "Hj" in
      destruct (dict_get id (c J)) as [j|] eqn:Hj;
      [ rewrite (set_status_ok id s (c J) tr j Hj); cbn [fst snd]
      | exfalso; revert Hj; apply Hkeep;
        [lia | first [assumption | apply tracked_after_write]] ]
  end.

(** The run is read off first; it fixes the store and the entry. *)
Ltac close_run :=
  eexists; eexists; (split; [|split]);
  [ | | rewrite <- ?app_assoc; reflexivity ];
  [apply dict_get_set_same | reflexivity].

(** The thread of a job whose binary returns an exit code, as long as
    the others leave its entry in the store. *)
Lemma run_job_among_binary_returns
      (others : nat -> jobs -> jobs) (t : task) (o : outcome) (J : jobs)
      (tr : list event) (args out err : string) (rc : Z) :
  YTDLP_UPDATER_AVAILABLE = true ->
  keep_entry others (t_job_id t) ->
  dict_get (t_job_id t) J <> None ->
  t_custom_args t = JStr args ->
  binary o = Ok (rc, out, err) ->
  exists J2 j2,
    dict_get (t_job_id t) J2 = Some j2
    /\ if (rc =? 0)%Z
       then job_status j2 = "completed"
            /\ run_job_among others t o (J, tr)
               = (Ok tt,
                  (J2, tr ++ [ EStatus (t_job_id t) "running";
                               EBinary (t_url t) (t_download_dir t) (JStr args);
                               EStatus (t_job_id t) "completed" ]))
       else
         let final := match library o with
                      | Ok _ => "completed"
                      | Raise e => ("error: " ++ exn_msg e)%string
                      end in
         job_status j2 = final
         /\ run_job_among others t o (J, tr)
            = cleanup_among others
                (J2, tr ++ [ EStatus (t_job_id t) "running";
                             EBinary (t_url t) (t_download_dir t) (JStr args);
                             EStatus (t_job_id t) ("error: " ++ err);
                             ELibrary (t_url t)
                                      (contains "--embed-thumbnail" args)
                                      (contains "--embed-metadata" args)
                                      (contains "--recode-video mp4" args);
                             EStatus (t_job_id t) final ]).
Proof.
  intros Hav Hkeep Hj Hargs Hbin.
  unfold run_job_among, binary_attempt_among, bind, try_except, lift, emit, ret,
    yield.
  cbn [fst snd].
  status_write Hkeep.
  rewrite Hargs, Hav, Hbin. cbn [arg_in fst snd].
  destruct (rc =? 0)%Z.
  - status_write Hkeep. close_run.
  - status_write Hkeep.
    destruct (library o) as [[]|e]; cbn [fst snd]; status_write Hkeep;
      close_run.
Qed.

(** C7 (as amended).  Take a dispatched job whose entry is in the store
    when its thread starts and is left there by the others before each
    status write of the thread (whatever else [download],
    [clear_status] and the other threads do to the store meanwhile),
    with the updater available and a string of arguments, and let the
    binary return [(rc, out, err)].  If [rc] is not 0, the thread first
    writes the status ["error: " ++ err], then calls the library, and
    when the library succeeds the last status it writes is
    ["completed"]: the entry carries it when the cleanup block starts.
    If [rc] is 0, the thread writes ["completed"] and ends: the library
    is not called. *)
Theorem run_job_among_binary_then_library
        (others : nat -> jobs -> jobs) (t : task) (o : outcome) (J : jobs)
        (tr : list event) (args out err : string) (rc : Z) :
  YTDLP_UPDATER_AVAILABLE = true ->
  keep_entry others (t_job_id t) ->
  dict_get (t_job_id t) J <> None ->
  t_custom_args t = JStr args ->
  binary o = Ok (rc, out, err) ->
  (rc <> 0%Z -> library o = Ok tt ->
   exists J2 j2,
     dict_get (t_job_id t) J2 = Some j2
     /\ job_status j2 = "completed"
     /\ run_job_among others t o (J, tr)
        = cleanup_among others
            (J2, tr ++ [ EStatus (t_job_id t) "running";
                         EBinary (t_url t) (t_download_dir t) (JStr args);
                         EStatus (t_job_id t) ("error: " ++ err);
                         ELibrary (t_url t)
                                  (contains "--embed-thumbnail" args)
                                  (contains "--embed-metadata" args)
                                  (contains "--recode-video mp4" args);
                         EStatus (t_job_id t) "completed" ]))
  /\ (rc = 0%Z ->
      exists J2 j2,
        dict_get (t_job_id t) J2 = Some j2
        /\ job_status j2 = "completed"
        /\ run_job_among others t o (J, tr)
           = (Ok tt,
              (J2, tr ++ [ EStatus (t_job_id t) "running";
                           EBinary (t_url t) (t_download_dir t) (JStr args);
                           EStatus (t_job_id t) "completed" ]))).
Proof.
  intros Hav Hkeep Hj Hargs Hbin.
  destruct (run_job_among_binary_returns others t o J tr args out err rc
              Hav Hkeep Hj Hargs Hbin) as [J2 [j2 [Hj2 Hrun]]].
  split.
  - intros Hrc Hlib.
    destruct (Z.eqb_spec rc 0) as [Hz|_]; [contradiction|].
    rewrite Hlib in Hrun. cbn zeta in Hrun. destruct Hrun as [Hs Hrun].
    exists J2, j2. repeat split; assumption.
  - intros ->. cbn [Z.eqb] in Hrun. destruct Hrun as [Hs Hrun].
    exists J2, j2. repeat split; assumption.
Qed.

(** X14.  As long as the others leave the entry of the job in the store
    before each status write of its thread, the thread never leaves the
    job ["starting"] or ["running"]: the last status it writes is
    ["completed"] or starts with ["error: "], the entry carries it
    right after that write, and the thread then ends normally (the
    [return] of the binary path) or enters the cleanup block. *)
Theorem run_job_among_ends_in_terminal_status
        (others : nat -> jobs -> jobs) (t : task) (o : outcome) (J : jobs)
        (tr : list event) :
  keep_entry others (t_job_id t) ->
  dict_get (t_job_id t) J <> None ->
  exists s J2 j2 tr0,
    (run_job_among others t o (J, tr)
     = (Ok tt, (J2, tr0 ++ [EStatus (t_job_id t) s]))
     \/ run_job_among others t o (J, tr)
        = cleanup_among others (J2, tr0 ++ [EStatus (t_job_id t) s]))
    /\ dict_get (t_job_id t) J2 = Some j2
    /\ job_status j2 = s
    /\ (s = "completed" \/ exists m, s = ("error: " ++ m)%string).
Proof.
  intros Hkeep Hj.
  unfold run_job_among, binary_attempt_among, bind, try_except, lift, emit, ret,
    yield.
  cbn [fst snd].
  status_write Hkeep.
  destruct (t_custom_args t) as [| | |args|l|d]; cbn [arg_in fst snd];
    try (status_write Hkeep; do 4 eexists;
         split; [right; reflexivity|];
         split; [apply dict_get_set_same|];
         split; [reflexivity | right; eexists; reflexivity]);
    (destruct YTDLP_UPDATER_AVAILABLE; cbn [fst snd];
     [ destruct (binary o) as [[[rc out] err]|be]; cbn [fst snd];
       [ destruct (rc =? 0)%Z; status_write Hkeep;
         [ do 4 eexists; split; [left; reflexivity|];
           split; [apply dict_get_set_same|];
           split; [reflexivity | left; reflexivity] | ]
       | ]
     | ]);
    (destruct (library o) as [[]|le]; cbn [fst snd];
     status_write Hkeep; do 4 eexists;
     (split; [right; reflexivity|]);
     (split; [apply dict_get_set_same|]);
     (split; [reflexivity|]);
     first [left; reflexivity | right; eexists; reflexivity]).
Qed.

(** X17.  As long as the others leave the entry of the job in the store
    before each status write of its thread: when the binary is not
    attempted (no updater) or the attempt raises instead of returning an
    exit code, no error is recorded for it; the library runs next and
    alone decides the last status the thread writes, ["completed"] or
    ["error: "] with its message; the cleanup block follows. *)
Theorem run_job_among_falls_back_to_library
        (others : nat -> jobs -> jobs) (t : task) (o : outcome) (J : jobs)
        (tr : list event) (args : string) :
  keep_entry others (t_job_id t) ->
  dict_get (t_job_id t) J <> None ->
  t_custom_args t = JStr args ->
  let final := match library o with
               | Ok _ => "completed"
               | Raise e => ("error: " ++ exn_msg e)%string
               end in
  let lib := ELibrary (t_url t)
                      (contains "--embed-thumbnail" args)
                      (contains "--embed-metadata" args)
                      (contains "--recode-video mp4" args) in
  (YTDLP_UPDATER_AVAILABLE = false ->
   exists J2 j2,
     dict_get (t_job_id t) J2 = Some j2
     /\ job_status j2 = final
     /\ run_job_among others t o (J, tr)
        = cleanup_among others
            (J2, tr ++ [ EStatus (t_job_id t) "running"; lib;
                         EStatus (t_job_id t) final ]))
  /\ (YTDLP_UPDATER_AVAILABLE = true ->
      forall be, binary o = Raise be ->
      exists J2 j2,
        dict_get (t_job_id t) J2 = Some j2
        /\ job_status j2 = final
        /\ run_job_among others t o (J, tr)
           = cleanup_among others
               (J2, tr ++ [ EStatus (t_job_id t) "running";
                            EBinary (t_url t) (t_download_dir t) (JStr args);
                            lib; EStatus (t_job_id t) final ])).
Proof.
  intros Hkeep Hj Hargs final lib. subst final lib. split.
  - intros Hav.
    unfold run_job_among, binary_attempt_among, bind, try_except, lift, emit,
      ret, yield.
    cbn [fst snd]. status_write Hkeep.
    rewrite Hargs, Hav. cbn [arg_in fst snd].
    destruct (library o) as [[]|e]; cbn [fst snd]; status_write Hkeep;
      close_run.
  - intros Hav be Hbin.
    unfold run_job_among, binary_attempt_among, bind, try_except, lift, emit,
      ret, yield.
    cbn [fst snd]. status_write Hkeep.
    rewrite Hargs, Hav, Hbin. cbn [arg_in fst snd].
    destruct (library o) as [[]|e]; cbn [fst snd]; status_write Hkeep;
      close_run.
Qed.

End RunJobAmong.

Section DownloadWithoutBinaryAmong.
Context `{Host} {B : Type} `{Machine B}.

(** X26.  When no yt-dlp binary can be obtained, the job is still
    downloaded, as long as the others leave its entry in the store
    before each status write of its thread: the exception of
    [run_ytdlp_with_binary] is swallowed without an error status, the
    library runs, and its result is the last status the thread writes;
    the cleanup block follows. *)
Theorem run_job_among_without_binary_uses_library
        (others : nat -> jobs -> jobs)
        (copy_ok : bool) (dl : fetch B)
        (run : list string -> result (Z * string * string))
        (installed installed' : option B) (version : option string)
        (t : task) (lib : result unit) (J : jobs) (tr : list event)
        (args : string) :
  YTDLP_UPDATER_AVAILABLE = true ->
  ensure_binary copy_ok dl installed = Ok ((None, version), installed') ->
  keep_entry others (t_job_id t) ->
  dict_get (t_job_id t) J <> None ->
  t_custom_args t = JStr args ->
  exists J2 j2,
    dict_get (t_job_id t) J2 = Some j2
    /\ job_status j2 = match lib with
                       | Ok _ => "completed"
                       | Raise e => ("error: " ++ exn_msg e)%string
                       end
    /\ run_job_among others t
         (mkOutcome
            (fst (run_ytdlp_with_binary copy_ok dl run (t_url t)
                    (t_download_dir t) (t_custom_args t) installed))
            lib)
         (J, tr)
       = cleanup_among others
           (J2, tr ++ [ EStatus (t_job_id t) "running";
                        EBinary (t_url t) (t_download_dir t) (JStr args);
                        ELibrary (t_url t)
                                 (contains "--embed-thumbnail" args)
                                 (contains "--embed-metadata" args)
                                 (contains "--recode-video mp4" args);
                        EStatus (t_job_id t)
                                match lib with
                                | Ok _ => "completed"
                                | Raise e => ("error: " ++ exn_msg e)%string
                                end ]).
Proof.
  intros Hav He Hkeep Hj Hargs.
  unfold run_ytdlp_with_binary. rewrite He. cbn [fst].
  unfold run_job_among, binary_attempt_among, bind, try_except, lift, emit,
    ret, yield.
  cbn [fst snd].
  match goal with
  | |- context [set_status ?id ?s (?c ?J0, ?tr0)] =>
      destruct (dict_get id (c J0)) as [j|] eqn:Hj0;
      [ rewrite (set_status_ok id s (c J0) tr0 j Hj0); cbn [fst snd]
      | exfalso; revert Hj0; apply Hkeep; [lia | assumption] ]
  end.
  rewrite Hargs, Hav. cbn [arg_in fst snd binary library].
  destruct lib as [[]|e]; cbn [fst snd];
    match goal with
    | |- context [set_status ?id ?s (?c ?J0, ?tr0)] =>
        destruct (dict_get id (c J0)) as [j1|] eqn:Hj1;
        [ rewrite (set_status_ok id s (c J0) tr0 j1 Hj1); cbn [fst snd]
        | exfalso; revert Hj1; apply Hkeep;
          [lia | rewrite dict_get_set_same; discriminate] ]
    end;
    (eexists; eexists; (split; [|split]);
     [ | | rewrite <- ?app_assoc; reflexivity ];
     [apply dict_get_set_same | reflexivity]).
Qed.

End DownloadWithoutBinaryAmong.

(* ===================================================================== *)
(** ** The background task among the other threads: concrete runs         *)
(* ===================================================================== *)

Lemma sample_dispatch_keeps_entry :
  keep_entry Sample.dispatched_while_binary "1700000000010".
Proof.
  intros n J _ Hj. unfold Sample.dispatched_while_binary.
  destruct (n =? 1)%nat; [|exact Hj].
  rewrite dict_get_set_other by discriminate. exact Hj.
Qed.

Lemma after_eleven_tracks_last :
  dict_get "1700000000010" (JOBS Scenario.after_eleven) <> None.
Proof. rewrite after_eleven_last_job. discriminate. Qed.

(** C7 as stated fails: the job is dispatched and tracked, its thread
    starts, and the history is cleared while the binary runs.  The binary
    exits with 0; the write of ["completed"] raises [KeyError], which the
    inner handler swallows; the library is called although the binary
    succeeded; its write raises again, so does the handler's, and the
    thread ends with [KeyError] and no ["completed"] recorded. *)
Lemma run_job_cleared_while_binary_runs :
  dict_get "1700000000010" (JOBS Scenario.after_eleven) = Some Scenario.last_job
  /\ binary Scenario.binary_succeeds = Ok (0%Z, "done", "")
  /\ @run_job_among (Lib.host true) Sample.cleared_while_binary
       Scenario.last_task Scenario.binary_succeeds
       (JOBS Scenario.after_eleven, [])
     = (Raise (KeyError "1700000000010"),
        ([], [ EStatus "1700000000010" "running";
               EBinary "https://youtu.be/abc" "/opt/ripperfox/downloads"
                       (JStr "--recode-video mp4 --embed-thumbnail --embed-metadata");
               ELibrary "https://youtu.be/abc" true true true ]))
  /\ In (ELibrary "https://youtu.be/abc" true true true)
        (snd (snd (@run_job_among (Lib.host true) Sample.cleared_while_binary
                     Scenario.last_task Scenario.binary_succeeds
                     (JOBS Scenario.after_eleven, []))))
  /\ ~ In (EStatus "1700000000010" "completed")
          (snd (snd (@run_job_among (Lib.host true) Sample.cleared_while_binary
                       Scenario.last_task Scenario.binary_succeeds
                       (JOBS Scenario.after_eleven, [])))).
Proof.
  split; [vm_compute; reflexivity|].
  split; [reflexivity|].
  split; [vm_compute; reflexivity|].
  split.
  - vm_compute. right. right. left. reflexivity.
  - vm_compute. intros [Hd|[Hd|[Hd|[]]]]; discriminate Hd.
Qed.

Lemma run_job_among_binary_then_library_witness :
  exists J2 j2,
    dict_get "1700000000010" J2 = Some j2
    /\ job_status j2 = "completed"
    /\ @run_job_among (Lib.host true) Sample.dispatched_while_binary
         Scenario.last_task Scenario.binary_fails
         (JOBS Scenario.after_eleven, [])
       = cleanup_among Sample.dispatched_while_binary
           (J2, [] ++ [ EStatus "1700000000010" "running";
                        EBinary "https://youtu.be/abc" "/opt/ripperfox/downloads"
                                (JStr "--recode-video mp4 --embed-thumbnail --embed-metadata");
                        EStatus "1700000000010" "error: ERROR: unable to download";
                        ELibrary "https://youtu.be/abc" true true true;
                        EStatus "1700000000010" "completed" ]).
Proof.
  apply (proj1 (@run_job_among_binary_then_library (Lib.host true)
                  Sample.dispatched_while_binary Scenario.last_task
                  Scenario.binary_fails (JOBS Scenario.after_eleven) []
                  "--recode-video mp4 --embed-thumbnail --embed-metadata"
                  "" "ERROR: unable to download" 1%Z
                  eq_refl sample_dispatch_keeps_entry after_eleven_tracks_last
                  eq_refl eq_refl)).
  - discriminate.
  - reflexivity.
Defined.

(** The same thread with a download dispatched while its binary runs:
    the new job is in the store at the end, the oldest two are evicted,
    and the job of the thread is ["completed"]. *)
Example run_job_among_dispatch :
  dict_keys (fst (snd (@run_job_among (Lib.host true)
                         Sample.dispatched_while_binary Scenario.last_task
                         Scenario.binary_fails (JOBS Scenario.after_eleven, []))))
  = [ "1700000000002"; "1700000000003"; "1700000000004"; "1700000000005";
      "1700000000006"; "1700000000007"; "1700000000008"; "1700000000009";
      "1700000000010"; "1700000000011" ].
Proof. vm_compute. reflexivity. Qed.

Lemma run_job_among_ends_in_terminal_status_witness :
  exists s J2 j2 tr0,
    (@run_job_among (Lib.host true) Sample.dispatched_while_binary
       Scenario.last_task Sample.binary_raises (JOBS Scenario.after_eleven, [])
     = (Ok tt, (J2, tr0 ++ [EStatus "1700000000010" s]))
     \/ @run_job_among (Lib.host true) Sample.dispatched_while_binary
          Scenario.last_task Sample.binary_raises (JOBS Scenario.after_eleven, [])
        = cleanup_among Sample.dispatched_while_binary
            (J2, tr0 ++ [EStatus "1700000000010" s]))
    /\ dict_get "1700000000010" J2 = Some j2
    /\ job_status j2 = s
    /\ (s = "completed" \/ exists m, s = ("error: " ++ m)%string).
Proof.
  exact (@run_job_among_ends_in_terminal_status (Lib.host true)
           Sample.dispatched_while_binary Scenario.last_task
           Sample.binary_raises (JOBS Scenario.after_eleven) []
           sample_dispatch_keeps_entry after_eleven_tracks_last).
Defined.

Lemma run_job_among_falls_back_to_library_witness :
  exists J2 j2,
    dict_get "1700000000010" J2 = Some j2
    /\ job_status j2 = "error: Video unavailable"
    /\ @run_job_among (Lib.host true) Sample.dispatched_while_binary
         Scenario.last_task Sample.binary_raises (JOBS Scenario.after_eleven, [])
       = cleanup_among Sample.dispatched_while_binary
           (J2, [] ++ [ EStatus "1700000000010" "running";
                        EBinary "https://youtu.be/abc" "/opt/ripperfox/downloads"
                                (JStr "--recode-video mp4 --embed-thumbnail --embed-metadata");
                        ELibrary "https://youtu.be/abc" true true true;
                        EStatus "1700000000010" "error: Video unavailable" ]).
Proof.
  exact (proj2 (@run_job_among_falls_back_to_library (Lib.host true)
                  Sample.dispatched_while_binary Scenario.last_task
                  Sample.binary_raises (JOBS Scenario.after_eleven) []
                  "--recode-video mp4 --embed-thumbnail --embed-metadata"
                  sample_dispatch_keeps_entry after_eleven_tracks_last eq_refl)
               eq_refl
               (PyExn "Exception" "Failed to get yt-dlp binary") eq_refl).
Defined.

Lemma run_job_among_without_binary_uses_library_witness :
  exists J2 j2,
    dict_get "1700000000010" J2 = Some j2
    /\ job_status j2 = "completed"
    /\ @run_job_among (Lib.host true) Sample.dispatched_while_binary
         Scenario.last_task
         (mkOutcome
            (fst (@run_ytdlp_with_binary string text_machine true
                    Sample.fetch_fails Sample.never_run
                    (t_url Scenario.last_task)
                    (t_download_dir Scenario.last_task)
                    (t_custom_args Scenario.last_task) None))
            (Ok tt))
         (JOBS Scenario.after_eleven, [])
       = cleanup_among Sample.dispatched_while_binary
           (J2, [] ++ [ EStatus "1700000000010" "running";
                        EBinary "https://youtu.be/abc" "/opt/ripperfox/downloads"
                                (JStr "--recode-video mp4 --embed-thumbnail --embed-metadata");
                        ELibrary "https://youtu.be/abc" true true true;
                        EStatus "1700000000010" "completed" ]).
Proof.
  exact (@run_job_among_without_binary_uses_library (Lib.host true) string
           text_machine Sample.dispatched_while_binary
           true Sample.fetch_fails Sample.never_run None None None
           Scenario.last_task (Ok tt) (JOBS Scenario.after_eleven) []
           "--recode-video mp4 --embed-thumbnail --embed-metadata"
           eq_refl eq_refl sample_dispatch_keeps_entry after_eleven_tracks_last
           eq_refl).
Defined.
